(** * BrickNPlateBot: a shallow embedding of the bot and its properties

    The development follows the four source files:
    - [Config]  : config.py  (environment settings, the recent-event logs)
    - [Tools]   : tools.py   (the four lookup tools and the tool registry)
    - [Agents]  : agents.py  (the two agent executors, the two dispatchers)
    - [Bot]     : bot.py     (the chat and event handlers)

    Python values are modelled by the inductive type [json]; Python
    exceptions by the error component of [result]; side effects (HTTP
    exchanges, the stream-info file, standard output, the chat channel, the
    process-wide event logs) by explicit state passing over [world]. *)

From Stdlib Require Import String Ascii List ZArith QArith Lia Bool.
From Stdlib Require Import DecimalString.
Import ListNotations.
Open Scope string_scope.
Open Scope Z_scope.

Set Implicit Arguments.
Set Warnings "-register-all".

(* ================================================================= *)
(** ** Python values, exceptions and the operations the bot uses *)

Module Py.

(** A Python [str] is a [string], one [ascii] for each of its characters, so
    that [String.length] is [len]: an [ascii] is the code point of the
    character, from U+0000 to U+00FF.  A [str] with a character beyond
    U+00FF has no counterpart here. *)

(** An instance of a subclass of [Exception]; [exn_str] is [str(e)]. *)
Record exn := mk_exn { exn_type : string; exn_str : string }.

(** The outcome of evaluating an expression: a value or a raised
    exception. *)
Inductive result (A : Type) : Type :=
| Ok (a : A)
| Raise (e : exn).
Arguments Ok {A} a.
Arguments Raise {A} e.

(** A Python [float]. *)
Inductive pyfloat :=
| FFinite (q : Q)
| FInf (negative : bool)
| FNan.

(** What [json()], [yaml.safe_load] and dict/list literals produce.  A
    dict is an association list in insertion order; a key is looked up
    from the left. *)
Inductive json :=
| JNull
| JBool (b : bool)
| JInt (z : Z)
| JFloat (f : pyfloat)
| JStr (s : string)
| JList (l : list json)
| JDict (m : list (string * json)).

Definition KeyError (key : string) : exn :=
  mk_exn "KeyError" ("'" ++ key ++ "'").
Definition TypeError (msg : string) : exn := mk_exn "TypeError" msg.
Definition IndexError (msg : string) : exn := mk_exn "IndexError" msg.
Definition AttributeError (msg : string) : exn :=
  mk_exn "AttributeError" msg.

(** [str(e)] *)
Definition str_exn (e : exn) : string := exn_str e.

(** [str(n)] for an [int]. *)
Definition str_int (z : Z) : string := NilZero.string_of_int (Z.to_int z).

(** [s.lower()].  Among the code points up to U+00FF the cased capitals are
    [A] to [Z] (U+0041 to U+005A) and the capitals of Latin-1, U+00C0 to
    U+00DE without the multiplication sign U+00D7; the lower-case form of
    each is 32 code points above it.  No other character of this range is
    changed by [str.lower()]. *)
Definition is_capital (n : nat) : bool :=
  ((65 <=? n)%nat && (n <=? 90)%nat) ||
  ((192 <=? n)%nat && (n <=? 222)%nat && negb (n =? 215)%nat).

Definition lower_ascii (c : ascii) : ascii :=
  let n := nat_of_ascii c in
  if is_capital n then ascii_of_nat (n + 32) else c.

Fixpoint lower (s : string) : string :=
  match s with
  | EmptyString => EmptyString
  | String c s' => String (lower_ascii c) (lower s')
  end.

(** [s.lstrip(c)] for a one-character argument. *)
Fixpoint lstrip (c : ascii) (s : string) : string :=
  match s with
  | EmptyString => EmptyString
  | String d s' => if Ascii.eqb c d then lstrip c s' else s
  end.

(** [needle in hay] for two strings. *)
Fixpoint str_in (needle hay : string) : bool :=
  prefix needle hay ||
  match hay with
  | EmptyString => false
  | String _ hay' => str_in needle hay'
  end.

(** [s[:n]] for a string. *)
Definition str_take (n : nat) (s : string) : string := substring 0 n s.

Fixpoint lookup (k : string) (m : list (string * json)) : option json :=
  match m with
  | [] => None
  | (k', v) :: m' => if String.eqb k k' then Some v else lookup k m'
  end.

Definition keys (m : list (string * json)) : list string := map fst m.

(** Truth value of an object, as [if v:] and [not v] test it. *)
Definition float_truthy (f : pyfloat) : bool :=
  match f with
  | FFinite q => negb (Qeq_bool q 0)
  | FInf _ => true
  | FNan => true
  end.

Definition truthy (v : json) : bool :=
  match v with
  | JNull => false
  | JBool b => b
  | JInt z => negb (z =? 0)
  | JFloat f => float_truthy f
  | JStr s => negb (String.eqb s "")
  | JList l => match l with [] => false | _ => true end
  | JDict m => match m with [] => false | _ => true end
  end.

(** [v[key]] for a string key. *)
Definition getitem (v : json) (key : string) : result json :=
  match v with
  | JDict m =>
      match lookup key m with
      | Some x => Ok x
      | None => Raise (KeyError key)
      end
  | JList _ => Raise (TypeError "list indices must be integers or slices, not str")
  | JStr _ => Raise (TypeError "string indices must be integers")
  | _ => Raise (TypeError "object is not subscriptable")
  end.

(** [v[0]] *)
Definition getitem0 (v : json) : result json :=
  match v with
  | JList (x :: _) => Ok x
  | JList [] => Raise (IndexError "list index out of range")
  | JStr (String c _) => Ok (JStr (String c EmptyString))
  | JStr EmptyString => Raise (IndexError "string index out of range")
  | JDict _ => Raise (mk_exn "KeyError" "0")
  | _ => Raise (TypeError "object is not subscriptable")
  end.

(** [key in v] for a string key. *)
Definition contains (key : string) (v : json) : result bool :=
  match v with
  | JDict m => Ok (match lookup key m with Some _ => true | None => false end)
  | JList l =>
      Ok (existsb (fun x => match x with
                            | JStr s => String.eqb s key
                            | _ => false
                            end) l)
  | JStr s => Ok (str_in key s)
  | _ => Raise (TypeError "argument is not iterable")
  end.

(** [v.get(key, default)] *)
Definition dict_get (v : json) (key : string) (default : json) : result json :=
  match v with
  | JDict m =>
      match lookup key m with
      | Some x => Ok x
      | None => Ok default
      end
  | _ => Raise (AttributeError "object has no attribute 'get'")
  end.

(** [v[:n]] *)
Definition slice_to (n : nat) (v : json) : result json :=
  match v with
  | JList l => Ok (JList (firstn n l))
  | JStr s => Ok (JStr (str_take n s))
  | JDict _ => Raise (mk_exn "KeyError" "slice(None, 5, None)")
  | _ => Raise (TypeError "object is not subscriptable")
  end.

Definition is_mapping (v : json) : Prop := exists m, v = JDict m.

(** A mapping whose only key is ['error']. *)
Definition error_only (v : json) : Prop :=
  exists msg, v = JDict [("error", JStr msg)].

End Py.
Import Py.

(* ================================================================= *)
(** ** config.py *)

Module Config.

(** The settings read from the environment with [os.getenv]; a variable
    that is not set is [None]. *)
Record settings := mk_settings {
  OPENAI_API_KEY : option string;
  REBRICKABLE_API_KEY : option string;
  TWITCH_BOT_USERNAME : option string;
  TWITCH_OAUTH_TOKEN : option string;
  TWITCH_CHANNEL : option string;
  TWITCH_CLIENT_ID : option string;
  TWITCH_CLIENT_SECRET : option string;
  STREAM_INFO_FILE : string
}.

Definition REBRICKABLE_BASE_URL : string := "https://rebrickable.com/api/v3".

(** The dict appended by [add_subscriber]; [timestamp] is the value of
    [datetime.now()] at the call. *)
Record subscriber_entry := mk_subscriber {
  sub_username : string;
  sub_tier : option string;
  sub_months : option Z;
  sub_message : option string;
  sub_timestamp : Z
}.

(** The dict appended by [add_raider]. *)
Record raider_entry := mk_raider {
  raid_username : string;
  raid_viewers : Z;
  raid_timestamp : Z
}.

(** The module-level dict [recent_events] with its two lists. *)
Record recent_events_t := mk_recent {
  subscribers : list subscriber_entry;
  raiders : list raider_entry
}.

(** Its value when the module is loaded. *)
Definition recent_events : recent_events_t := mk_recent [] [].

(** [l.pop(0)] on a list that is known to be non-empty: the list that
    remains. *)
Definition pop0 {A : Type} (l : list A) : list A := tl l.

Definition add_subscriber (username : string) (tier : option string)
    (months : option Z) (message : option string) (now : Z)
    (re : recent_events_t) : recent_events_t :=
  let subs := (subscribers re ++ [mk_subscriber username tier months message now])%list in
  let subs := if (10 <? length subs)%nat then pop0 subs else subs in
  mk_recent subs (raiders re).

Definition add_raider (username : string) (viewers : Z) (now : Z)
    (re : recent_events_t) : recent_events_t :=
  let rs := (raiders re ++ [mk_raider username viewers now])%list in
  let rs := if (10 <? length rs)%nat then pop0 rs else rs in
  mk_recent (subscribers re) rs.

(** One call of either function, with the clock reading it observes. *)
Inductive call :=
| AddSubscriber (username : string) (tier : option string)
    (months : option Z) (message : option string) (now : Z)
| AddRaider (username : string) (viewers : Z) (now : Z).

Definition run_call (re : recent_events_t) (c : call) : recent_events_t :=
  match c with
  | AddSubscriber u t m msg now => add_subscriber u t m msg now re
  | AddRaider u v now => add_raider u v now re
  end.

Definition run_calls (cs : list call) (re : recent_events_t) : recent_events_t :=
  fold_left run_call cs re.

(** The entries a sequence of calls appends to each list, in order. *)
Fixpoint subscriber_entries (cs : list call) : list subscriber_entry :=
  match cs with
  | [] => []
  | AddSubscriber u t m msg now :: cs' =>
      mk_subscriber u t m msg now :: subscriber_entries cs'
  | AddRaider _ _ _ :: cs' => subscriber_entries cs'
  end.

Fixpoint raider_entries (cs : list call) : list raider_entry :=
  match cs with
  | [] => []
  | AddSubscriber _ _ _ _ _ :: cs' => raider_entries cs'
  | AddRaider u v now :: cs' => mk_raider u v now :: raider_entries cs'
  end.

(** The last [n] elements of a list. *)
Definition lastn {A : Type} (n : nat) (l : list A) : list A :=
  skipn (length l - n) l.

End Config.

(* ================================================================= *)
(** ** The world the bot runs in *)

Module Runtime.

(** The HTTP requests the tools send.  Each constructor keeps every value
    the source puts into the URL, the headers and the parameters:
    - [GET_lego_set]: [GET {REBRICKABLE_BASE_URL}/lego/sets/{set_num}/] with
      the header [Authorization: key {api_key}];
    - [GET_lego_sets]: [GET {REBRICKABLE_BASE_URL}/lego/sets/] with the same
      header and the parameter [search];
    - [POST_oauth2_token]: [POST https://id.twitch.tv/oauth2/token] with the
      parameters [client_id], [client_secret] and the grant type
      [client_credentials];
    - [GET_helix_users]: [GET https://api.twitch.tv/helix/users] with the
      headers [Client-ID] and [Authorization: Bearer {access_token}] and the
      parameter [login];
    - [GET_helix_channels]:
      [GET https://api.twitch.tv/helix/channels?broadcaster_id={user_id}]
      with the same headers;
    - [GET_helix_followers]:
      [GET https://api.twitch.tv/helix/channels/followers] with the same
      headers and the parameters [broadcaster_id] and [user_id]. *)
Inductive request :=
| GET_lego_set (api_key : option string) (set_num : string)
| GET_lego_sets (api_key : option string) (search : string)
| POST_oauth2_token (client_id client_secret : option string)
| GET_helix_users (client_id : option string) (access_token : json)
    (login : string)
| GET_helix_channels (client_id : option string) (access_token : json)
    (broadcaster_id : json)
| GET_helix_followers (client_id : option string) (access_token : json)
    (broadcaster_id user_id : json).

(** A [requests.Response]: its status code and what [json()] gives (an
    exception when the body is not JSON). *)
Record response := mk_response {
  status_code : Z;
  body : result json
}.

(** One HTTP exchange: the request and either the response or the
    exception [requests] raised (connection error, timeout, ...). *)
Definition exchange : Type := request * result response.

(** An external HTTP service: its answer may depend on everything that was
    exchanged before. *)
Definition http_service : Type := list exchange -> request -> result response.

(** The file named by [STREAM_INFO_FILE]. *)
Inductive file_state :=
| FileAbsent                 (** no file; opening it for writing creates it *)
| FileCannotBeCreated (e : exn)
    (** no file, and opening it for writing raises [e] (the directory is
        missing, the location is read-only, ...) *)
| FileHolds (doc : json)     (** a YAML document that loads as [doc] *)
| FileUnreadable (e : exn).  (** opening or loading it raises [e] *)

(** A message of a conversation with the language model. *)
Inductive message :=
| SystemMessage (content : string)
| HumanMessage (content : string)
| AIMessage (content : string)
| AIToolCall (name : string) (arg : option string)
| ToolMessage (name : string) (content : json)
| CorrectiveMessage (content : string).

Record world := mk_world {
  exchanges : list exchange;           (** HTTP exchanges so far *)
  stream_info_file : file_state;
  stdout : list string;                (** lines printed so far *)
  events : Config.recent_events_t;     (** [config.recent_events] *)
  clock : Z;                           (** what [datetime.now()] reads *)
  chat : list string;                  (** texts sent to the channel *)
  model_calls : list (list message)    (** contexts sent to the model *)
}.

(** A statement or expression of the program: it runs in a world, returns
    or raises, and leaves a world. *)
Definition M (A : Type) : Type := world -> result A * world.

Definition ret {A : Type} (a : A) : M A := fun w => (Ok a, w).

Definition raise {A : Type} (e : exn) : M A := fun w => (Raise e, w).

Definition bind {A B : Type} (m : M A) (k : A -> M B) : M B :=
  fun w =>
    match m w with
    | (Ok a, w') => k a w'
    | (Raise e, w') => (Raise e, w')
    end.

(** [try: body  except Exception as e: handler] *)
Definition try_except {A : Type} (body : M A) (handler : exn -> M A) : M A :=
  fun w =>
    match body w with
    | (Ok a, w') => (Ok a, w')
    | (Raise e, w') => handler e w'
    end.

(** A pure expression that may raise. *)
Definition lift {A : Type} (r : result A) : M A := fun w => (r, w).

Definition print (line : string) : M unit :=
  fun w => (Ok tt,
            mk_world (exchanges w) (stream_info_file w) (stdout w ++ [line])%list
                     (events w) (clock w) (chat w) (model_calls w)).

(** [requests.get] and [requests.post]: the service is asked and the
    exchange is recorded. *)
Definition send_request (service : http_service) (req : request) : M response :=
  fun w =>
    let out := service (exchanges w) req in
    (out,
     mk_world (exchanges w ++ [(req, out)])%list (stream_info_file w) (stdout w)
              (events w) (clock w) (chat w) (model_calls w)).

(** [response.raise_for_status()] *)
Definition raise_for_status (r : response) : M unit :=
  if (400 <=? status_code r) && (status_code r <? 600)
  then raise (mk_exn "HTTPError" (str_int (status_code r) ++ " Error"))
  else ret tt.

(** [response.json()] *)
Definition response_json (r : response) : M json := lift (body r).

(** [os.path.exists(STREAM_INFO_FILE)] *)
Definition path_exists : M bool :=
  fun w => (Ok (match stream_info_file w with
                | FileAbsent | FileCannotBeCreated _ => false
                | FileHolds _ | FileUnreadable _ => true
                end), w).

(** [with open(STREAM_INFO_FILE, 'r') as file: yaml.safe_load(file)] *)
Definition load_yaml : M json :=
  fun w => (match stream_info_file w with
            | FileHolds doc => Ok doc
            | FileUnreadable e => Raise e
            | FileAbsent | FileCannotBeCreated _ =>
                Raise (mk_exn "FileNotFoundError" "No such file or directory")
            end, w).

(** [with open(STREAM_INFO_FILE, 'w') as file: yaml.dump(doc, file)].
    When the file cannot be opened for writing, [open] raises and nothing is
    written; otherwise the file holds the document afterwards.  A write is
    taken to fail as a whole, at [open]: a dump that is interrupted after
    the file was created is not covered. *)
Definition dump_yaml (doc : json) : M unit :=
  fun w =>
    match stream_info_file w with
    | FileCannotBeCreated e => (Raise e, w)
    | FileAbsent | FileHolds _ | FileUnreadable _ =>
        (Ok tt,
         mk_world (exchanges w) (FileHolds doc) (stdout w)
                  (events w) (clock w) (chat w) (model_calls w))
    end.

(** A successful exchange: a response came back and its status is not an
    error status. *)
Definition exchange_ok (x : exchange) : bool :=
  match snd x with
  | Ok r => negb ((400 <=? status_code r) && (status_code r <? 600))
  | Raise _ => false
  end.

End Runtime.
Import Runtime.

Declare Scope monad_scope.
Delimit Scope monad_scope with monad.
Notation "x <- m ;; k" := (bind m (fun x => k))
  (at level 61, m at next level, right associativity) : monad_scope.
Notation "m ;;; k" := (bind m (fun _ => k))
  (at level 61, right associativity) : monad_scope.

(* ================================================================= *)
(** ** tools.py *)

Module Tools.
Import Config.
Local Open Scope monad_scope.

(** The single-key mapping [{"error": msg}]. *)
Definition error_dict (msg : string) : json := JDict [("error", JStr msg)].

Definition create_default_stream_info : json :=
  JDict [
    ("current_build", JDict [
       ("set_number", JStr "42115-1");
       ("name", JStr ("Lamborghini Si" ++ String "225"%char "n FKP 37"));
       ("progress", JStr "50% complete");
       ("started_on", JStr "2025-04-01")]);
    ("schedule", JDict [
       ("monday", JStr "No stream");
       ("tuesday", JStr "7pm-10pm EST");
       ("wednesday", JStr "No stream");
       ("thursday", JStr "7pm-10pm EST");
       ("friday", JStr "8pm-12am EST");
       ("saturday", JStr "3pm-7pm EST");
       ("sunday", JStr "No stream")]);
    ("upcoming_builds", JList [
       JDict [("set_number", JStr "75192-1");
              ("name", JStr "Millennium Falcon");
              ("planned_start", JStr "April 15, 2025")];
       JDict [("set_number", JStr "10294-1");
              ("name", JStr "Titanic");
              ("planned_start", JStr "May 1, 2025")]]);
    ("channel_info", JDict [
       ("description",
        JStr "Building Lego sets brick by brick! Join us for relaxing brick building sessions.");
       ("rules", JList [
          JStr "Be kind and respectful";
          JStr "No spoilers about build techniques unless asked";
          JStr "Have fun and share your love for Lego"])]);
    ("faq", JList [
       JDict [("question", JStr "What camera do you use?");
              ("answer",
               JStr "I use a Sony a6400 for the main shot and a Sony a7III for closeups.")];
       JDict [("question", JStr "Do you take build requests?");
              ("answer",
               JStr "Yes! Subscribers can suggest builds for our community poll.")];
       JDict [("question", JStr "How long have you been streaming?");
              ("answer",
               JStr "I started streaming Lego builds in January 2024.")]])
  ].

Section WithServices.

Variable cfg : settings.
(** The Lego-catalog service and the Twitch service, as one oracle. *)
Variable service : http_service.

Definition get_lego_set_info (set_num : string) : M json :=
  try_except
    (response <- send_request service
                   (GET_lego_set (REBRICKABLE_API_KEY cfg) set_num) ;;
     raise_for_status response ;;;
     response_json response)
    (fun e =>
       print ("Error fetching Lego set " ++ set_num ++ ": " ++ str_exn e) ;;;
       ret (error_dict ("Could not find information for set " ++ set_num))).

Definition search_lego_sets (query : string) : M json :=
  try_except
    (response <- send_request service
                   (GET_lego_sets (REBRICKABLE_API_KEY cfg) query) ;;
     raise_for_status response ;;;
     j <- response_json response ;;
     results <- lift (dict_get j "results" (JList [])) ;;
     lift (slice_to 5 results))
    (fun e =>
       print ("Error searching for Lego sets with query '" ++ query
              ++ "': " ++ str_exn e) ;;;
       ret (error_dict ("Could not find any sets matching '" ++ query ++ "'"))).

(** [TWITCH_CHANNEL.lower().lstrip('#')]: an [AttributeError] when the
    variable is not set. *)
Definition channel_name_of (channel : option string) : result string :=
  match channel with
  | Some c => Ok (lstrip "#"%char (lower c))
  | None => Raise (AttributeError "'NoneType' object has no attribute 'lower'")
  end.

(** Step 4 of [get_twitch_user_info].  The local [following_since] is
    bound only on the branch where the broadcaster is resolved: the
    result is [None] while it is unbound and [Some v] once it holds
    [v]. *)
Definition check_follow (access_token user_id : json) : M (option json) :=
  channel_name <- lift (channel_name_of (TWITCH_CHANNEL cfg)) ;;
  broadcaster_response <- send_request service
    (GET_helix_users (TWITCH_CLIENT_ID cfg) access_token channel_name) ;;
  raise_for_status broadcaster_response ;;;
  broadcaster_data <- response_json broadcaster_response ;;
  bd <- lift (getitem broadcaster_data "data") ;;
  if truthy bd then
    bd0 <- lift (getitem0 bd) ;;
    broadcaster_id <- lift (getitem bd0 "id") ;;
    follows_response <- send_request service
      (GET_helix_followers (TWITCH_CLIENT_ID cfg) access_token
         broadcaster_id user_id) ;;
    raise_for_status follows_response ;;;
    follow_data <- response_json follows_response ;;
    has_data <- lift (contains "data" follow_data) ;;
    if has_data then
      fd <- lift (getitem follow_data "data") ;;
      if truthy fd then
        fd0 <- lift (getitem0 fd) ;;
        followed_at <- lift (getitem fd0 "followed_at") ;;
        ret (Some followed_at)
      else ret (Some JNull)
    else ret (Some JNull)
  else ret None.

(** The dict literal that ends [get_twitch_user_info];
    ['following_since' in locals()] is [following_since <> None] here. *)
Definition compile_user_information (user_info user_id channel_data : json)
    (following_since : option json) : M json :=
  display_name <- lift (getitem user_info "display_name") ;;
  profile_image_url <- lift (getitem user_info "profile_image_url") ;;
  created_at <- lift (getitem user_info "created_at") ;;
  description <- lift (getitem user_info "description") ;;
  broadcaster_type <- lift (getitem user_info "broadcaster_type") ;;
  ret (JDict [
    ("username", display_name);
    ("id", user_id);
    ("profile_image", profile_image_url);
    ("account_created", created_at);
    ("description", description);
    ("broadcaster_type", broadcaster_type);
    ("channel", channel_data);
    ("following_since",
      match following_since with Some v => v | None => JNull end);
    ("is_following",
      JBool match following_since with
            | Some JNull => false
            | Some _ => true
            | None => false
            end)]).

(** The body of the [try] of [get_twitch_user_info]. *)
Definition twitch_user_info_body (username : string) : M json :=
  (* Step 1: an app access token *)
  auth_response <- send_request service
    (POST_oauth2_token (TWITCH_CLIENT_ID cfg) (TWITCH_CLIENT_SECRET cfg)) ;;
  raise_for_status auth_response ;;;
  auth_json <- response_json auth_response ;;
  access_token <- lift (getitem auth_json "access_token") ;;
  (* Step 2: the user id of the username *)
  users_response <- send_request service
    (GET_helix_users (TWITCH_CLIENT_ID cfg) access_token (lower username)) ;;
  raise_for_status users_response ;;;
  user_data <- response_json users_response ;;
  ud <- lift (getitem user_data "data") ;;
  if negb (truthy ud) then
    ret (error_dict ("User '" ++ username ++ "' not found on Twitch"))
  else
    ud0 <- lift (getitem0 ud) ;;
    user_id <- lift (getitem ud0 "id") ;;
    let user_info := ud0 in
    (* Step 3: channel information *)
    channel_response <- send_request service
      (GET_helix_channels (TWITCH_CLIENT_ID cfg) access_token user_id) ;;
    raise_for_status channel_response ;;;
    channel_json <- response_json channel_response ;;
    cd <- lift (getitem channel_json "data") ;;
    channel_data <- (if truthy cd then lift (getitem0 cd)
                     else ret (JDict [])) ;;
    (* Step 4: does the user follow this channel *)
    following_since <- check_follow access_token user_id ;;
    compile_user_information user_info user_id channel_data following_since.

Definition get_twitch_user_info (username : string) : M json :=
  try_except
    (twitch_user_info_body username)
    (fun e =>
       print ("Error fetching Twitch user info for " ++ username ++ ": "
              ++ str_exn e) ;;;
       ret (error_dict ("Could not fetch information for user " ++ username
                        ++ ": " ++ str_exn e))).

(** [not category] for an [Optional[str]]. *)
Definition no_category (category : option string) : bool :=
  match category with
  | None => true
  | Some c => String.eqb c ""
  end.

Definition get_stream_info (category : option string) : M json :=
  try_except
    (file_exists <- path_exists ;;
     stream_info <-
       (if file_exists then load_yaml
        else
          let stream_info := create_default_stream_info in
          dump_yaml stream_info ;;;
          print ("Created default stream info file at "
                 ++ STREAM_INFO_FILE cfg) ;;;
          ret stream_info) ;;
     if no_category category then
       (* Return everything if no category specified *)
       ret stream_info
     else
       let c := match category with Some c => c | None => "" end in
       present <- lift (contains c stream_info) ;;
       if present then
         sub <- lift (getitem stream_info c) ;;
         ret (JDict [(c, sub)])
       else
         ret (error_dict ("No information found for category '" ++ c ++ "'")))
    (fun e =>
       print ("Error getting stream info for category '"
              ++ match category with Some c => c | None => "None" end
              ++ "': " ++ str_exn e) ;;;
       ret (error_dict ("Could not retrieve stream information: " ++ str_exn e))).

(** The input schemas of the tools: each has one string field, which only
    [StreamInfoInput] lets the caller leave out. *)
Record args_schema_t := mk_schema {
  schema_name : string;
  field_name : string;
  field_required : bool
}.

Definition LegoSetInput : args_schema_t := mk_schema "LegoSetInput" "set_num" true.
Definition LegoSearchInput : args_schema_t := mk_schema "LegoSearchInput" "query" true.
Definition TwitchUserInput : args_schema_t := mk_schema "TwitchUserInput" "username" true.
Definition StreamInfoInput : args_schema_t := mk_schema "StreamInfoInput" "category" false.

(** A [StructuredTool]: [tool_func] takes the one argument of the tool's
    [args_schema] ([None] when the caller leaves it out). *)
Record tool := mk_tool {
  tool_name : string;
  tool_description : string;
  args_schema : args_schema_t;
  tool_func : option string -> M json;
  return_direct : bool
}.

(** A function whose schema has a required string argument: without the
    argument the schema validation raises. *)
Definition required_arg (f : string -> M json) (arg : option string) : M json :=
  match arg with
  | Some a => f a
  | None => raise (mk_exn "ValidationError" "field required")
  end.

Definition get_bot_tools : list tool :=
  [ mk_tool "get_lego_set_info"
      "Get detailed information about a specific Lego set by set number"
      LegoSetInput (required_arg get_lego_set_info) false;
    mk_tool "search_lego_sets"
      "Search for Lego sets by name or theme"
      LegoSearchInput (required_arg search_lego_sets) false;
    mk_tool "get_twitch_user_info"
      "Get information about a Twitch user in the context of this channel"
      TwitchUserInput (required_arg get_twitch_user_info) false;
    mk_tool "get_stream_info"
      "Get information about the stream like schedule, current build, etc."
      StreamInfoInput get_stream_info false ].

End WithServices.

End Tools.

(* ================================================================= *)
(** ** agents.py *)

Module Agents.
Import Config Tools.
Local Open Scope monad_scope.

Definition nl : string := String (ascii_of_nat 10) EmptyString.
Definition dq : string := String (ascii_of_nat 34) EmptyString.

(** The [system_message] of [create_chat_agent]. *)
Definition chat_system_message : string :=
  "You are BrickNPlateBot, a helpful assistant for a Twitch channel focused on building Lego sets." ++ nl ++
  "    You have knowledge about Lego sets and can retrieve more detailed information using tools." ++ nl ++
  "    " ++ nl ++
  "    IMPORTANT: Your responses MUST be brief and concise, less than 400 characters. Twitch has a 500 character limit." ++ nl ++
  "    Be friendly, concise, and enthusiastic about Lego. The channel is currently building Lego sets live on stream." ++ nl ++
  "    " ++ nl ++
  "    When users ask about Lego sets:" ++ nl ++
  "    - If they mention a specific set number (like '75192' or '42115-1'), use get_lego_set_info to look it up" ++ nl ++
  "    - If they ask about sets with a theme or name (like 'Star Wars sets' or 'Millennium Falcon'), use search_lego_sets" ++ nl ++
  "    - If they ask about another user's activity or preferences, use get_twitch_user_info" ++ nl ++
  "    - If they ask about the stream schedule, current build, etc., use get_stream_info" ++ nl ++
  "    " ++ nl ++
  "    Keep your responses friendly, brief, and engaging. Feel free to use emojis and show enthusiasm about Lego." ++ nl ++
  "    Remember: MUST be under 400 characters." ++ nl ++
  "    ".

(** The [system_message] of [create_event_agent]. *)
Definition event_system_message : string :=
  "You are BrickNPlateBot, a helpful assistant for a Twitch channel focused on building Lego sets." ++ nl ++
  "    Your task is to generate personalized thank-you messages for Twitch events like subscriptions and raids." ++ nl ++
  "    " ++ nl ++
  "    IMPORTANT: Your message MUST be under 400 characters due to Twitch's 500-character limit." ++ nl ++
  "    " ++ nl ++
  "    Make your messages brief, friendly, enthusiastic, and Lego-themed." ++ nl ++
  "    " ++ nl ++
  "    You can use the get_stream_info tool to incorporate relevant details about the current build or stream schedule" ++ nl ++
  "    in your thank-you messages." ++ nl ++
  "    " ++ nl ++
  "    For subscribers:" ++ nl ++
  "    - Thank them for their support" ++ nl ++
  "    - Mention that they're helping to " ++ dq ++ "build" ++ dq ++ " the community" ++ nl ++
  "    - For resubscribers, acknowledge their continued support" ++ nl ++
  "    " ++ nl ++
  "    For raiders:" ++ nl ++
  "    - Welcome the raiders" ++ nl ++
  "    - Mention what's currently being built (use get_stream_info)" ++ nl ++
  "    - Invite them to join the building process" ++ nl ++
  "    " ++ nl ++
  "    Use Lego-themed language like " ++ dq ++ "building together," ++ dq ++ " " ++ dq ++ "connecting pieces," ++ dq ++ " " ++ dq ++ "essential building blocks," ++ dq ++ " etc." ++ nl ++
  "    Remember: MUST be under 400 characters." ++ nl ++
  "    ".

(** The parts of a [ChatPromptTemplate]. *)
Inductive prompt_part :=
| PromptSystem (text : string)
| PromptHuman (template : string)
| MessagesPlaceholder (variable_name : string).

Record ConversationBufferMemory := mk_memory {
  return_messages : bool;
  memory_key : string;
  output_key : string;
  chat_memory : list message
}.

(** What [create_openai_functions_agent(llm, tools, prompt)] is given;
    [llm] is the one model of config.py. *)
Record functions_agent := mk_agent {
  agent_tools : list tool;
  agent_prompt : list prompt_part
}.

Record AgentExecutor := mk_executor {
  agent : functions_agent;
  tools : list tool;
  memory : option ConversationBufferMemory;
  verbose : bool;
  return_intermediate_steps : bool;
  max_iterations : nat;
  handle_parsing_errors : bool
}.

(** One entry of [intermediate_steps]: the tool call and what it
    returned. *)
Record step := mk_step {
  step_tool : string;
  step_arg : option string;
  step_observation : json
}.

(** The dict an executor run returns. *)
Record run_result := mk_run_result {
  outputs : list (string * string);
  intermediate_steps : list step
}.

Fixpoint lookup_text (k : string) (m : list (string * string)) : option string :=
  match m with
  | [] => None
  | (k', v) :: m' => if String.eqb k k' then Some v else lookup_text k m'
  end.

(** [result["output"]] *)
Definition result_output (r : run_result) : result string :=
  match lookup_text "output" (outputs r) with
  | Some text => Ok text
  | None => Raise (KeyError "output")
  end.

(** The values the bot puts into the [details] of an event. *)
Inductive scalar :=
| SNone
| SBool (b : bool)
| SInt (z : Z)
| SStr (s : string).

(** [str(v)], as an f-string formats a value. *)
Definition str_scalar (v : scalar) : string :=
  match v with
  | SNone => "None"
  | SBool true => "True"
  | SBool false => "False"
  | SInt z => str_int z
  | SStr s => s
  end.

Definition scalar_truthy (v : scalar) : bool :=
  match v with
  | SNone => false
  | SBool b => b
  | SInt z => negb (z =? 0)
  | SStr s => negb (String.eqb s "")
  end.

Definition details_t : Type := list (string * scalar).

(** [details or {}]: an empty dict and [None] both give the empty dict. *)
Definition details_or_empty (details : option details_t) : details_t :=
  match details with
  | Some d => d
  | None => []
  end.

(** [details.get(key, default)] *)
Fixpoint details_get (details : details_t) (key : string) (default : scalar) : scalar :=
  match details with
  | [] => default
  | (k, v) :: rest => if String.eqb key k then v else details_get rest key default
  end.

Section WithServices.

Variable cfg : settings.
Variable service : http_service.

Definition create_chat_agent : AgentExecutor :=
  let tools := get_bot_tools cfg service in
  let prompt :=
    [ PromptSystem chat_system_message;
      MessagesPlaceholder "chat_history";
      PromptHuman "{input}";
      MessagesPlaceholder "agent_scratchpad" ] in
  let memory := mk_memory true "chat_history" "output" [] in
  let agent := mk_agent tools prompt in
  mk_executor agent tools (Some memory) true true 3 true.

Definition create_event_agent : AgentExecutor :=
  let tools := skipn 3 (get_bot_tools cfg service) in
  let prompt :=
    [ PromptSystem event_system_message;
      PromptHuman "{input}";
      MessagesPlaceholder "agent_scratchpad" ] in
  let agent := mk_agent tools prompt in
  mk_executor agent tools None true true 2 true.

(** [await agent_executor.ainvoke({"input": text})]: the library call,
    with any behaviour. *)
Variable ainvoke : AgentExecutor -> string -> M run_result.

Definition process_chat_message (username message : string) : M string :=
  let agent_executor := create_chat_agent in
  let formatted_message := username ++ ": " ++ message in
  try_except
    (result <- ainvoke agent_executor formatted_message ;;
     lift (result_output result))
    (fun e =>
       print ("Error processing message: " ++ str_exn e) ;;;
       ret ("Sorry, I encountered an error while processing your message! Error: "
            ++ str_exn e)).

Definition event_description (event_type username : string)
    (details : details_t) : string :=
  if String.eqb event_type "subscription" then
    username ++ " has subscribed with tier "
      ++ str_scalar (details_get details "tier" (SStr "1000")) ++ "."
  else if String.eqb event_type "resub" then
    username ++ " has resubscribed for "
      ++ str_scalar (details_get details "months" (SInt 1))
      ++ " months with tier "
      ++ str_scalar (details_get details "tier" (SStr "1000")) ++ "."
  else if String.eqb event_type "raid" then
    username ++ " has raided the channel with "
      ++ str_scalar (details_get details "viewers" (SInt 0)) ++ " viewers."
  else
    username ++ " triggered an event of type " ++ event_type ++ ".".

Definition event_prompt (event_type username : string)
    (details : details_t) : string :=
  event_description event_type username details
    ++ " Generate a personalized thank you message for this " ++ event_type
    ++ " event. Make it brief, enthusiastic, and Lego-themed.".

(** The fallback messages of the [except] branch of [process_event]. *)
Definition event_fallback (event_type username : string)
    (details : details_t) : string :=
  if String.eqb event_type "raid" then
    "Thanks for the amazing raid, " ++ username ++ ", with "
      ++ str_scalar (details_get details "viewers" (SInt 0))
      ++ " viewers! Welcome to our brick-building adventure!"
  else if String.eqb event_type "subscription" || String.eqb event_type "resub" then
    let months :=
      if String.eqb event_type "resub"
         && scalar_truthy (details_get details "months" SNone)
      then str_scalar (details_get details "months" (SInt 1)) ++ "-month "
      else "" in
    "Thanks for the " ++ months ++ "sub, " ++ username
      ++ "! You're an essential piece in our community!"
  else
    "Thanks, " ++ username ++ "! You're awesome!".

Definition process_event (event_type username : string)
    (details : option details_t) : M string :=
  let agent_executor := create_event_agent in
  let details := details_or_empty details in
  let prompt := event_prompt event_type username details in
  try_except
    (result <- ainvoke agent_executor prompt ;;
     lift (result_output result))
    (fun e =>
       print ("Error processing event: " ++ str_exn e) ;;;
       ret (event_fallback event_type username details)).

End WithServices.

(** Modelled from the spec: LangChain's agent executor, whose code is not
    part of the source files.  What the model returns at one step of the
    dispatch protocol: it answers directly, requests one tool call with
    an argument for that tool's parameter schema, or produces malformed
    tool-call syntax. *)
Inductive decision :=
| FinalAnswer (text : string)
| ToolCall (name : string) (arg : option string)
| MalformedCall (raw : string).

(** Modelled from the spec: the language model, missing from the source
    files (a remote service).  Its decision may depend on every context
    it was sent before; it may also fail. *)
Definition language_model : Type :=
  list (list message) -> list message -> result decision.

Section Dispatch.

Variable llm : language_model.

(** Modelled from the spec: one call of the model, missing from the
    source files; the context sent is recorded in the world. *)
Definition ask_model (context : list message) : M decision :=
  fun w =>
    (llm (model_calls w) context,
     mk_world (exchanges w) (stream_info_file w) (stdout w) (events w)
              (clock w) (chat w) (model_calls w ++ [context])%list).

(** Modelled from the spec: the working context of an invocation,
    missing from the source files: each tool call followed by its
    result. *)
Definition scratchpad_of (steps : list step) : list message :=
  flat_map (fun s => [ AIToolCall (step_tool s) (step_arg s);
                       ToolMessage (step_tool s) (step_observation s) ])
           steps.

(** Modelled from the spec: how the executor fills the prompt template,
    missing from the source files: the system text, the history held by
    the memory (none without a memory), the instruction and the working
    context. *)
Definition render_prompt (ex : AgentExecutor) (input : string)
    (steps : list step) : list message :=
  flat_map
    (fun part =>
       match part with
       | PromptSystem text => [SystemMessage text]
       | PromptHuman _ => [HumanMessage input]
       | MessagesPlaceholder v =>
           if String.eqb v "agent_scratchpad" then scratchpad_of steps
           else match memory ex with
                | Some m => if String.eqb v (memory_key m)
                            then chat_memory m else []
                | None => []
                end
       end)
    (agent_prompt (agent ex)).

(** Modelled from the spec: the tool registry of the executor, missing
    from the source files: a mapping from a tool's name to the tool. *)
Fixpoint find_tool (name : string) (ts : list tool) : option tool :=
  match ts with
  | [] => None
  | t :: ts' => if String.eqb name (tool_name t) then Some t
                else find_tool name ts'
  end.

(** Modelled from the spec: the execution of a requested tool, missing
    from the source files; a name outside the registry gives a
    corrective observation. *)
Definition execute_tool (ex : AgentExecutor) (name : string)
    (arg : option string) : M json :=
  match find_tool name (tools ex) with
  | Some t => tool_func t arg
  | None => ret (JStr (name ++ " is not a valid tool"))
  end.

(** Modelled from the spec: the text returned when the iteration cap is
    reached, missing from the source files. *)
Definition stopped_response : string :=
  "Agent stopped due to iteration limit or time limit.".

(** Modelled from the spec: the corrective message that answers
    malformed tool-call syntax, missing from the source files. *)
Definition corrective_response : string := "Invalid or incomplete response".

(** Modelled from the spec: the dict a finished invocation returns, missing
    from the source files: the instruction, the final text under
    ['output'] and the steps taken. *)
Definition finish (input text : string) (steps : list step) : run_result :=
  mk_run_result [("input", input); ("output", text)] steps.

(** Modelled from the spec: the dispatch loop, missing from the source
    files: [awaiting_model_decision -> tool_call -> execute_tool ->
    awaiting_model_decision | final_answer], with the iteration ceiling
    forcing termination.  [iterations_left] starts at
    [max_iterations]. *)
Fixpoint dispatch_loop (ex : AgentExecutor) (input : string)
    (iterations_left : nat) (steps : list step) : M run_result :=
  match iterations_left with
  | O => ret (finish input stopped_response steps)
  | S n =>
      d <- ask_model (render_prompt ex input steps) ;;
      match d with
      | FinalAnswer text => ret (finish input text steps)
      | ToolCall name arg =>
          observation <- execute_tool ex name arg ;;
          dispatch_loop ex input n
            (steps ++ [mk_step name arg observation])%list
      | MalformedCall raw =>
          if handle_parsing_errors ex then
            dispatch_loop ex input n
              (steps ++ [mk_step "_Exception" (Some raw)
                           (JStr corrective_response)])%list
          else raise (mk_exn "OutputParserException" raw)
      end
  end.

(** Modelled from the spec: [AgentExecutor.ainvoke], missing from the
    source files. *)
Definition AgentExecutor_ainvoke (ex : AgentExecutor) (input : string)
    : M run_result :=
  dispatch_loop ex input (max_iterations ex) [].

End Dispatch.

End Agents.

(* ================================================================= *)
(** ** bot.py *)

Module Bot.
Import Config Tools Agents.
Local Open Scope monad_scope.

(** A chat message as [event_message] receives it. *)
Record chat_message := mk_chat_message {
  echo : bool;
  content : string;
  author_name : string
}.

(** The event of [event_subscribe]. *)
Record subscribe_event := mk_subscribe_event {
  subscribe_user_name : string;
  subscribe_sub_plan : string
}.

(** The event of [event_resub]; [resub_message] is the content of
    [event.message], [None] when there is no message. *)
Record resub_event := mk_resub_event {
  resub_user_name : string;
  resub_sub_plan : string;
  cumulative_months : Z;
  resub_message : option string
}.

(** The event of [event_raid]. *)
Record raid_event := mk_raid_event {
  raider_name : string;
  viewers : Z
}.

(** [await channel.send(text)] *)
Definition channel_send (text : string) : M unit :=
  fun w => (Ok tt,
            mk_world (exchanges w) (stream_info_file w) (stdout w) (events w)
                     (clock w) (chat w ++ [text])%list (model_calls w)).

(** [config.add_subscriber] and [config.add_raider] on the process-wide
    logs. *)
Definition add_subscriber (username : string) (tier : option string)
    (months : option Z) (message : option string) : M unit :=
  fun w => (Ok tt,
            mk_world (exchanges w) (stream_info_file w) (stdout w)
                     (Config.add_subscriber username tier months message
                        (clock w) (events w))
                     (clock w) (chat w) (model_calls w)).

Definition add_raider (username : string) (viewers : Z) : M unit :=
  fun w => (Ok tt,
            mk_world (exchanges w) (stream_info_file w) (stdout w)
                     (Config.add_raider username viewers (clock w) (events w))
                     (clock w) (chat w) (model_calls w)).

(** The truncation each handler applies before it sends:
    [if len(text) > 500: text = text[:497] + "..."]. *)
Definition truncate (text : string) : string :=
  if (500 <? String.length text)%nat then str_take 497 text ++ "..."
  else text.

Section WithServices.

Variable cfg : settings.
Variable service : http_service.
Variable ainvoke : AgentExecutor -> string -> M run_result.

Definition event_message (message : chat_message) : M unit :=
  if echo message then ret tt
  else
    let content := lower (content message) in
    if str_in "bricknplatebot" content then
      response <- process_chat_message cfg service ainvoke
                    (author_name message) (Bot.content message) ;;
      channel_send (truncate response)
    else ret tt.

Definition event_subscribe (event : subscribe_event) : M unit :=
  add_subscriber (subscribe_user_name event)
    (Some (subscribe_sub_plan event)) None None ;;;
  message <- process_event cfg service ainvoke "subscription"
               (subscribe_user_name event)
               (Some [("tier", SStr (subscribe_sub_plan event))]) ;;
  channel_send (truncate message).

Definition event_resub (event : resub_event) : M unit :=
  let text := match resub_message event with
              | Some c => c
              | None => ""
              end in
  add_subscriber (resub_user_name event) (Some (resub_sub_plan event))
    (Some (cumulative_months event)) (Some text) ;;;
  message <- process_event cfg service ainvoke "resub"
               (resub_user_name event)
               (Some [("months", SInt (cumulative_months event));
                      ("tier", SStr (resub_sub_plan event));
                      ("message", SStr text)]) ;;
  channel_send (truncate message).

Definition event_raid (event : raid_event) : M unit :=
  add_raider (raider_name event) (viewers event) ;;;
  message <- process_event cfg service ainvoke "raid"
               (raider_name event)
               (Some [("viewers", SInt (viewers event))]) ;;
  channel_send (truncate message).

End WithServices.

End Bot.

(* ================================================================= *)
(** ** bot.py: start-up *)

Module BotStartup.
Import Config.
Local Open Scope monad_scope.

(** [sep.join(items)]: every item has to be a [str]; [None] stands for an
    item that is [None]. *)
Fixpoint str_join_from (sep : string) (index : nat)
    (items : list (option string)) : result string :=
  match items with
  | [] => Ok ""
  | None :: _ =>
      Raise (TypeError ("sequence item " ++ str_int (Z.of_nat index)
                        ++ ": expected str instance, NoneType found"))
  | Some s :: rest =>
      match rest with
      | [] => Ok s
      | _ :: _ =>
          match str_join_from sep (S index) rest with
          | Ok tail => Ok (s ++ sep ++ tail)
          | Raise e => Raise e
          end
      end
  end.

Definition str_join (sep : string) (items : list (option string))
    : result string :=
  str_join_from sep 0 items.

(** [f"{v}"] for a setting: [None] prints as ["None"]. *)
Definition str_setting (v : option string) : string :=
  match v with
  | Some s => s
  | None => "None"
  end.

(** The attributes [BrickNPlateBot.__init__] sets. *)
Record bot_state := mk_bot {
  token : option string;
  prefix : string;
  initial_channels : list (option string);
  connected_channels : list (option string)
}.

(** [BrickNPlateBot.__init__] *)
Definition init_bot (cfg : settings) : bot_state :=
  mk_bot (TWITCH_OAUTH_TOKEN cfg) "" [TWITCH_CHANNEL cfg] [TWITCH_CHANNEL cfg].

(** [BrickNPlateBot.event_ready] *)
Definition event_ready (cfg : settings) (self : bot_state) : M unit :=
  print (str_setting (TWITCH_BOT_USERNAME cfg) ++ " is online!") ;;;
  joined <- lift (str_join ", " (connected_channels self)) ;;
  print ("Joined channels: " ++ joined).

End BotStartup.

(* ================================================================= *)
(** * Properties *)

Import Config Tools Agents Bot.

(* ----------------------------------------------------------------- *)
(** ** Vocabulary of the statements *)

(** The append-then-trim step both [add_subscriber] and [add_raider]
    perform on their list. *)
Definition push_capped {A : Type} (l : list A) (e : A) : list A :=
  let l' := (l ++ [e])%list in
  if (10 <? length l')%nat then pop0 l' else l'.

(** What the binding may send for a reply: at most 500 characters, the
    reply itself when it fits, its first 497 characters and an ellipsis
    otherwise. *)
Definition fits_twitch (reply sent : string) : Prop :=
  (String.length sent <= 500)%nat /\
  ((500 < String.length reply)%nat -> sent = substring 0 497 reply ++ "...") /\
  ((String.length reply <= 500)%nat -> sent = reply).

(** The world after a computation, and its outcome. *)
Definition world_after {A : Type} (m : M A) (w : world) : world := snd (m w).
Definition outcome_of {A : Type} (m : M A) (w : world) : result A := fst (m w).

(** The dispatch invocation of a dispatcher raises [e]: the executor call
    raises it, or reading [result["output"]] does. *)
Definition dispatch_raises (ainvoke : AgentExecutor -> string -> M run_result)
    (ex : AgentExecutor) (input : string) (w : world) (e : exn) (w1 : world)
    : Prop :=
  ainvoke ex input w = (Raise e, w1) \/
  exists r, ainvoke ex input w = (Ok r, w1) /\ result_output r = Raise e.

(** Concrete settings, a world in which nothing has happened yet, a service
    that cannot be reached and an executor call that fails: the inputs of
    the examples below. *)
Definition example_settings : settings :=
  mk_settings (Some "sk-example") (Some "rebrickable-key")
    (Some "BrickNPlateBot") (Some "oauth:example") (Some "#BrickNPlate")
    (Some "client-id") (Some "client-secret") "stream_info.yaml".

Definition initial_world : world :=
  mk_world [] FileAbsent [] recent_events 0 [] [].

Definition unreachable_service : http_service :=
  fun _ _ => Raise (mk_exn "ConnectionError" "connection refused").

Definition failing_ainvoke : AgentExecutor -> string -> M run_result :=
  fun _ _ => raise (mk_exn "APIError" "model unavailable").

(** The status of a response is not an error status. *)
Definition status_ok (r : response) : bool :=
  negb ((400 <=? status_code r) && (status_code r <? 600)).

(** The world once an exchange has been recorded. *)
Definition record_exchange (w : world) (x : exchange) : world :=
  mk_world (exchanges w ++ [x])%list (stream_info_file w) (stdout w)
           (events w) (clock w) (chat w) (model_calls w).

(** The exchanges made between two worlds. *)
Definition new_exchanges (w w' : world) : list exchange :=
  skipn (length (exchanges w)) (exchanges w').

(** The JSON document an exchange delivers: none when the service could not
    be reached, answered with an error status, or sent a body that is not
    JSON. *)
Definition delivered (out : result response) : option json :=
  match out with
  | Ok r => if status_ok r
            then match body r with Ok j => Some j | Raise _ => None end
            else None
  | Raise _ => None
  end.

(** The keys of a successful [get_twitch_user_info] result, in order. *)
Definition user_info_keys : list string :=
  [ "username"; "id"; "profile_image"; "account_created"; "description";
    "broadcaster_type"; "channel"; "following_since"; "is_following" ].

(** The world after a sequence of [get_stream_info] calls. *)
Definition after_stream_info_calls (cfg : settings)
    (categories : list (option string)) (w : world) : world :=
  fold_left (fun w c => world_after (get_stream_info cfg c) w)
            categories w.

(** A world whose stream-info file holds the default document. *)
Definition world_with_default_file : world :=
  mk_world [] (FileHolds create_default_stream_info) [] recent_events 0 [] [].

(** A world in which the stream-info file is missing and cannot be
    created. *)
Definition read_only_world : world :=
  mk_world []
    (FileCannotBeCreated
       (mk_exn "PermissionError"
          "[Errno 13] Permission denied: 'stream_info.yaml'"))
    [] recent_events 0 [] [].

(** What the followers response [follow_data] says: the date the user
    followed the channel, or [None] when the response has no (or an empty)
    ['data']. *)
Definition follow_status (follow_data following_since : json) : Prop :=
  (contains "data" follow_data = Ok false /\ following_since = JNull) \/
  (contains "data" follow_data = Ok true /\
   exists fd,
     getitem follow_data "data" = Ok fd /\
     ((truthy fd = false /\ following_since = JNull) \/
      (truthy fd = true /\
       exists fd0, getitem0 fd = Ok fd0 /\
                   getitem fd0 "followed_at" = Ok following_since))).

(** Step 4 of the user lookup went through: the exchanges [xs] it made and
    the local [following_since] it leaves (unbound when the bot's own
    channel is not resolved). *)
Definition follow_lookup (cfg : settings) (access_token user_id : json)
    (xs : list exchange) (following_since : option json) : Prop :=
  exists channel_name r4 broadcaster_data bd rest,
    xs = (GET_helix_users (TWITCH_CLIENT_ID cfg) access_token channel_name,
          Ok r4) :: rest /\
    channel_name_of (TWITCH_CHANNEL cfg) = Ok channel_name /\
    status_ok r4 = true /\
    body r4 = Ok broadcaster_data /\
    getitem broadcaster_data "data" = Ok bd /\
    ((truthy bd = false /\ rest = [] /\ following_since = None) \/
     (truthy bd = true /\
      exists bd0 broadcaster_id r5 follow_data since,
        rest = [(GET_helix_followers (TWITCH_CLIENT_ID cfg) access_token
                   broadcaster_id user_id, Ok r5)] /\
        getitem0 bd = Ok bd0 /\
        getitem bd0 "id" = Ok broadcaster_id /\
        status_ok r5 = true /\
        body r5 = Ok follow_data /\
        follow_status follow_data since /\
        following_since = Some since)).

(** The whole user lookup went through: the exchanges [xs] it made, in
    order, and the mapping [v] it composes from their answers. *)
Definition user_lookup (cfg : settings) (username : string)
    (xs : list exchange) (v : json) : Prop :=
  exists r1 auth_json access_token r2 user_data ud user_info user_id
         r3 channel_json cd channel_data xs4 following_since,
    xs = ([ (POST_oauth2_token (TWITCH_CLIENT_ID cfg) (TWITCH_CLIENT_SECRET cfg),
             Ok r1);
            (GET_helix_users (TWITCH_CLIENT_ID cfg) access_token
               (lower username), Ok r2);
            (GET_helix_channels (TWITCH_CLIENT_ID cfg) access_token user_id,
             Ok r3) ] ++ xs4)%list /\
    status_ok r1 = true /\
    body r1 = Ok auth_json /\
    getitem auth_json "access_token" = Ok access_token /\
    status_ok r2 = true /\
    body r2 = Ok user_data /\
    getitem user_data "data" = Ok ud /\
    truthy ud = true /\
    getitem0 ud = Ok user_info /\
    getitem user_info "id" = Ok user_id /\
    status_ok r3 = true /\
    body r3 = Ok channel_json /\
    getitem channel_json "data" = Ok cd /\
    (if truthy cd then getitem0 cd = Ok channel_data
     else channel_data = JDict []) /\
    follow_lookup cfg access_token user_id xs4 following_since /\
    exists display_name profile_image_url created_at description
           broadcaster_type,
      getitem user_info "display_name" = Ok display_name /\
      getitem user_info "profile_image_url" = Ok profile_image_url /\
      getitem user_info "created_at" = Ok created_at /\
      getitem user_info "description" = Ok description /\
      getitem user_info "broadcaster_type" = Ok broadcaster_type /\
      v = JDict [
        ("username", display_name);
        ("id", user_id);
        ("profile_image", profile_image_url);
        ("account_created", created_at);
        ("description", description);
        ("broadcaster_type", broadcaster_type);
        ("channel", channel_data);
        ("following_since",
          match following_since with Some since => since | None => JNull end);
        ("is_following",
          JBool match following_since with
                | Some JNull => false
                | Some _ => true
                | None => false
                end)].

(** The exchanges [xs] are what the service answers when their requests
    are sent one after the other, after the exchanges [before]. *)
Fixpoint answered_by (service : http_service) (before xs : list exchange)
    : Prop :=
  match xs with
  | [] => True
  | x :: rest =>
      service before (fst x) = snd x /\
      answered_by service (before ++ [x])%list rest
  end.

(** The world once the exchanges [xs] have been recorded, in order. *)
Definition record_exchanges (w : world) (xs : list exchange) : world :=
  fold_left record_exchange xs w.

(** A response with status 200 and a JSON body. *)
Definition ok_response (j : json) : result response :=
  Ok (mk_response 200 (Ok j)).

(** A service for the examples: it knows one Lego set and one Twitch user,
    ["alice"]; [bot_data] is the ['data'] it returns for the bot's own
    channel and [follow_data] the ['data'] of the followers lookup. *)
Definition example_service (bot_data follow_data : json) : http_service :=
  fun _ req =>
    match req with
    | GET_lego_set _ _ =>
        ok_response (JDict [("set_num", JStr "75192-1");
                            ("name", JStr "Millennium Falcon")])
    | GET_lego_sets _ _ =>
        ok_response (JDict [("count", JInt 1);
                            ("results",
                             JList [JDict [("set_num", JStr "75192-1");
                                           ("name", JStr "Millennium Falcon")]])])
    | POST_oauth2_token _ _ =>
        ok_response (JDict [("access_token", JStr "token")])
    | GET_helix_users _ _ login =>
        if String.eqb login "alice" then
          ok_response (JDict [("data", JList [JDict [
            ("id", JStr "1001");
            ("display_name", JStr "Alice");
            ("profile_image_url", JStr "https://example.org/alice.png");
            ("created_at", JStr "2020-01-01T00:00:00Z");
            ("description", JStr "");
            ("broadcaster_type", JStr "")]])])
        else ok_response (JDict [("data", bot_data)])
    | GET_helix_channels _ _ _ => ok_response (JDict [("data", JList [])])
    | GET_helix_followers _ _ _ _ => ok_response (JDict [("data", follow_data)])
    end.

(** The example service when the bot's own channel is resolved and the
    user follows it, and what the lookup of ["alice"] returns then. *)
Definition follower_service : http_service :=
  example_service (JList [JDict [("id", JStr "42")]])
    (JList [JDict [("followed_at", JStr "2024-05-01T00:00:00Z")]]).

Definition follower_info : json :=
  JDict [
    ("username", JStr "Alice");
    ("id", JStr "1001");
    ("profile_image", JStr "https://example.org/alice.png");
    ("account_created", JStr "2020-01-01T00:00:00Z");
    ("description", JStr "");
    ("broadcaster_type", JStr "");
    ("channel", JDict []);
    ("following_since", JStr "2024-05-01T00:00:00Z");
    ("is_following", JBool true)].

(** An executor call that answers with [text] at once. *)
Definition answering_ainvoke (text : string)
    : AgentExecutor -> string -> M run_result :=
  fun _ input => ret (mk_run_result [("input", input); ("output", text)] []).

(** A text of [n] characters. *)
Definition text_of_length (n : nat) : string :=
  string_of_list_ascii (repeat "a"%char n).

(** A computation that does not consult the language model. *)
Definition keeps_model_calls {A : Type} (m : M A) : Prop :=
  forall w, model_calls (world_after m w) = model_calls w.

(** A computation that returns (it does not raise). *)
Definition returns {A : Type} (m : M A) : Prop :=
  forall w, exists a w', m w = (Ok a, w').

(** A model that requests a tool call, with an argument, at every step and
    never gives a final answer. *)
Definition always_calls_tool (llm : language_model) : Prop :=
  forall history context,
    exists name a, llm history context = Ok (ToolCall name (Some a)).

(** Such a model: it asks for the schedule again and again. *)
Definition insistent_model : language_model :=
  fun _ _ => Ok (ToolCall "get_stream_info" (Some "schedule")).

(** A computation that leaves a component of the world as it is. *)
Definition preserves {A X : Type} (component : world -> X) (m : M A) : Prop :=
  forall w, component (world_after m w) = component w.

(** Every exchange but the last one succeeded. *)
Definition all_but_last_ok (xs : list exchange) : Prop :=
  Forall (fun x => exchange_ok x = true) (removelast xs).

(** A computation that sends at most [n] requests, stops sending after a
    failed exchange, and returns only when every exchange succeeded. *)
Definition request_discipline {A : Type} (n : nat) (m : M A) : Prop :=
  forall w,
    exists xs,
      exchanges (world_after m w) = (exchanges w ++ xs)%list /\
      (length xs <= n)%nat /\
      match outcome_of m w with
      | Ok _ => Forall (fun x => exchange_ok x = true) xs
      | Raise _ => all_but_last_ok xs
      end.

(** The conversation history an executor holds. *)
Definition history_of (ex : AgentExecutor) : list message :=
  match memory ex with
  | Some m => chat_memory m
  | None => []
  end.

(** An executor call that neither sends to the channel nor touches the
    recent-event logs. *)
Definition quiet (ainvoke : AgentExecutor -> string -> M run_result) : Prop :=
  forall ex input,
    preserves chat (ainvoke ex input) /\ preserves events (ainvoke ex input).

(** An executor call that fails when it is given an empty history and
    answers otherwise. *)
Definition history_sensitive_ainvoke
    : AgentExecutor -> string -> M run_result :=
  fun ex input =>
    match history_of ex with
    | [] => failing_ainvoke ex input
    | _ :: _ => answering_ainvoke "I remember you" ex input
    end.

(** A document is a mapping. *)
Definition is_dict (v : json) : bool :=
  match v with
  | JDict _ => true
  | _ => false
  end.

(** Two runs that leave the same world and return the same value, unless
    both return an error mapping. *)
Definition same_but_error_text (p q : result json * world) : Prop :=
  snd p = snd q /\
  (fst p = fst q \/
   exists a b, fst p = Ok (error_dict a) /\ fst q = Ok (error_dict b)).

(** The settings with [TWITCH_CHANNEL] set to [channel]. *)
Definition with_channel (cfg : settings) (channel : string) : settings :=
  mk_settings (OPENAI_API_KEY cfg) (REBRICKABLE_API_KEY cfg)
    (TWITCH_BOT_USERNAME cfg) (TWITCH_OAUTH_TOKEN cfg) (Some channel)
    (TWITCH_CLIENT_ID cfg) (TWITCH_CLIENT_SECRET cfg) (STREAM_INFO_FILE cfg).

(* ----------------------------------------------------------------- *)
(** ** The recent-event logs (config.py) *)

Section CappedLog.

Context {A : Type}.

Lemma push_capped_full (l : list A) (e : A) :
  length l = 10%nat -> push_capped l e = (tl l ++ [e])%list.
Proof.
  intros Hl. unfold push_capped, pop0.
  destruct (Nat.ltb_spec 10 (length (l ++ [e])%list)) as [Hlt | Hge].
  - destruct l; [discriminate | reflexivity].
  - rewrite length_app in Hge. simpl in Hge. lia.
Qed.

Lemma tl_skipn (n : nat) (l : list A) : tl (skipn n l) = skipn (S n) l.
Proof.
  revert l. induction n as [| n IH]; intros [| x l]; simpl; auto.
Qed.

Lemma lastn_push (es : list A) (e : A) :
  lastn 10 (es ++ [e]) = push_capped (lastn 10 es) e.
Proof.
  unfold lastn, push_capped, pop0.
  rewrite !length_app, length_skipn. simpl.
  destruct (Nat.ltb_spec 10 (length es - (length es - 10) + 1)) as [Hlt | Hge].
  - assert (Hes : (10 <= length es)%nat) by lia.
    replace (length es + 1 - 10)%nat with (S (length es - 10)) by lia.
    rewrite <- tl_skipn. f_equal.
    rewrite skipn_app.
    replace (length es - 10 - length es)%nat with 0%nat by lia.
    reflexivity.
  - assert (Hes : (length es < 10)%nat) by lia.
    replace (length es + 1 - 10)%nat with 0%nat by lia.
    replace (length es - 10)%nat with 0%nat by lia.
    reflexivity.
Qed.

Lemma lastn_length (es : list A) : (length (lastn 10 es) <= 10)%nat.
Proof. unfold lastn. rewrite length_skipn. lia. Qed.

End CappedLog.

Lemma add_subscriber_push u t m msg now re :
  Config.add_subscriber u t m msg now re =
  mk_recent (push_capped (subscribers re) (mk_subscriber u t m msg now))
            (raiders re).
Proof. reflexivity. Qed.

Lemma add_raider_push u v now re :
  Config.add_raider u v now re =
  mk_recent (subscribers re) (push_capped (raiders re) (mk_raider u v now)).
Proof. reflexivity. Qed.

(** The logs after a sequence of calls hold the last ten entries appended to
    each list, whatever the (tracked) logs were before. *)
Lemma run_calls_lastn (cs : list call) :
  forall (re : recent_events_t) (ss : list subscriber_entry)
         (rs : list raider_entry),
    subscribers re = lastn 10 ss ->
    raiders re = lastn 10 rs ->
    subscribers (run_calls cs re) = lastn 10 (ss ++ subscriber_entries cs) /\
    raiders (run_calls cs re) = lastn 10 (rs ++ raider_entries cs).
Proof.
  induction cs as [| c cs IH]; intros re ss rs Hs Hr; simpl.
  - rewrite !app_nil_r. auto.
  - destruct c as [u t m msg now | u v now]; simpl.
    + specialize (IH (Config.add_subscriber u t m msg now re)
                     (ss ++ [mk_subscriber u t m msg now])%list rs).
      rewrite <- !app_assoc in IH. simpl in IH. apply IH.
      * rewrite lastn_push, <- Hs. reflexivity.
      * exact Hr.
    + specialize (IH (Config.add_raider u v now re) ss
                     (rs ++ [mk_raider u v now])%list).
      rewrite <- !app_assoc in IH. simpl in IH. apply IH.
      * exact Hs.
      * rewrite lastn_push, <- Hr. reflexivity.
Qed.

(** C2: from the empty logs, after any sequence of [add_subscriber] and
    [add_raider] calls each list holds at most 10 entries, namely the last
    ten appended to it in order; an append to a list of 10 entries drops
    exactly the first (oldest) entry, keeps the others in order and puts the
    new entry last, so the new entry is present and the oldest one (when no
    other entry equals it) is absent. *)
Theorem C2_recent_events_capped (cs : list call) :
  let re := run_calls cs recent_events in
  (length (subscribers re) <= 10)%nat /\
  (length (raiders re) <= 10)%nat /\
  subscribers re = lastn 10 (subscriber_entries cs) /\
  raiders re = lastn 10 (raider_entries cs) /\
  (forall u t m msg now,
      length (subscribers re) = 10%nat ->
      let e := mk_subscriber u t m msg now in
      let re' := Config.add_subscriber u t m msg now re in
      subscribers re' = (tl (subscribers re) ++ [e])%list /\
      In e (subscribers re') /\
      (forall old, hd_error (subscribers re) = Some old ->
                   NoDup (subscribers re ++ [e]) ->
                   ~ In old (subscribers re'))) /\
  (forall u v now,
      length (raiders re) = 10%nat ->
      let e := mk_raider u v now in
      let re' := Config.add_raider u v now re in
      raiders re' = (tl (raiders re) ++ [e])%list /\
      In e (raiders re') /\
      (forall old, hd_error (raiders re) = Some old ->
                   NoDup (raiders re ++ [e]) ->
                   ~ In old (raiders re'))).
Proof.
  intros re.
  destruct (@run_calls_lastn cs recent_events [] [] eq_refl eq_refl)
    as [Hs Hr].
  simpl in Hs, Hr. fold re in Hs, Hr.
  assert (Hevict : forall (A : Type) (l : list A) (e : A),
             length l = 10%nat ->
             push_capped l e = (tl l ++ [e])%list /\
             In e (push_capped l e) /\
             (forall old, hd_error l = Some old -> NoDup (l ++ [e]) ->
                          ~ In old (push_capped l e))).
  { intros A l e Hl. rewrite (push_capped_full l e Hl).
    split; [reflexivity | split].
    - apply in_or_app. right. left. reflexivity.
    - intros old Hold Hnd. destruct l as [| x l]; [discriminate |].
      simpl in Hold. injection Hold as ->. simpl in *.
      apply NoDup_cons_iff in Hnd. tauto. }
  repeat split.
  - rewrite Hs. apply lastn_length.
  - rewrite Hr. apply lastn_length.
  - exact Hs.
  - exact Hr.
  - rewrite add_subscriber_push. simpl. apply Hevict. assumption.
  - rewrite add_subscriber_push. simpl. apply Hevict. assumption.
  - rewrite add_subscriber_push. simpl. apply Hevict. assumption.
  - rewrite add_raider_push. simpl. apply Hevict. assumption.
  - rewrite add_raider_push. simpl. apply Hevict. assumption.
  - rewrite add_raider_push. simpl. apply Hevict. assumption.
Qed.

(** Ten subscriptions fill the list; the eleventh drops the first. *)
Lemma C2_recent_events_capped_witness :
  let cs := map (fun n => AddSubscriber "viewer" (Some "1000") None None n)
                [1; 2; 3; 4; 5; 6; 7; 8; 9; 10] in
  let re := run_calls cs recent_events in
  let e := mk_subscriber "newest" (Some "1000") None None 11 in
  length (subscribers re) = 10%nat /\
  subscribers (Config.add_subscriber "newest" (Some "1000") None None 11 re)
  = (tl (subscribers re) ++ [e])%list.
Proof.
  intros cs re e.
  assert (Hfull : length (subscribers re) = 10%nat) by (vm_compute; reflexivity).
  split; [exact Hfull |].
  destruct (C2_recent_events_capped cs) as (_ & _ & _ & _ & H & _).
  destruct (H "newest" (Some "1000") None None 11 Hfull) as [H1 _].
  exact H1.
Defined.

(* ----------------------------------------------------------------- *)
(** ** The dispatchers never raise (agents.py) *)

Section Dispatchers.

Variable cfg : settings.
Variable service : http_service.
Variable ainvoke : AgentExecutor -> string -> M run_result.

(** The three ways a dispatcher call can go. *)
Lemma process_chat_message_cases (username message : string) (w : world) :
  let input := username ++ ": " ++ message in
  match ainvoke (create_chat_agent cfg service) input w with
  | (Ok r, w1) =>
      match result_output r with
      | Ok text =>
          process_chat_message cfg service ainvoke username message w
          = (Ok text, w1)
      | Raise e =>
          process_chat_message cfg service ainvoke username message w
          = (Ok ("Sorry, I encountered an error while processing your message! Error: "
                 ++ str_exn e),
             world_after (print ("Error processing message: " ++ str_exn e)) w1)
      end
  | (Raise e, w1) =>
      process_chat_message cfg service ainvoke username message w
      = (Ok ("Sorry, I encountered an error while processing your message! Error: "
             ++ str_exn e),
         world_after (print ("Error processing message: " ++ str_exn e)) w1)
  end.
Proof.
  unfold process_chat_message, try_except, bind, lift. cbv zeta.
  destruct (ainvoke _ _ w) as [[r | e] w1]; [destruct (result_output r) |];
    reflexivity.
Qed.

Lemma process_chat_message_returns (username message : string) (w : world) :
  exists reply w1,
    process_chat_message cfg service ainvoke username message w = (Ok reply, w1).
Proof.
  pose proof (process_chat_message_cases username message w) as H.
  cbv zeta in H.
  destruct (ainvoke _ _ w) as [[r | e] w1];
    [destruct (result_output r) |]; rewrite H; eauto.
Qed.

Lemma process_event_returns (event_type username : string)
    (details : option details_t) (w : world) :
  exists reply w1,
    process_event cfg service ainvoke event_type username details w
    = (Ok reply, w1).
Proof.
  unfold process_event, try_except, bind, lift, print, ret. cbv zeta.
  destruct (ainvoke _ _ w) as [[r | e] w1];
    [destruct (result_output r) |]; eauto.
Qed.

(** [process_event] normalises [details] with [details or {}]. *)
Lemma process_event_cases (event_type username : string)
    (details : option details_t) (w : world) :
  let d := details_or_empty details in
  let prompt := event_prompt event_type username d in
  let fallback := event_fallback event_type username d in
  match ainvoke (create_event_agent cfg service) prompt w with
  | (Ok r, w1) =>
      match result_output r with
      | Ok text =>
          process_event cfg service ainvoke event_type username details w
          = (Ok text, w1)
      | Raise e =>
          process_event cfg service ainvoke event_type username details w
          = (Ok fallback,
             world_after (print ("Error processing event: " ++ str_exn e)) w1)
      end
  | (Raise e, w1) =>
      process_event cfg service ainvoke event_type username details w
      = (Ok fallback,
         world_after (print ("Error processing event: " ++ str_exn e)) w1)
  end.
Proof.
  unfold process_event, try_except, bind, lift. cbv zeta.
  destruct (ainvoke _ _ w) as [[r | e] w1]; [destruct (result_output r) |];
    reflexivity.
Qed.

End Dispatchers.

(* ----------------------------------------------------------------- *)
(** ** Truncation of outgoing text (bot.py) *)

Lemma string_length_app (a b : string) :
  String.length (a ++ b) = (String.length a + String.length b)%nat.
Proof. induction a as [| c a IH]; simpl; [reflexivity | now rewrite IH]. Qed.

Lemma string_app_assoc (a b c : string) : (a ++ b) ++ c = a ++ (b ++ c).
Proof. induction a as [| x a IH]; simpl; [reflexivity | now rewrite IH]. Qed.

Lemma substring_0_length (n : nat) :
  forall s : string,
    (n <= String.length s)%nat -> String.length (substring 0 n s) = n.
Proof.
  induction n as [| n IH]; intros [| c s] Hn; simpl in *;
    try reflexivity; try lia.
  rewrite IH by lia. reflexivity.
Qed.

Lemma truncate_fits (reply : string) : fits_twitch reply (truncate reply).
Proof.
  unfold fits_twitch, truncate, str_take.
  destruct (Nat.ltb_spec 500 (String.length reply)) as [Hlong | Hshort].
  - repeat split.
    + rewrite string_length_app, substring_0_length by lia. simpl. lia.
    + lia.
  - repeat split; [exact Hshort | lia].
Qed.

(** C3: whatever the dispatcher replies, the text a handler sends is at most
    500 characters long, and for a reply of more than 500 characters it is
    the reply's first 497 characters followed by the ellipsis.  Each handler
    sends exactly [truncate reply], where [reply] is what its dispatcher
    returned; [event_message] sends nothing for an echo or a message that
    does not mention the bot. *)
Theorem C3_outgoing_text_truncated
    (cfg : settings) (service : http_service)
    (ainvoke : AgentExecutor -> string -> M run_result) :
  (forall reply, fits_twitch reply (truncate reply)) /\
  (forall (message : chat_message) (w : world),
      event_message cfg service ainvoke message w = (Ok tt, w) \/
      exists reply w1,
        process_chat_message cfg service ainvoke
          (author_name message) (content message) w = (Ok reply, w1) /\
        event_message cfg service ainvoke message w
        = channel_send (truncate reply) w1 /\
        chat (world_after (event_message cfg service ainvoke message) w)
        = (chat w1 ++ [truncate reply])%list) /\
  (forall (event : subscribe_event) (w : world),
      exists reply w1,
        process_event cfg service ainvoke "subscription"
          (subscribe_user_name event)
          (Some [("tier", SStr (subscribe_sub_plan event))])
          (world_after (Bot.add_subscriber (subscribe_user_name event)
                          (Some (subscribe_sub_plan event)) None None) w)
        = (Ok reply, w1) /\
        event_subscribe cfg service ainvoke event w
        = channel_send (truncate reply) w1 /\
        chat (world_after (event_subscribe cfg service ainvoke event) w)
        = (chat w1 ++ [truncate reply])%list) /\
  (forall (event : resub_event) (w : world),
      let text := match resub_message event with Some c => c | None => "" end in
      exists reply w1,
        process_event cfg service ainvoke "resub" (resub_user_name event)
          (Some [("months", SInt (cumulative_months event));
                 ("tier", SStr (resub_sub_plan event));
                 ("message", SStr text)])
          (world_after (Bot.add_subscriber (resub_user_name event)
                          (Some (resub_sub_plan event))
                          (Some (cumulative_months event)) (Some text)) w)
        = (Ok reply, w1) /\
        event_resub cfg service ainvoke event w
        = channel_send (truncate reply) w1 /\
        chat (world_after (event_resub cfg service ainvoke event) w)
        = (chat w1 ++ [truncate reply])%list) /\
  (forall (event : raid_event) (w : world),
      exists reply w1,
        process_event cfg service ainvoke "raid" (raider_name event)
          (Some [("viewers", SInt (viewers event))])
          (world_after (Bot.add_raider (raider_name event) (viewers event)) w)
        = (Ok reply, w1) /\
        event_raid cfg service ainvoke event w
        = channel_send (truncate reply) w1 /\
        chat (world_after (event_raid cfg service ainvoke event) w)
        = (chat w1 ++ [truncate reply])%list).
Proof.
  split; [exact truncate_fits |].
  split; [| split; [| split]].
  - intros message w. unfold event_message.
    destruct (echo message); [left; reflexivity |].
    destruct (str_in "bricknplatebot" (lower (content message)));
      [| left; reflexivity].
    right.
    destruct (process_chat_message_returns cfg service ainvoke
                (author_name message) (content message) w) as (reply & w1 & H).
    exists reply, w1. unfold world_after, bind. rewrite H.
    repeat split; reflexivity.
  - intros event w. unfold event_subscribe.
    match goal with
    | |- context [process_event ?c ?s ?a ?t ?u ?d] =>
        destruct (process_event_returns c s a t u d
                    (world_after (Bot.add_subscriber (subscribe_user_name event)
                       (Some (subscribe_sub_plan event)) None None) w))
          as (reply & w1 & H)
    end.
    exists reply, w1. unfold world_after, bind in *. simpl in *. rewrite H.
    repeat split; reflexivity.
  - intros event w text. unfold event_resub. fold text.
    match goal with
    | |- context [process_event ?c ?s ?a ?t ?u ?d] =>
        destruct (process_event_returns c s a t u d
                    (world_after (Bot.add_subscriber (resub_user_name event)
                       (Some (resub_sub_plan event))
                       (Some (cumulative_months event)) (Some text)) w))
          as (reply & w1 & H)
    end.
    exists reply, w1. unfold world_after, bind in *. simpl in *. rewrite H.
    repeat split; reflexivity.
  - intros event w. unfold event_raid.
    match goal with
    | |- context [process_event ?c ?s ?a ?t ?u ?d] =>
        destruct (process_event_returns c s a t u d
                    (world_after (Bot.add_raider (raider_name event)
                                    (viewers event)) w))
          as (reply & w1 & H)
    end.
    exists reply, w1. unfold world_after, bind in *. simpl in *. rewrite H.
    repeat split; reflexivity.
Qed.

(** A reply of 600 characters is cut to 497 characters and the ellipsis. *)
Lemma C3_outgoing_text_truncated_witness :
  (String.length (truncate (text_of_length 600)) <= 500)%nat /\
  truncate (text_of_length 600)
  = substring 0 497 (text_of_length 600) ++ "...".
Proof.
  destruct (C3_outgoing_text_truncated example_settings unreachable_service
              failing_ainvoke) as (Hfits & _).
  destruct (Hfits (text_of_length 600)) as (Hlen & Hlong & _).
  split; [exact Hlen |].
  apply Hlong. apply Nat.ltb_lt. vm_compute. reflexivity.
Defined.

(* ----------------------------------------------------------------- *)
(** ** Fallback texts of the dispatchers (agents.py) *)

(** C6, as the claim states it, fails for a subscription: the fallback of a
    failed ['subscription'] event does not mention the months, even when
    [details] carries them. *)
Lemma C6_subscription_fallback_omits_months :
  let details := Some [("tier", SStr "1000"); ("months", SInt 5)] in
  exists w1,
    process_event example_settings unreachable_service failing_ainvoke
      "subscription" "alice" details initial_world
    = (Ok "Thanks for the sub, alice! You're an essential piece in our community!",
       w1) /\
    str_in (str_int 5)
      "Thanks for the sub, alice! You're an essential piece in our community!"
    = false.
Proof. eexists. split; reflexivity. Qed.

(** C6 (amended): when the dispatch invocation raises [e],
    [process_chat_message] returns the apology followed by [str(e)] and
    [process_event] returns the fallback built from [event_type], [username]
    and [details] alone: for ['raid'] the raid text with the viewer count,
    for ['resub'] with a truthy ['months'] the sub text with the months,
    for ['subscription'] and for ['resub'] without months the sub text
    without them.  Neither dispatcher raises. *)
Theorem C6_dispatch_failure_fallback
    (cfg : settings) (service : http_service)
    (ainvoke : AgentExecutor -> string -> M run_result)
    (username : string) :
  (forall message w e w1,
      dispatch_raises ainvoke (create_chat_agent cfg service)
        (username ++ ": " ++ message) w e w1 ->
      outcome_of (process_chat_message cfg service ainvoke username message) w
      = Ok ("Sorry, I encountered an error while processing your message! Error: "
            ++ str_exn e)) /\
  (forall event_type details w e w1,
      dispatch_raises ainvoke (create_event_agent cfg service)
        (event_prompt event_type username (details_or_empty details)) w e w1 ->
      outcome_of (process_event cfg service ainvoke event_type username details)
                 w
      = Ok (event_fallback event_type username (details_or_empty details))) /\
  (forall d,
      event_fallback "raid" username d
      = "Thanks for the amazing raid, " ++ username ++ ", with "
        ++ str_scalar (details_get d "viewers" (SInt 0))
        ++ " viewers! Welcome to our brick-building adventure!" /\
      event_fallback "subscription" username d
      = "Thanks for the sub, " ++ username
        ++ "! You're an essential piece in our community!" /\
      event_fallback "resub" username d
      = (if scalar_truthy (details_get d "months" SNone)
         then "Thanks for the " ++ str_scalar (details_get d "months" (SInt 1))
              ++ "-month sub, " ++ username
              ++ "! You're an essential piece in our community!"
         else "Thanks for the sub, " ++ username
              ++ "! You're an essential piece in our community!")) /\
  (forall message w,
      exists reply w',
        process_chat_message cfg service ainvoke username message w
        = (Ok reply, w')) /\
  (forall event_type details w,
      exists reply w',
        process_event cfg service ainvoke event_type username details w
        = (Ok reply, w')).
Proof.
  split; [| split; [| split; [| split]]].
  - intros message w e w1 Hchat. unfold outcome_of.
    pose proof (process_chat_message_cases cfg service ainvoke username
                  message w) as Hc.
    cbv zeta in Hc.
    destruct Hchat as [H | (r & H & Hr)]; rewrite H in Hc.
    + rewrite Hc. reflexivity.
    + rewrite Hr in Hc. rewrite Hc. reflexivity.
  - intros event_type details w e w1 Hevent. unfold outcome_of.
    pose proof (process_event_cases cfg service ainvoke event_type username
                  details w) as He.
    cbv zeta in He.
    destruct Hevent as [H | (r & H & Hr)]; rewrite H in He.
    + rewrite He. reflexivity.
    + rewrite Hr in He. rewrite He. reflexivity.
  - intros d. split; [reflexivity |]. split; [reflexivity |].
    unfold event_fallback. simpl.
    destruct (scalar_truthy (details_get d "months" SNone)); [| reflexivity].
    simpl. do 15 f_equal. apply string_app_assoc.
  - intros message w. apply process_chat_message_returns.
  - intros event_type details w. apply process_event_returns.
Qed.

Lemma C6_dispatch_failure_fallback_witness :
  let e := mk_exn "APIError" "model unavailable" in
  outcome_of (process_chat_message example_settings unreachable_service
                failing_ainvoke "alice" "BrickNPlateBot, hello") initial_world
  = Ok ("Sorry, I encountered an error while processing your message! Error: "
        ++ str_exn e) /\
  outcome_of (process_event example_settings unreachable_service
                failing_ainvoke "raid" "alice" (Some [("viewers", SInt 42)]))
             initial_world
  = Ok "Thanks for the amazing raid, alice, with 42 viewers! Welcome to our brick-building adventure!".
Proof.
  intros e.
  destruct (C6_dispatch_failure_fallback example_settings unreachable_service
              failing_ainvoke "alice") as (Hchat & Hevent & _).
  split.
  - apply (Hchat "BrickNPlateBot, hello" initial_world e initial_world).
    left. reflexivity.
  - apply (Hevent "raid" (Some [("viewers", SInt 42)]) initial_world e
             initial_world).
    left. reflexivity.
Defined.

(** C10: for an event type other than ['subscription'], ['resub'] and
    ['raid'], [process_event] builds the generic description, invokes the
    event dispatcher with it, returns the dispatcher's output when there is
    one, and returns ["Thanks, {username}! You're awesome!"] when the
    invocation raises; it never raises itself. *)
Theorem C10_unrecognized_event_type
    (cfg : settings) (service : http_service)
    (ainvoke : AgentExecutor -> string -> M run_result)
    (event_type username : string) (details : option details_t) (w : world)
    (Hsub : event_type <> "subscription")
    (Hresub : event_type <> "resub")
    (Hraid : event_type <> "raid") :
  let prompt :=
    username ++ " triggered an event of type " ++ event_type ++ "."
    ++ " Generate a personalized thank you message for this " ++ event_type
    ++ " event. Make it brief, enthusiastic, and Lego-themed." in
  let fallback := "Thanks, " ++ username ++ "! You're awesome!" in
  match ainvoke (create_event_agent cfg service) prompt w with
  | (Ok r, w1) =>
      match result_output r with
      | Ok text =>
          process_event cfg service ainvoke event_type username details w
          = (Ok text, w1)
      | Raise e =>
          outcome_of (process_event cfg service ainvoke event_type username
                        details) w
          = Ok fallback
      end
  | (Raise e, w1) =>
      outcome_of (process_event cfg service ainvoke event_type username details)
                 w
      = Ok fallback
  end.
Proof.
  intros prompt fallback.
  pose proof (process_event_cases cfg service ainvoke event_type username
                details w) as H.
  cbv zeta in H.
  apply String.eqb_neq in Hsub, Hresub, Hraid.
  assert (Hp : event_prompt event_type username (details_or_empty details)
               = prompt).
  { unfold event_prompt, event_description.
    rewrite Hsub, Hresub, Hraid. unfold prompt.
    rewrite !string_app_assoc. reflexivity. }
  assert (Hf : event_fallback event_type username (details_or_empty details)
               = fallback).
  { unfold event_fallback. rewrite Hsub, Hresub, Hraid. reflexivity. }
  rewrite Hp, Hf in H. unfold outcome_of.
  destruct (ainvoke _ prompt w) as [[r | e] w1];
    [destruct (result_output r) |]; rewrite H; reflexivity.
Qed.

Lemma C10_unrecognized_event_type_witness :
  outcome_of (process_event example_settings unreachable_service
                failing_ainvoke "cheer" "carol" None) initial_world
  = Ok "Thanks, carol! You're awesome!".
Proof.
  refine (@C10_unrecognized_event_type example_settings unreachable_service
            failing_ainvoke "cheer" "carol" None initial_world _ _ _);
    discriminate.
Defined.

(* ----------------------------------------------------------------- *)
(** ** Reasoning about computations in [M] *)

Lemma bind_ok_inv {A B : Type} (m : M A) (k : A -> M B) (w w' : world) (b : B) :
  bind m k w = (Ok b, w') ->
  exists a w1, m w = (Ok a, w1) /\ k a w1 = (Ok b, w').
Proof.
  unfold bind. destruct (m w) as [[a | e] w1]; intros H.
  - exists a, w1. auto.
  - discriminate.
Qed.

Lemma ret_inv {A : Type} (a : A) (w w' : world) (r : result A) :
  ret a w = (r, w') -> r = Ok a /\ w' = w.
Proof. unfold ret. intros H. injection H as <- <-. auto. Qed.

Lemma lift_inv {A : Type} (r r' : result A) (w w' : world) :
  lift r w = (r', w') -> r = r' /\ w' = w.
Proof. unfold lift. intros H. injection H as <- <-. auto. Qed.

Lemma raise_ok_inv {A : Type} (e : exn) (w w' : world) (a : A) :
  raise e w = (Ok a, w') -> False.
Proof. unfold raise. discriminate. Qed.

Lemma send_request_inv (service : http_service) (req : request)
    (w w' : world) (out : result response) :
  send_request service req w = (out, w') ->
  service (exchanges w) req = out /\ w' = record_exchange w (req, out).
Proof. unfold send_request. intros H. injection H as <- <-. auto. Qed.

Lemma raise_for_status_ok_inv (r : response) (w w' : world) (u : unit) :
  raise_for_status r w = (Ok u, w') -> status_ok r = true /\ w' = w.
Proof.
  unfold raise_for_status, status_ok.
  destruct ((400 <=? status_code r) && (status_code r <? 600)); intros H.
  - discriminate.
  - apply ret_inv in H. tauto.
Qed.

(** The handler of every tool prints and returns an error mapping: the
    tool returns whatever its body returns and the mapping when the body
    raises. *)
Lemma try_print_ret {A : Type} (body : M A) (line : exn -> string)
    (value : exn -> A) (w : world) :
  try_except body (fun e => bind (print (line e)) (fun _ => ret (value e))) w
  = match body w with
    | (Ok a, w') => (Ok a, w')
    | (Raise e, w') => (Ok (value e), world_after (print (line e)) w')
    end.
Proof.
  unfold try_except. destruct (body w) as [[a | e] w']; reflexivity.
Qed.

Lemma new_exchanges_app (w w' : world) (xs : list exchange) :
  exchanges w' = (exchanges w ++ xs)%list -> new_exchanges w w' = xs.
Proof.
  unfold new_exchanges. intros ->. rewrite skipn_app, skipn_all, Nat.sub_diag.
  reflexivity.
Qed.

(** Inversion of a computation that returned: one hypothesis per statement
    that ran. *)
Ltac minv H :=
  cbv beta in H;
  lazymatch type of H with
  | bind _ _ _ = (Ok _, _) =>
      let a := fresh "a" in
      let w1 := fresh "w" in
      let H1 := fresh "Hrun" in
      let H2 := fresh "Hrun" in
      apply bind_ok_inv in H; destruct H as (a & w1 & H1 & H2);
      minv H1; minv H2
  | ret _ _ = (_, _) =>
      let E := fresh "Eret" in
      apply ret_inv in H; destruct H as [E ?]; subst;
      try (injection E as E); try subst
  | lift _ _ = (_, _) =>
      apply lift_inv in H; destruct H as [H ?]; subst
  | response_json _ _ = (_, _) =>
      unfold response_json in H; minv H
  | raise _ _ = (Ok _, _) =>
      exfalso; exact (raise_ok_inv H)
  | send_request _ _ _ = (_, _) =>
      apply send_request_inv in H; destruct H as [H ?]; subst
  | raise_for_status _ _ = (Ok _, _) =>
      apply raise_for_status_ok_inv in H; destruct H as [H ?]; subst
  | (if ?c then _ else _) _ = (_, _) =>
      let E := fresh "Eif" in destruct c eqn:E; minv H
  | _ => idtac
  end.

(* ----------------------------------------------------------------- *)
(** ** [get_stream_info] (tools.py) *)

Section StreamInfo.

Variable cfg : settings.

(** The first statement of the [try]: the document is loaded from the
    file, or created with the defaults and written when the file is
    missing; a write that fails raises. *)
Lemma load_or_create {B : Type} (k : json -> M B) (w : world) :
  bind path_exists
    (fun file_exists =>
       bind (if file_exists then load_yaml
             else bind (dump_yaml create_default_stream_info)
                    (fun _ =>
                       bind (print ("Created default stream info file at "
                                    ++ STREAM_INFO_FILE cfg))
                         (fun _ => ret create_default_stream_info)))
            k) w
  = match stream_info_file w with
    | FileHolds doc => k doc w
    | FileUnreadable e => (Raise e, w)
    | FileCannotBeCreated e => (Raise e, w)
    | FileAbsent =>
        k create_default_stream_info
          (world_after (print ("Created default stream info file at "
                               ++ STREAM_INFO_FILE cfg))
             (world_after (dump_yaml create_default_stream_info) w))
    end.
Proof.
  unfold bind at 1. unfold path_exists.
  destruct (stream_info_file w) as [| e | doc | e] eqn:E.
  - unfold bind, dump_yaml, world_after. rewrite E. reflexivity.
  - unfold bind, dump_yaml. rewrite E. reflexivity.
  - unfold bind, load_yaml. rewrite E. reflexivity.
  - unfold bind, load_yaml. rewrite E. reflexivity.
Qed.

(** With a document on disk, a call without category (or with the empty
    string) returns the document and leaves the world as it is. *)
Lemma get_stream_info_whole (category : option string) (doc : json) (w : world) :
  stream_info_file w = FileHolds doc ->
  no_category category = true ->
  get_stream_info cfg category w = (Ok doc, w).
Proof.
  intros Hfile Hcat.
  unfold get_stream_info. rewrite try_print_ret, load_or_create, Hfile, Hcat.
  reflexivity.
Qed.

Lemma get_stream_info_known (c : string) (m : list (string * json))
    (sub : json) (w : world) :
  stream_info_file w = FileHolds (JDict m) ->
  c <> "" ->
  lookup c m = Some sub ->
  get_stream_info cfg (Some c) w = (Ok (JDict [(c, sub)]), w).
Proof.
  intros Hfile Hc Hsub. apply String.eqb_neq in Hc.
  unfold get_stream_info. rewrite try_print_ret, load_or_create, Hfile.
  unfold no_category, bind, lift, ret, contains, getitem.
  rewrite Hc, Hsub. reflexivity.
Qed.

Lemma get_stream_info_unknown (c : string) (m : list (string * json))
    (w : world) :
  stream_info_file w = FileHolds (JDict m) ->
  c <> "" ->
  lookup c m = None ->
  get_stream_info cfg (Some c) w
  = (Ok (error_dict ("No information found for category '" ++ c ++ "'")), w).
Proof.
  intros Hfile Hc Hsub. apply String.eqb_neq in Hc.
  unfold get_stream_info. rewrite try_print_ret, load_or_create, Hfile.
  unfold no_category, bind, lift, ret, contains, getitem.
  rewrite Hc, Hsub. reflexivity.
Qed.

(** What a call answers from a document [doc], once it is loaded. *)
Lemma answer_cases (category : option string) (doc : json) (w : world) :
  exists r : result json,
    (if no_category category then ret doc
     else
       let c := match category with Some c => c | None => "" end in
       bind (lift (contains c doc))
         (fun present =>
            if present then
              bind (lift (getitem doc c)) (fun sub => ret (JDict [(c, sub)]))
            else
              ret (error_dict ("No information found for category '"
                               ++ c ++ "'")))) w
    = (r, w).
Proof.
  destruct (no_category category); [eexists; reflexivity |].
  cbv zeta. unfold bind, lift, ret.
  destruct (contains _ doc) as [[|] | e]; try (eexists; reflexivity).
  destruct (getitem doc _); eexists; reflexivity.
Qed.

(** A call never changes a file that exists, and it leaves a file that
    cannot be created missing. *)
Lemma get_stream_info_keeps_file (category : option string) (w : world) :
  stream_info_file w <> FileAbsent ->
  stream_info_file (world_after (get_stream_info cfg category) w)
  = stream_info_file w.
Proof.
  intros Hfile. unfold world_after, get_stream_info.
  rewrite try_print_ret, load_or_create.
  destruct (stream_info_file w) as [| e | doc | e] eqn:E; [congruence | | |].
  - exact E.
  - destruct (answer_cases category doc w) as [r Hr].
    cbv beta zeta in Hr |- *. rewrite Hr. destruct r; exact E.
  - exact E.
Qed.

(** Writing a file that can be created. *)
Lemma dump_yaml_creates (doc : json) (w : world) :
  stream_info_file w = FileAbsent ->
  dump_yaml doc w
  = (Ok tt, mk_world (exchanges w) (FileHolds doc) (stdout w)
                     (events w) (clock w) (chat w) (model_calls w)).
Proof. intros Hfile. unfold dump_yaml. rewrite Hfile. reflexivity. Qed.

(** The first call creates the file with the default document, and answers
    as a call on that document does. *)
Lemma get_stream_info_creates (category : option string) (w : world) :
  stream_info_file w = FileAbsent ->
  stream_info_file (world_after (get_stream_info cfg category) w)
  = FileHolds create_default_stream_info /\
  outcome_of (get_stream_info cfg category) w
  = outcome_of (get_stream_info cfg category) world_with_default_file.
Proof.
  intros Hfile. unfold world_after, outcome_of, get_stream_info.
  rewrite !try_print_ret, !load_or_create, Hfile.
  change (stream_info_file world_with_default_file)
    with (FileHolds create_default_stream_info). cbv iota.
  unfold world_after. rewrite (dump_yaml_creates _ w Hfile).
  set (w1 := snd (print _ _)).
  destruct (no_category category); [split; reflexivity |].
  cbv zeta. unfold bind, lift, ret.
  destruct (contains _ create_default_stream_info) as [[|] | e];
    try (split; reflexivity).
  destruct (getitem create_default_stream_info _); split; reflexivity.
Qed.

(** Once the document is loaded the answer is computed from the document
    and the category alone. *)
Lemma answer_pure (category : option string) (doc : json) :
  exists r : result json,
    forall w,
      (if no_category category then ret doc
       else
         bind (lift (contains match category with Some c => c | None => "" end
                       doc))
           (fun present =>
              if present then
                bind (lift (getitem doc
                              match category with Some c => c | None => "" end))
                  (fun sub =>
                     ret (JDict [(match category with
                                  | Some c => c | None => "" end, sub)]))
              else
                ret (error_dict ("No information found for category '"
                                 ++ match category with
                                    | Some c => c | None => "" end
                                 ++ "'")))) w
      = (r, w).
Proof.
  destruct (no_category category); [eexists; reflexivity |].
  unfold bind, lift, ret.
  destruct (contains _ doc) as [[|] | e]; try (eexists; reflexivity).
  destruct (getitem doc _); eexists; reflexivity.
Qed.

(** Two worlds with the same file give the same answer. *)
Lemma get_stream_info_same_file (category : option string) (w w' : world) :
  stream_info_file w = stream_info_file w' ->
  stream_info_file w <> FileAbsent ->
  outcome_of (get_stream_info cfg category) w
  = outcome_of (get_stream_info cfg category) w'.
Proof.
  intros Hsame Hfile. unfold outcome_of, get_stream_info.
  rewrite !try_print_ret, !load_or_create. rewrite <- Hsame.
  destruct (stream_info_file w) as [| e | doc | e]; [congruence | | |].
  - reflexivity.
  - destruct (answer_pure category doc) as [r Hr].
    cbv beta zeta in Hr |- *. rewrite !Hr. destruct r; reflexivity.
  - reflexivity.
Qed.

(** When the file is missing and cannot be created, the write raises and
    the call returns the error mapping; nothing but the printed line
    changes. *)
Lemma get_stream_info_cannot_create (category : option string) (w : world)
    (e : exn) :
  stream_info_file w = FileCannotBeCreated e ->
  get_stream_info cfg category w
  = (Ok (error_dict ("Could not retrieve stream information: " ++ str_exn e)),
     world_after
       (print ("Error getting stream info for category '"
               ++ match category with Some c => c | None => "None" end
               ++ "': " ++ str_exn e)) w).
Proof.
  intros Hfile. unfold get_stream_info.
  rewrite try_print_ret, load_or_create, Hfile. reflexivity.
Qed.

Lemma after_stream_info_calls_file (categories : list (option string)) :
  forall w : world,
    stream_info_file w <> FileAbsent ->
    stream_info_file (after_stream_info_calls cfg categories w)
    = stream_info_file w.
Proof.
  induction categories as [| c cs IH]; intros w Hfile; simpl.
  - reflexivity.
  - rewrite IH; rewrite get_stream_info_keeps_file by exact Hfile;
      [reflexivity | exact Hfile].
Qed.

End StreamInfo.

(** C4, as the claim states it, fails for the empty category: the empty
    string is not a key of the document, and yet the call returns the whole
    document, which has no ['error'] key. *)
Lemma C4_empty_category_returns_document :
  outcome_of (get_stream_info example_settings (Some ""))
             world_with_default_file
  = Ok create_default_stream_info /\
  contains "" create_default_stream_info = Ok false /\
  contains "error" create_default_stream_info = Ok false.
Proof. repeat split; reflexivity. Qed.

(** C4 (amended): with a document on disk, [get_stream_info] returns the
    whole document when no category or the empty string is given, the
    single-key mapping [{category: sub-content}] for a non-empty category
    that is a key of the document, and a mapping with the only key ['error']
    for a non-empty category that is not.  A first call on a missing file
    that can be created writes the default document of
    [create_default_stream_info] and answers as a call on a file with that
    document does, and every later call finds that same document.  When the
    missing file cannot be created, the call returns the mapping
    [{'error': 'Could not retrieve stream information: <error>'}], no file
    is created, and every later call fails in the same way. *)
Theorem C4_get_stream_info (cfg : settings) :
  (forall (w : world) (doc : json),
      stream_info_file w = FileHolds doc ->
      get_stream_info cfg None w = (Ok doc, w) /\
      get_stream_info cfg (Some "") w = (Ok doc, w)) /\
  (forall (w : world) (m : list (string * json)) (c : string) (sub : json),
      stream_info_file w = FileHolds (JDict m) ->
      c <> "" ->
      lookup c m = Some sub ->
      get_stream_info cfg (Some c) w = (Ok (JDict [(c, sub)]), w)) /\
  (forall (w : world) (m : list (string * json)) (c : string),
      stream_info_file w = FileHolds (JDict m) ->
      c <> "" ->
      lookup c m = None ->
      get_stream_info cfg (Some c) w
      = (Ok (error_dict ("No information found for category '" ++ c ++ "'")),
         w)) /\
  (forall (w0 : world) (first : option string) (later : list (option string)),
      stream_info_file w0 = FileAbsent ->
      let w1 := world_after (get_stream_info cfg first) w0 in
      let w2 := after_stream_info_calls cfg later w1 in
      stream_info_file w1 = FileHolds create_default_stream_info /\
      outcome_of (get_stream_info cfg None) w0
      = Ok create_default_stream_info /\
      (forall w', stream_info_file w' = FileHolds create_default_stream_info ->
                  outcome_of (get_stream_info cfg first) w0
                  = outcome_of (get_stream_info cfg first) w') /\
      stream_info_file w2 = FileHolds create_default_stream_info /\
      get_stream_info cfg None w2 = (Ok create_default_stream_info, w2)) /\
  (forall (w0 : world) (e : exn) (first category : option string)
          (later : list (option string)),
      stream_info_file w0 = FileCannotBeCreated e ->
      let failure :=
        error_dict ("Could not retrieve stream information: " ++ str_exn e) in
      let w1 := world_after (get_stream_info cfg first) w0 in
      let w2 := after_stream_info_calls cfg later w1 in
      outcome_of (get_stream_info cfg first) w0 = Ok failure /\
      stream_info_file w1 = FileCannotBeCreated e /\
      stream_info_file w2 = FileCannotBeCreated e /\
      outcome_of (get_stream_info cfg category) w2 = Ok failure).
Proof.
  split; [| split; [| split; [| split]]].
  - intros w doc Hfile. split; apply get_stream_info_whole; auto.
  - intros w m c sub Hfile Hc Hsub. eapply get_stream_info_known; eauto.
  - intros w m c Hfile Hc Hnone. eapply get_stream_info_unknown; eauto.
  - intros w0 first later Habsent w1 w2.
    destruct (get_stream_info_creates cfg first w0 Habsent) as [H1 Hfirst].
    destruct (get_stream_info_creates cfg None w0 Habsent) as [_ H0].
    assert (H2 : stream_info_file w2 = FileHolds create_default_stream_info).
    { unfold w2. rewrite after_stream_info_calls_file.
      - exact H1.
      - fold w1 in H1. rewrite H1. discriminate. }
    split; [exact H1 |].
    split; [rewrite H0; reflexivity |].
    split.
    { intros w' Hw'. rewrite Hfirst. apply get_stream_info_same_file.
      - rewrite Hw'. reflexivity.
      - discriminate. }
    split; [exact H2 |].
    apply get_stream_info_whole; auto.
  - intros w0 e first category later Hfile failure w1 w2.
    assert (H1 : stream_info_file w1 = FileCannotBeCreated e).
    { unfold w1. rewrite get_stream_info_keeps_file; [exact Hfile |].
      rewrite Hfile. discriminate. }
    assert (H2 : stream_info_file w2 = FileCannotBeCreated e).
    { unfold w2. rewrite after_stream_info_calls_file; [exact H1 |].
      rewrite H1. discriminate. }
    split.
    { unfold outcome_of.
      rewrite (get_stream_info_cannot_create cfg first w0 Hfile). reflexivity. }
    split; [exact H1 |]. split; [exact H2 |].
    unfold outcome_of.
    rewrite (get_stream_info_cannot_create cfg category w2 H2). reflexivity.
Qed.

(** The FAQ of the default document, the first call on a missing file, and
    a call in a directory that cannot be written. *)
Lemma C4_get_stream_info_witness :
  (exists faq,
      lookup "faq" [("faq", faq)] = Some faq /\
      get_stream_info example_settings (Some "faq") world_with_default_file
      = (Ok (JDict [("faq", faq)]), world_with_default_file)) /\
  stream_info_file
    (world_after (get_stream_info example_settings (Some "schedule"))
       initial_world)
  = FileHolds create_default_stream_info /\
  outcome_of (get_stream_info example_settings (Some "schedule")) read_only_world
  = Ok (error_dict
          "Could not retrieve stream information: [Errno 13] Permission denied: 'stream_info.yaml'").
Proof.
  destruct (C4_get_stream_info example_settings)
    as (_ & Hknown & _ & Hfirst & Hfail).
  split; [| split].
  - eexists. split; [reflexivity |].
    eapply (Hknown world_with_default_file _ "faq").
    + reflexivity.
    + discriminate.
    + reflexivity.
  - destruct (Hfirst initial_world (Some "schedule") [] eq_refl) as [H _].
    exact H.
  - destruct (Hfail read_only_world _ (Some "schedule") None [] eq_refl)
      as [H _].
    exact H.
Defined.

(* ----------------------------------------------------------------- *)
(** ** [get_twitch_user_info] (tools.py) *)

Ltac pick_hyp := multimatch goal with H : _ |- _ => exact H end.

(** Closes a goal about concrete exchanges by computation, choosing the
    disjunct that holds. *)
Ltac solve_lookup :=
  lazymatch goal with
  | |- exists _, _ => eexists; solve_lookup
  | |- _ /\ _ => split; [solve_lookup | solve_lookup]
  | |- _ \/ _ => (left; solve_lookup) + (right; solve_lookup)
  | |- _ => simpl; reflexivity
  end.

(** Closes a goal made of the facts an inversion left in the context. *)
Ltac close_lookup :=
  lazymatch goal with
  | |- exists _, _ => eexists; close_lookup
  | |- _ /\ _ => split; close_lookup
  | |- _ \/ _ => (left; close_lookup) + (right; close_lookup)
  | |- if ?c then _ else _ =>
      match goal with
      | H : c = _ |- _ => rewrite H; close_lookup
      end
  | |- _ => reflexivity + pick_hyp
  end.

Lemma follow_lookup_exchanges_ok (cfg : settings) (access_token user_id : json)
    (xs : list exchange) (following_since : option json) :
  follow_lookup cfg access_token user_id xs following_since ->
  Forall (fun x => exchange_ok x = true) xs.
Proof.
  intros (chan & r4 & bj & bd & rest & -> & _ & H4 & _ & _ & H).
  destruct H as [(_ & -> & _) | (_ & bd0 & bid & r5 & fj & since & -> & _ & _
                                  & H5 & _)];
    repeat constructor; assumption.
Qed.

Lemma user_lookup_exchanges_ok (cfg : settings) (username : string)
    (xs : list exchange) (v : json) :
  user_lookup cfg username xs v ->
  Forall (fun x => exchange_ok x = true) xs.
Proof.
  intros (r1 & aj & token & r2 & uj & ud & ui & uid & r3 & cj & cd & cdata
          & xs4 & fs & -> & H1 & _ & _ & H2 & _ & _ & _ & _ & _ & H3 & _ & _
          & _ & Hf & _).
  apply follow_lookup_exchanges_ok in Hf.
  repeat (constructor; [assumption |]). exact Hf.
Qed.

Lemma user_lookup_keys (cfg : settings) (username : string)
    (xs : list exchange) (v : json) :
  user_lookup cfg username xs v ->
  exists m, v = JDict m /\ keys m = user_info_keys /\ lookup "error" m = None.
Proof.
  intros (r1 & aj & token & r2 & uj & ud & ui & uid & r3 & cj & cd & cdata
          & xs4 & fs & _ & _ & _ & _ & _ & _ & _ & _ & _ & _ & _ & _ & _
          & _ & _ & dn & img & created & desc & btype
          & _ & _ & _ & _ & _ & ->).
  eexists. repeat split; reflexivity.
Qed.

Section TwitchUserInfo.

Variable cfg : settings.
Variable service : http_service.

Lemma check_follow_ok_inv (access_token user_id : json) (w w' : world)
    (following_since : option json) :
  check_follow cfg service access_token user_id w = (Ok following_since, w') ->
  exists xs,
    exchanges w' = (exchanges w ++ xs)%list /\
    follow_lookup cfg access_token user_id xs following_since.
Proof.
  intros H. unfold check_follow in H. minv H.
  all: unfold record_exchange; simpl.
  all: rewrite <- ?app_assoc; simpl.
  all: eexists; split; [reflexivity |].
  all: unfold follow_lookup, follow_status; cbv zeta.
  all: close_lookup.
Qed.

(** A lookup that returns made only successful exchanges, and its value is
    the not-found mapping or the mapping composed from the answers. *)
Lemma twitch_user_info_body_ok_inv (username : string) (w w' : world) (v : json) :
  twitch_user_info_body cfg service username w = (Ok v, w') ->
  exists xs,
    exchanges w' = (exchanges w ++ xs)%list /\
    Forall (fun x => exchange_ok x = true) xs /\
    (v = error_dict ("User '" ++ username ++ "' not found on Twitch") \/
     user_lookup cfg username xs v).
Proof.
  intros H. unfold twitch_user_info_body, compile_user_information in H.
  minv H.
  all: repeat match goal with
       | Hf : check_follow _ _ _ _ _ = (Ok _, _) |- _ =>
           let xs4 := fresh "xs4" in
           let Hx := fresh "Hx" in
           apply check_follow_ok_inv in Hf; destruct Hf as (xs4 & Hx & Hf);
           rewrite Hx
       | Hn : negb (truthy _) = false |- _ => apply negb_false_iff in Hn
       end.
  all: unfold record_exchange; simpl; rewrite <- ?app_assoc; simpl.
  all: eexists; (split; [reflexivity |]).
  - (* the user does not exist *)
    split; [repeat constructor; assumption | left; reflexivity].
  - (* the channel has data *)
    match goal with
    | |- Forall _ ?xs /\ (_ \/ user_lookup _ _ _ ?v) =>
        assert (Hu : user_lookup cfg username xs v)
          by (unfold user_lookup; close_lookup)
    end.
    split; [exact (user_lookup_exchanges_ok Hu) | right; exact Hu].
  - (* the channel has no data *)
    match goal with
    | |- Forall _ ?xs /\ (_ \/ user_lookup _ _ _ ?v) =>
        assert (Hu : user_lookup cfg username xs v)
          by (unfold user_lookup; close_lookup)
    end.
    split; [exact (user_lookup_exchanges_ok Hu) | right; exact Hu].
Qed.

End TwitchUserInfo.

(** One statement of a computation that goes through. *)
Lemma bind_ret {A B : Type} (a : A) (k : A -> M B) (w : world) :
  bind (ret a) k w = k a w.
Proof. reflexivity. Qed.

Lemma bind_lift_ok {A B : Type} (r : result A) (a : A) (k : A -> M B)
    (w : world) :
  r = Ok a -> bind (lift r) k w = k a w.
Proof. intros ->. reflexivity. Qed.

Lemma bind_send_ok {B : Type} (service : http_service) (req : request)
    (r : response) (k : response -> M B) (w : world) :
  service (exchanges w) req = Ok r ->
  bind (send_request service req) k w = k r (record_exchange w (req, Ok r)).
Proof.
  intros H. unfold bind, send_request. rewrite H. reflexivity.
Qed.

Lemma bind_status_ok {B : Type} (r : response) (k : unit -> M B) (w : world) :
  status_ok r = true -> bind (raise_for_status r) k w = k tt w.
Proof.
  unfold status_ok, bind, raise_for_status. intros H.
  apply negb_true_iff in H. rewrite H. reflexivity.
Qed.

(** Runs the statements of a computation whose outcomes are in the
    context. *)
Ltac run_through :=
  repeat first
    [ rewrite bind_ret
    | erewrite bind_lift_ok by eassumption
    | erewrite bind_send_ok by eassumption
    | erewrite bind_status_ok by eassumption
    | progress cbv beta iota ].

Section TwitchUserInfoResult.

Variable cfg : settings.
Variable service : http_service.

(** Step 4 goes through when the service answers as [follow_lookup]
    describes. *)
Lemma check_follow_goes_through (access_token user_id : json)
    (xs : list exchange) (following_since : option json) (w : world) :
  follow_lookup cfg access_token user_id xs following_since ->
  answered_by service (exchanges w) xs ->
  check_follow cfg service access_token user_id w
  = (Ok following_since, record_exchanges w xs).
Proof.
  intros (chan & r4 & bj & bd & rest & -> & Hchan & S4 & B4 & D4 & Hrest).
  simpl. intros [H4 Hans].
  unfold check_follow, response_json. run_through.
  destruct Hrest as [(Hbd & -> & ->)
                    | (Hbd & bd0 & bid & r5 & fj & since & -> & Hbd0 & Hbid
                       & S5 & B5 & Hst & ->)];
    rewrite Hbd.
  - reflexivity.
  - simpl in Hans. destruct Hans as [H5 _].
    change (exchanges w ++ [(GET_helix_users (TWITCH_CLIENT_ID cfg)
                               access_token chan, Ok r4)])%list
      with (exchanges (record_exchange w
                         (GET_helix_users (TWITCH_CLIENT_ID cfg)
                            access_token chan, Ok r4))) in H5.
    run_through.
    destruct Hst as [(Hno & ->)
                    | (Hyes & fd & Hfd & [(Hfalsy & ->)
                                         | (Htrue & fd0 & Hfd0 & Hat)])].
    + run_through. reflexivity.
    + run_through. rewrite Hfalsy. reflexivity.
    + run_through. rewrite Htrue. run_through. reflexivity.
Qed.

(** The whole lookup goes through when the service answers as
    [user_lookup] describes: the call returns the composed mapping and has
    made exactly these exchanges. *)
Lemma get_twitch_user_info_goes_through (username : string)
    (xs : list exchange) (v : json) (w : world) :
  user_lookup cfg username xs v ->
  answered_by service (exchanges w) xs ->
  get_twitch_user_info cfg service username w = (Ok v, record_exchanges w xs).
Proof.
  intros (r1 & aj & token & r2 & uj & ud & ui & uid & r3 & cj & cd & cdata
          & xs4 & fs & -> & S1 & B1 & Htoken & S2 & B2 & Hud & Htruthy & Hui
          & Huid & S3 & B3 & Hcd & Hcdata & Hf & dn & img & created & desc
          & btype & Hdn & Himg & Hcreated & Hdesc & Hbtype & ->).
  simpl. intros (H1 & H2 & H3 & H4).
  unfold get_twitch_user_info. rewrite try_print_ret.
  unfold twitch_user_info_body, response_json. run_through.
  change (exchanges w ++ [?x])%list with (exchanges (record_exchange w x)) in H2.
  run_through. rewrite Htruthy. cbn [negb]. run_through.
  set (w2 := record_exchange (record_exchange w _) _) in *.
  change (exchanges (record_exchange w ?x) ++ [?y])%list
    with (exchanges w2) in H3.
  run_through.
  assert (Hchannel : forall (B : Type) (k : json -> M B) (w' : world),
             bind (if truthy cd then lift (getitem0 cd) else ret (JDict [])) k w'
             = k cdata w').
  { intros B k w'. destruct (truthy cd).
    - rewrite (bind_lift_ok k w' Hcdata). reflexivity.
    - rewrite Hcdata. reflexivity. }
  rewrite Hchannel.
  set (w3 := record_exchange w2 _) in *.
  change ((exchanges w2 ++ [?x])%list) with (exchanges w3) in H4.
  unfold bind at 1.
  rewrite (check_follow_goes_through w3 Hf H4).
  unfold compile_user_information. run_through.
  reflexivity.
Qed.

Lemma get_twitch_user_info_cases (username : string) (w : world) :
  match twitch_user_info_body cfg service username w with
  | (Ok v, w') => get_twitch_user_info cfg service username w = (Ok v, w')
  | (Raise e, w') =>
      get_twitch_user_info cfg service username w
      = (Ok (error_dict ("Could not fetch information for user " ++ username
                         ++ ": " ++ str_exn e)),
         world_after (print ("Error fetching Twitch user info for " ++ username
                             ++ ": " ++ str_exn e)) w')
  end.
Proof.
  unfold get_twitch_user_info. rewrite try_print_ret.
  destruct (twitch_user_info_body cfg service username w) as [[v | e] w'];
    reflexivity.
Qed.

(** The call returns; its value is an error mapping or the composed
    mapping; and a failed exchange always gives the error mapping. *)
Lemma get_twitch_user_info_returns (username : string) (w : world) :
  exists v w',
    get_twitch_user_info cfg service username w = (Ok v, w') /\
    (error_only v \/ user_lookup cfg username (new_exchanges w w') v) /\
    (forall x, In x (new_exchanges w w') -> exchange_ok x = false ->
               error_only v).
Proof.
  pose proof (get_twitch_user_info_cases username w) as H.
  destruct (twitch_user_info_body cfg service username w) as [[v | e] w']
    eqn:Hbody.
  - exists v, w'. split; [exact H |].
    apply twitch_user_info_body_ok_inv in Hbody.
    destruct Hbody as (xs & Hx & Hok & Hv).
    rewrite (@new_exchanges_app w w' xs Hx).
    split.
    + destruct Hv as [-> | Hu]; [left; eexists; reflexivity | right; exact Hu].
    + intros x Hin Hbad. rewrite Forall_forall in Hok.
      rewrite (Hok x Hin) in Hbad. discriminate.
  - eexists. eexists. split; [exact H |].
    split; [left; eexists; reflexivity |].
    intros; eexists; reflexivity.
Qed.

End TwitchUserInfoResult.

(** C7: [get_twitch_user_info] always returns a mapping.  When the lookup
    goes through, that is when the service answers the exchanges of the
    lookup, made in this order: credential, username to user, channel
    metadata, the bot's own channel and, when that channel is resolved, the
    follow relationship, each with what the next step needs, the call
    makes exactly these exchanges and returns the mapping composed from
    their answers, which has exactly the nine keys and no ['error'] key.
    Conversely a result that is not an error mapping is composed in this
    way from the exchanges the call made.  When the lookup raises at any
    step, and whenever one of its exchanges fails (no response or an error
    status), the result is a mapping whose only key is ['error']. *)
Theorem C7_twitch_user_info
    (cfg : settings) (service : http_service) (username : string) (w : world) :
  (forall xs v,
      user_lookup cfg username xs v ->
      answered_by service (exchanges w) xs ->
      get_twitch_user_info cfg service username w
      = (Ok v, record_exchanges w xs) /\
      exists m, v = JDict m /\ keys m = user_info_keys /\
                lookup "error" m = None) /\
  exists v w',
    get_twitch_user_info cfg service username w = (Ok v, w') /\
    (error_only v \/
     (user_lookup cfg username (new_exchanges w w') v /\
      exists m, v = JDict m /\ keys m = user_info_keys)) /\
    (forall x, In x (new_exchanges w w') -> exchange_ok x = false ->
               error_only v) /\
    (forall e w1,
        twitch_user_info_body cfg service username w = (Raise e, w1) ->
        v = error_dict ("Could not fetch information for user " ++ username
                        ++ ": " ++ str_exn e)).
Proof.
  split.
  { intros xs v Hu Hans. split.
    - exact (get_twitch_user_info_goes_through service w Hu Hans).
    - exact (user_lookup_keys Hu). }
  destruct (get_twitch_user_info_returns cfg service username w)
    as (v & w' & Hrun & Hv & Hbad).
  exists v, w'. split; [exact Hrun |]. split; [| split; [exact Hbad |]].
  - destruct Hv as [He | Hu]; [left; exact He | right].
    split; [exact Hu |].
    destruct (user_lookup_keys Hu) as (m & Hm & Hk & _). eauto.
  - intros e w1 Hbody.
    pose proof (get_twitch_user_info_cases cfg service username w) as H.
    rewrite Hbody in H. rewrite H in Hrun. injection Hrun as <- _.
    reflexivity.
Qed.

(** A follower is looked up: the five exchanges are made and the nine-key
    mapping is returned.  With Twitch out of reach the first exchange fails
    and the result is an error mapping. *)
Lemma C7_twitch_user_info_witness :
  (exists xs,
      length xs = 5%nat /\
      get_twitch_user_info example_settings follower_service "Alice"
        initial_world
      = (Ok follower_info, record_exchanges initial_world xs) /\
      exists m, follower_info = JDict m /\ keys m = user_info_keys /\
                lookup "error" m = None) /\
  exists v w',
    get_twitch_user_info example_settings unreachable_service "alice"
      initial_world = (Ok v, w') /\
    error_only v.
Proof.
  split.
  - destruct (C7_twitch_user_info example_settings follower_service "Alice"
                initial_world) as [Hsuccess _].
    let xs := eval vm_compute in
                (exchanges (world_after
                              (get_twitch_user_info example_settings
                                 follower_service "Alice") initial_world)) in
    exists xs; split; [reflexivity |]; apply Hsuccess.
    + unfold user_lookup, follow_lookup, follow_status, follower_info.
      solve_lookup.
    + simpl. repeat split.
  - destruct (C7_twitch_user_info example_settings unreachable_service "alice"
                initial_world) as (_ & v & w' & Hrun & _ & Hbad & _).
    exists v, w'. split; [exact Hrun |].
    assert (Hc : exists v0 w0,
               get_twitch_user_info example_settings unreachable_service "alice"
                 initial_world = (Ok v0, w0) /\
               exists x, In x (new_exchanges initial_world w0) /\
                         exchange_ok x = false).
    { eexists. eexists. split; [vm_compute; reflexivity |].
      eexists. split; [left; reflexivity | reflexivity]. }
    destruct Hc as (v0 & w0 & Hc & x & Hin & Hx).
    rewrite Hc in Hrun. injection Hrun as <- <-.
    exact (Hbad x Hin Hx).
Defined.

(** C9: in a successful result ['is_following'] is true exactly when
    ['following_since'] is not [None]; both keys are present, and they are
    [None] and false when the bot's own channel is not resolved (the fourth
    exchange returns an empty ['data']) and when the user does not follow
    (the fifth exchange returns no or an empty ['data']). *)
Theorem C9_is_following_iff_following_since
    (cfg : settings) (service : http_service) (username : string)
    (w w' : world) (m : list (string * json))
    (Hrun : get_twitch_user_info cfg service username w = (Ok (JDict m), w'))
    (Hsuccess : lookup "error" m = None) :
  exists since b,
    lookup "following_since" m = Some since /\
    lookup "is_following" m = Some (JBool b) /\
    (b = true <-> since <> JNull) /\
    (forall req r4 broadcaster_data bd,
        nth_error (new_exchanges w w') 3 = Some (req, Ok r4) ->
        body r4 = Ok broadcaster_data ->
        getitem broadcaster_data "data" = Ok bd ->
        truthy bd = false ->
        since = JNull /\ b = false) /\
    (forall req r5 follow_data,
        nth_error (new_exchanges w w') 4 = Some (req, Ok r5) ->
        body r5 = Ok follow_data ->
        (contains "data" follow_data = Ok false \/
         exists fd, getitem follow_data "data" = Ok fd /\ truthy fd = false) ->
        since = JNull /\ b = false).
Proof.
  destruct (get_twitch_user_info_returns cfg service username w)
    as (v & w2 & Hrun' & Hv & _).
  rewrite Hrun in Hrun'. injection Hrun' as <- <-.
  destruct Hv as [(msg & Hmsg) | Hu].
  { injection Hmsg as ->. simpl in Hsuccess. discriminate. }
  destruct Hu as (r1 & aj & token & r2 & uj & ud & ui & uid & r3 & cj & cd
                  & cdata & xs4 & fs & Hxs & _ & _ & _ & _ & _ & _ & _ & _ & _
                  & _ & _ & _ & _ & Hf & dn & img & created & desc & btype
                  & _ & _ & _ & _ & _ & Hm).
  injection Hm as ->. rewrite Hxs.
  destruct Hf as (chan & r4' & bj & bd' & rest & -> & _ & _ & Hb4 & Hd4 & Hf).
  exists (match fs with Some since => since | None => JNull end).
  eexists. split; [reflexivity |]. split; [reflexivity |].
  split; [| split].
  - destruct fs as [[] |]; split; intros H; try reflexivity;
      try discriminate; try congruence.
  - simpl. intros req r4 bj0 bd0 Hnth Hbody Hdata Hfalsy.
    injection Hnth as _ <-. rewrite Hb4 in Hbody. injection Hbody as <-.
    rewrite Hd4 in Hdata. injection Hdata as <-.
    destruct Hf as [(_ & _ & ->) | (Htrue & _)]; [auto | congruence].
  - simpl. intros req r5 fj Hnth Hbody Hnofollow.
    destruct Hf as [(_ & -> & _) | (_ & bd0 & bid & r5' & fj' & since & ->
                                    & _ & _ & _ & Hb5 & Hst & ->)].
    + discriminate.
    + injection Hnth as _ <-. rewrite Hb5 in Hbody. injection Hbody as <-.
      destruct Hst as [(_ & ->) | (_ & fd & Hfd & [(_ & ->) | (Htrue & _)])];
        auto.
      destruct Hnofollow as [Hno | (fd' & Hfd' & Hfalsy)].
      * unfold contains, getitem in *.
        destruct fj' as [| | | | | | mm]; try discriminate.
        destruct (lookup "data" mm); discriminate.
      * congruence.
Qed.

(** The bot's own channel is not resolved: ['following_since'] is [None] and
    ['is_following'] is false. *)
Lemma C9_is_following_iff_following_since_witness :
  exists m w',
    get_twitch_user_info example_settings (example_service (JList []) (JList [])) "alice"
      initial_world = (Ok (JDict m), w') /\
    lookup "error" m = None /\
    exists since b,
      lookup "following_since" m = Some since /\
      lookup "is_following" m = Some (JBool b) /\
      (b = true <-> since <> JNull) /\
      since = JNull /\ b = false.
Proof.
  eexists. eexists.
  match goal with
  | |- ?A /\ _ => assert (Hrun : A) by (vm_compute; reflexivity)
  end.
  split; [exact Hrun |]. split; [reflexivity |].
  destruct (@C9_is_following_iff_following_since _ _ _ _ _ _ Hrun eq_refl)
    as (since & b & Hs & Hb & Hiff & Hbot & _).
  exists since, b.
  split; [exact Hs |]. split; [exact Hb |]. split; [exact Hiff |].
  eapply Hbot; reflexivity.
Defined.

(* ----------------------------------------------------------------- *)
(** ** The two catalogue tools and the contract of the four tools *)

Section LegoTools.

Variable cfg : settings.
Variable service : http_service.

Lemma get_lego_set_info_spec (set_num : string) (w : world) :
  outcome_of (get_lego_set_info cfg service set_num) w
  = Ok match delivered (service (exchanges w)
                          (GET_lego_set (REBRICKABLE_API_KEY cfg) set_num)) with
       | Some j => j
       | None => error_dict ("Could not find information for set " ++ set_num)
       end.
Proof.
  unfold outcome_of, get_lego_set_info. rewrite try_print_ret.
  unfold bind, send_request, raise_for_status, response_json, lift, delivered,
    status_ok.
  destruct (service _ _) as [r | e]; [| reflexivity].
  destruct ((400 <=? status_code r) && (status_code r <? 600));
    [reflexivity |].
  simpl. destruct (body r); reflexivity.
Qed.

Lemma search_lego_sets_spec (query : string) (w : world) :
  outcome_of (search_lego_sets cfg service query) w
  = Ok match delivered (service (exchanges w)
                          (GET_lego_sets (REBRICKABLE_API_KEY cfg) query)) with
       | Some j =>
           match dict_get j "results" (JList []) with
           | Ok results =>
               match slice_to 5 results with
               | Ok top => top
               | Raise _ =>
                   error_dict ("Could not find any sets matching '" ++ query ++ "'")
               end
           | Raise _ =>
               error_dict ("Could not find any sets matching '" ++ query ++ "'")
           end
       | None => error_dict ("Could not find any sets matching '" ++ query ++ "'")
       end.
Proof.
  unfold outcome_of, search_lego_sets. rewrite try_print_ret.
  unfold bind, send_request, raise_for_status, response_json, lift, delivered,
    status_ok.
  destruct (service _ _) as [r | e]; [| reflexivity].
  destruct ((400 <=? status_code r) && (status_code r <? 600));
    [reflexivity |].
  simpl. destruct (body r) as [j | e]; [| reflexivity].
  simpl. destruct (dict_get j "results" (JList [])) as [results | e];
    [| reflexivity].
  simpl. destruct (slice_to 5 results); reflexivity.
Qed.

End LegoTools.

(** What [results[:5]] can be: at most five items of a list (or characters
    of a string), never a mapping. *)
Lemma slice_to_5_shape (results top : json) :
  slice_to 5 results = Ok top ->
  (exists l, top = JList l /\ (length l <= 5)%nat) \/
  (exists s, top = JStr s /\ (String.length s <= 5)%nat).
Proof.
  destruct results as [| b | z | f | s | l | m]; unfold slice_to; intros H;
    try discriminate; injection H as <-.
  - right. eexists. split; [reflexivity |]. unfold str_take.
    destruct (Nat.le_ge_cases 5 (String.length s)) as [Hle | Hge].
    + rewrite substring_0_length by exact Hle. lia.
    + clear - Hge. revert Hge. generalize 5%nat.
      induction s as [| c s IH]; intros [| n] Hn; simpl in *; try lia.
      specialize (IH n). lia.
  - left. eexists. split; [reflexivity |].
    destruct l as [| ? [| ? [| ? [| ? [| ? ?]]]]]; simpl; lia.
Qed.

Lemma get_stream_info_returns (cfg : settings) (category : option string)
    (w : world) :
  let doc := match stream_info_file w with
             | FileHolds d => d
             | _ => create_default_stream_info
             end in
  exists v,
    outcome_of (get_stream_info cfg category) w = Ok v /\
    (error_only v \/ v = doc \/
     exists c sub, category = Some c /\ getitem doc c = Ok sub /\
                   v = JDict [(c, sub)]).
Proof.
  intros doc. unfold outcome_of, get_stream_info.
  rewrite try_print_ret, load_or_create.
  assert (Hanswer : forall (d : json) (w1 : world),
             exists v,
               fst (let (r, w') :=
                      (if no_category category then ret d
                       else
                         bind (lift (contains
                                 match category with Some c => c | None => "" end
                                 d))
                           (fun present =>
                              if present then
                                bind (lift (getitem d
                                        match category with
                                        | Some c => c | None => "" end))
                                  (fun sub =>
                                     ret (JDict [(match category with
                                                  | Some c => c | None => "" end,
                                                  sub)]))
                              else
                                ret (error_dict
                                       ("No information found for category '"
                                        ++ match category with
                                           | Some c => c | None => "" end
                                        ++ "'")))) w1 in
                    match r with
                    | Ok a => (Ok a, w')
                    | Raise e =>
                        (Ok (error_dict ("Could not retrieve stream information: "
                                         ++ str_exn e)),
                         world_after
                           (print ("Error getting stream info for category '"
                                   ++ match category with
                                      | Some c => c | None => "None" end
                                   ++ "': " ++ str_exn e)) w')
                    end) = Ok v /\
               (error_only v \/ v = d \/
                exists c sub, category = Some c /\ getitem d c = Ok sub /\
                              v = JDict [(c, sub)])).
  { intros d w1. destruct category as [c |]; simpl.
    - destruct (String.eqb c ""); simpl; [eauto |].
      unfold bind, lift, ret.
      destruct (contains c d) as [[|] | e]; simpl.
      + destruct (getitem d c) as [sub | e] eqn:Hsub; simpl.
        * eexists. split; [reflexivity |]. right. right. eauto.
        * eexists. split; [reflexivity |]. left. eexists. reflexivity.
      + eexists. split; [reflexivity |]. left. eexists. reflexivity.
      + eexists. split; [reflexivity |]. left. eexists. reflexivity.
    - eauto. }
  subst doc. destruct (stream_info_file w) as [| e | d | e]; cbv beta zeta.
  - apply Hanswer.
  - eexists. split; [reflexivity |]. left. eexists. reflexivity.
  - apply Hanswer.
  - eexists. split; [reflexivity |]. left. eexists. reflexivity.
Qed.

Lemma get_stream_info_unreadable (cfg : settings) (category : option string)
    (w : world) (e : exn) :
  stream_info_file w = FileUnreadable e ->
  outcome_of (get_stream_info cfg category) w
  = Ok (error_dict ("Could not retrieve stream information: " ++ str_exn e)).
Proof.
  intros Hfile. unfold outcome_of, get_stream_info.
  rewrite try_print_ret, load_or_create, Hfile. reflexivity.
Qed.

(** C1, as the claim states it, fails for [search_lego_sets]: a successful
    search returns a list, not a mapping. *)
Lemma C1_search_returns_a_list :
  outcome_of (search_lego_sets example_settings (example_service (JList []) (JList []))
                "falcon") initial_world
  = Ok (JList [JDict [("set_num", JStr "75192-1");
                      ("name", JStr "Millennium Falcon")]]) /\
  ~ is_mapping (JList [JDict [("set_num", JStr "75192-1");
                              ("name", JStr "Millennium Falcon")]]).
Proof.
  split; [reflexivity |]. intros (m & Hm). discriminate.
Qed.

(** C1 (amended): none of the four tools raises.  [get_lego_set_info]
    returns the decoded body of a successful response as it is, and the
    mapping [{'error': ...}] when the service is not reached, answers with
    an error status or sends no JSON.  [search_lego_sets] returns the error
    mapping in these cases and the first five items of the response's
    ['results'] on success: a list of at most five, not a mapping, and the
    empty list when the response has no ['results'].
    [get_twitch_user_info] returns the nine-key mapping, which has no
    ['error'] key, when the lookup goes through; any other result is an
    error mapping, and the result is an error mapping whenever one of its
    exchanges fails.  [get_stream_info] returns an error mapping when the
    file cannot be read or cannot be created; from the document of the
    file, or from the default document when it creates the file, it returns
    the document when no category is given, the single-key mapping of a
    category that is a key of the document, and an error mapping for a
    category that is not.  An error mapping has ['error'] as its only
    key. *)
Theorem C1_lookup_tools_contract
    (cfg : settings) (service : http_service) (w : world) :
  (forall set_num,
      outcome_of (get_lego_set_info cfg service set_num) w
      = Ok match delivered (service (exchanges w)
                              (GET_lego_set (REBRICKABLE_API_KEY cfg) set_num))
           with
           | Some j => j
           | None => error_dict ("Could not find information for set " ++ set_num)
           end) /\
  (forall query,
      let out := service (exchanges w)
                   (GET_lego_sets (REBRICKABLE_API_KEY cfg) query) in
      let failure :=
        error_dict ("Could not find any sets matching '" ++ query ++ "'") in
      let run := outcome_of (search_lego_sets cfg service query) w in
      run = Ok match delivered out with
               | Some j =>
                   match dict_get j "results" (JList []) with
                   | Ok results =>
                       match slice_to 5 results with
                       | Ok top => top
                       | Raise _ => failure
                       end
                   | Raise _ => failure
                   end
               | None => failure
               end /\
      (delivered out = None -> run = Ok failure) /\
      (forall m l,
          delivered out = Some (JDict m) ->
          lookup "results" m = Some (JList l) ->
          run = Ok (JList (firstn 5 l)) /\
          (length (firstn 5 l) <= 5)%nat /\
          ~ is_mapping (JList (firstn 5 l))) /\
      (forall m,
          delivered out = Some (JDict m) ->
          lookup "results" m = None ->
          run = Ok (JList []))) /\
  (forall username,
      (forall xs v,
          user_lookup cfg username xs v ->
          answered_by service (exchanges w) xs ->
          outcome_of (get_twitch_user_info cfg service username) w = Ok v /\
          exists m, v = JDict m /\ keys m = user_info_keys
                    /\ lookup "error" m = None) /\
      exists v w',
        get_twitch_user_info cfg service username w = (Ok v, w') /\
        (error_only v \/
         (user_lookup cfg username (new_exchanges w w') v /\
          exists m, v = JDict m /\ keys m = user_info_keys
                    /\ lookup "error" m = None)) /\
        (forall x, In x (new_exchanges w w') -> exchange_ok x = false ->
                   error_only v)) /\
  (forall category,
      let run := outcome_of (get_stream_info cfg category) w in
      (exists v, run = Ok v) /\
      (forall e,
          stream_info_file w = FileUnreadable e \/
          stream_info_file w = FileCannotBeCreated e ->
          run = Ok (error_dict ("Could not retrieve stream information: "
                                ++ str_exn e))) /\
      (forall doc,
          stream_info_file w = FileHolds doc \/
          (stream_info_file w = FileAbsent /\
           doc = create_default_stream_info) ->
          (no_category category = true -> run = Ok doc) /\
          (forall c m sub,
              category = Some c -> c <> "" -> doc = JDict m ->
              lookup c m = Some sub ->
              run = Ok (JDict [(c, sub)])) /\
          (forall c m,
              category = Some c -> c <> "" -> doc = JDict m ->
              lookup c m = None ->
              run = Ok (error_dict ("No information found for category '"
                                    ++ c ++ "'"))))).
Proof.
  split; [intros set_num; apply get_lego_set_info_spec |].
  split; [| split].
  - intros query out failure run.
    pose proof (search_lego_sets_spec cfg service query w) as H.
    fold out in H. fold failure in H. fold run in H.
    split; [exact H |].
    split; [intros Hnone; rewrite H, Hnone; reflexivity |].
    split.
    + intros m l Hsome Hl. rewrite H, Hsome. unfold dict_get. rewrite Hl.
      unfold slice_to.
      split; [reflexivity |].
      split; [apply firstn_le_length |].
      intros (m' & Hm'). discriminate.
    + intros m Hsome Hl. rewrite H, Hsome. unfold dict_get. rewrite Hl.
      reflexivity.
  - intros username. split.
    + intros xs v Hu Hans. split.
      * unfold outcome_of.
        rewrite (get_twitch_user_info_goes_through service w Hu Hans).
        reflexivity.
      * exact (user_lookup_keys Hu).
    + destruct (get_twitch_user_info_returns cfg service username w)
        as (v & w' & Hrun & Hv & Hbad).
      exists v, w'. split; [exact Hrun |]. split; [| exact Hbad].
      destruct Hv as [He | Hu]; [left; exact He | right].
      split; [exact Hu | exact (user_lookup_keys Hu)].
  - intros category run.
    split; [| split].
    + destruct (get_stream_info_returns cfg category w) as (v & Hrun & _).
      exists v. exact Hrun.
    + intros e [He | He].
      * exact (get_stream_info_unreadable cfg category w He).
      * unfold run, outcome_of.
        rewrite (get_stream_info_cannot_create cfg category w He).
        reflexivity.
    + intros doc Hdoc.
      assert (Hsame : exists w0, stream_info_file w0 = FileHolds doc /\
                                 run = outcome_of (get_stream_info cfg category) w0).
      { destruct Hdoc as [Hfile | [Hfile ->]].
        - exists w. split; [exact Hfile | reflexivity].
        - exists world_with_default_file. split; [reflexivity |].
          exact (proj2 (get_stream_info_creates cfg category w Hfile)). }
      destruct Hsame as (w0 & Hfile & ->). unfold outcome_of.
      split; [| split].
      * intros Hcat.
        rewrite (get_stream_info_whole cfg category w0 Hfile Hcat).
        reflexivity.
      * intros c m sub -> Hc -> Hsub.
        rewrite (get_stream_info_known cfg w0 Hfile Hc Hsub). reflexivity.
      * intros c m -> Hc -> Hnone.
        rewrite (get_stream_info_unknown cfg w0 Hfile Hc Hnone). reflexivity.
Qed.

(** A search that finds one set returns the list with that set; with the
    catalogue out of reach it returns the error mapping. *)
Lemma C1_lookup_tools_contract_witness :
  outcome_of (search_lego_sets example_settings follower_service "falcon")
             initial_world
  = Ok (JList [JDict [("set_num", JStr "75192-1");
                      ("name", JStr "Millennium Falcon")]]) /\
  outcome_of (search_lego_sets example_settings unreachable_service "falcon")
             initial_world
  = Ok (error_dict "Could not find any sets matching 'falcon'").
Proof.
  split.
  - destruct (C1_lookup_tools_contract example_settings follower_service
                initial_world) as (_ & Hsearch & _).
    destruct (Hsearch "falcon") as (_ & _ & Hlist & _).
    destruct (Hlist [("count", JInt 1);
                     ("results",
                      JList [JDict [("set_num", JStr "75192-1");
                                    ("name", JStr "Millennium Falcon")]])]
                [JDict [("set_num", JStr "75192-1");
                        ("name", JStr "Millennium Falcon")]]
                eq_refl eq_refl) as [H _].
    exact H.
  - destruct (C1_lookup_tools_contract example_settings unreachable_service
                initial_world) as (_ & Hsearch & _).
    destruct (Hsearch "falcon") as (_ & Hfail & _).
    apply Hfail. reflexivity.
Defined.

(* ----------------------------------------------------------------- *)
(** ** The two executors (agents.py) *)

(** C8: the event dispatcher is built with the single tool
    [get_stream_info], the last of the four tools of the chat dispatcher, so
    none of [get_lego_set_info], [search_lego_sets] and
    [get_twitch_user_info] is among its tools; it is built without a memory
    and its prompt has no history placeholder, whereas the chat dispatcher
    has both. *)
Theorem C8_event_dispatcher_tools_and_memory
    (cfg : settings) (service : http_service) :
  let ev := create_event_agent cfg service in
  let ch := create_chat_agent cfg service in
  map tool_name (tools ev) = ["get_stream_info"] /\
  map tool_name (agent_tools (agent ev)) = ["get_stream_info"] /\
  (forall arg, map (fun t => tool_func t arg) (tools ev)
               = [get_stream_info cfg arg]) /\
  map tool_name (tools ch)
  = ["get_lego_set_info"; "search_lego_sets"; "get_twitch_user_info";
     "get_stream_info"] /\
  (forall t, In t (tools ev) ->
             tool_name t <> "get_lego_set_info" /\
             tool_name t <> "search_lego_sets" /\
             tool_name t <> "get_twitch_user_info") /\
  memory ev = None /\
  agent_prompt (agent ev)
  = [PromptSystem event_system_message; PromptHuman "{input}";
     MessagesPlaceholder "agent_scratchpad"] /\
  memory ch = Some (mk_memory true "chat_history" "output" []) /\
  In (MessagesPlaceholder "chat_history") (agent_prompt (agent ch)) /\
  max_iterations ev = 2%nat.
Proof.
  intros ev ch. repeat split; try reflexivity.
  - destruct H as [<- | []]. discriminate.
  - destruct H as [<- | []]. discriminate.
  - destruct H as [<- | []]. discriminate.
  - simpl. auto.
Qed.

(** The one tool of the event dispatcher is none of the three other
    tools. *)
Lemma C8_event_dispatcher_tools_and_memory_witness :
  let t := mk_tool "get_stream_info"
             "Get information about the stream like schedule, current build, etc."
             StreamInfoInput (get_stream_info example_settings) false in
  In t (tools (create_event_agent example_settings unreachable_service)) /\
  tool_name t <> "get_lego_set_info" /\
  tool_name t <> "search_lego_sets" /\
  tool_name t <> "get_twitch_user_info".
Proof.
  intros t.
  assert (Hin : In t (tools (create_event_agent example_settings
                               unreachable_service)))
    by (left; reflexivity).
  split; [exact Hin |].
  destruct (C8_event_dispatcher_tools_and_memory example_settings
              unreachable_service) as (_ & _ & _ & _ & H & _).
  exact (H t Hin).
Defined.

(** Under the modelled executor, the context the event dispatcher sends to
    the model holds the system text, the instruction and the steps of the
    current invocation, and nothing else. *)
Lemma event_context_has_no_history (cfg : settings) (service : http_service)
    (input : string) (steps : list step) :
  render_prompt (create_event_agent cfg service) input steps
  = (SystemMessage event_system_message :: HumanMessage input
       :: scratchpad_of steps)%list.
Proof.
  unfold render_prompt, create_event_agent. simpl.
  rewrite app_nil_r. reflexivity.
Qed.

(* ----------------------------------------------------------------- *)
(** ** The tools leave the language model alone *)

Lemma keeps_ret {A : Type} (a : A) : keeps_model_calls (ret a).
Proof. intros w. reflexivity. Qed.

Lemma keeps_raise {A : Type} (e : exn) : keeps_model_calls (@raise A e).
Proof. intros w. reflexivity. Qed.

Lemma keeps_lift {A : Type} (r : result A) : keeps_model_calls (lift r).
Proof. intros w. reflexivity. Qed.

Lemma keeps_print (line : string) : keeps_model_calls (print line).
Proof. intros w. reflexivity. Qed.

Lemma keeps_send_request (service : http_service) (req : request) :
  keeps_model_calls (send_request service req).
Proof. intros w. reflexivity. Qed.

Lemma keeps_raise_for_status (r : response) :
  keeps_model_calls (raise_for_status r).
Proof.
  intros w. unfold raise_for_status.
  destruct ((400 <=? status_code r) && (status_code r <? 600)); reflexivity.
Qed.

Lemma keeps_path_exists : keeps_model_calls path_exists.
Proof. intros w. reflexivity. Qed.

Lemma keeps_load_yaml : keeps_model_calls load_yaml.
Proof. intros w. reflexivity. Qed.

Lemma keeps_dump_yaml (doc : json) : keeps_model_calls (dump_yaml doc).
Proof.
  intros w. unfold world_after, dump_yaml.
  destruct (stream_info_file w); reflexivity.
Qed.

Lemma keeps_bind {A B : Type} (m : M A) (k : A -> M B) :
  keeps_model_calls m -> (forall a, keeps_model_calls (k a)) ->
  keeps_model_calls (bind m k).
Proof.
  intros Hm Hk w. specialize (Hm w). unfold world_after, bind in *.
  destruct (m w) as [[a | e] w1]; simpl in *.
  - rewrite <- Hm. apply Hk.
  - exact Hm.
Qed.

Lemma keeps_try_except {A : Type} (body : M A) (handler : exn -> M A) :
  keeps_model_calls body -> (forall e, keeps_model_calls (handler e)) ->
  keeps_model_calls (try_except body handler).
Proof.
  intros Hb Hh w. specialize (Hb w). unfold world_after, try_except in *.
  destruct (body w) as [[a | e] w1]; simpl in *.
  - exact Hb.
  - rewrite <- Hb. apply Hh.
Qed.

Ltac keeps :=
  repeat first
    [ apply keeps_ret | apply keeps_raise | apply keeps_lift
    | apply keeps_print | apply keeps_send_request
    | apply keeps_raise_for_status | apply keeps_path_exists
    | apply keeps_load_yaml | apply keeps_dump_yaml
    | apply keeps_bind; [| intros ?]
    | apply keeps_try_except; [| intros ?]
    | match goal with
      | |- keeps_model_calls (if ?c then _ else _) => destruct c
      | |- keeps_model_calls (match ?x with _ => _ end) => destruct x
      end ].

Lemma get_bot_tools_keep_model_calls (cfg : settings) (service : http_service) :
  Forall (fun t => forall arg, keeps_model_calls (tool_func t arg))
         (get_bot_tools cfg service).
Proof.
  unfold get_bot_tools. repeat constructor; simpl; intros arg;
    unfold required_arg, get_lego_set_info, search_lego_sets,
      get_twitch_user_info, twitch_user_info_body, check_follow,
      compile_user_information, get_stream_info, response_json;
    cbv zeta; keeps.
Qed.

(** With an argument, every tool of the registry returns. *)
Lemma get_bot_tools_return (cfg : settings) (service : http_service) :
  Forall (fun t => forall a, returns (tool_func t (Some a)))
         (get_bot_tools cfg service).
Proof.
  assert (Hout : forall (m : M json) (v : json) (w : world),
             outcome_of m w = Ok v -> exists a w', m w = (Ok a, w')).
  { intros m v w. unfold outcome_of. destruct (m w) as [r w']; simpl.
    intros ->. eauto. }
  unfold get_bot_tools. repeat constructor; simpl; intros a w.
  - eapply Hout. apply get_lego_set_info_spec.
  - pose proof (search_lego_sets_spec cfg service a w) as H.
    eapply Hout. exact H.
  - destruct (get_twitch_user_info_returns cfg service a w)
      as (v & w' & H & _). eauto.
  - destruct (get_stream_info_returns cfg (Some a) w) as (v & H & _).
    eapply Hout. exact H.
Qed.

(* ----------------------------------------------------------------- *)
(** ** The dispatch loop stops at its cap *)

Section DispatchLoop.

Variable llm : language_model.
Variable ex : AgentExecutor.
Variable input : string.

Hypothesis tools_keep :
  Forall (fun t => forall arg, keeps_model_calls (tool_func t arg)) (tools ex).

Lemma find_tool_In (name : string) (ts : list tool) (t : tool) :
  find_tool name ts = Some t -> In t ts.
Proof.
  induction ts as [| t' ts IH]; simpl; [discriminate |].
  destruct (String.eqb name (tool_name t')).
  - intros H. injection H as ->. auto.
  - auto.
Qed.

Lemma execute_tool_keeps (name : string) (arg : option string) :
  keeps_model_calls (execute_tool ex name arg).
Proof.
  unfold execute_tool. destruct (find_tool name (tools ex)) as [t |] eqn:E.
  - rewrite Forall_forall in tools_keep.
    apply tools_keep. exact (find_tool_In _ _ E).
  - apply keeps_ret.
Qed.

(** Whatever the model and the tools do, a run of the loop consults the
    model at most [n] times and records at most [n] steps. *)
Lemma dispatch_loop_bounded (n : nat) :
  forall (steps : list step) (w w' : world) (r : result run_result),
    dispatch_loop llm ex input n steps w = (r, w') ->
    (length (model_calls w') <= length (model_calls w) + n)%nat /\
    (forall res, r = Ok res ->
                 (length (intermediate_steps res) <= length steps + n)%nat).
Proof.
  induction n as [| n IH]; intros steps w w' r Hrun.
  - simpl in Hrun. apply ret_inv in Hrun. destruct Hrun as [-> ->].
    split; [lia |]. intros res H. injection H as <-. simpl. lia.
  - cbn [dispatch_loop] in Hrun. unfold bind at 1 in Hrun.
    unfold ask_model in Hrun.
    set (w1 := mk_world _ _ _ _ _ _ _) in Hrun.
    assert (Hw1 : length (model_calls w1) = S (length (model_calls w)))
      by (unfold w1; simpl; rewrite length_app; simpl; lia).
    clearbody w1.
    destruct (llm (model_calls w) (render_prompt ex input steps))
      as [[text | name arg | raw] | e].
    + apply ret_inv in Hrun. destruct Hrun as [-> ->].
      split; [lia |]. intros res H. injection H as <-. simpl. lia.
    + unfold bind in Hrun.
      pose proof (execute_tool_keeps name arg w1) as Hk.
      unfold world_after in Hk.
      destruct (execute_tool ex name arg w1) as [[obs | e] w2]; simpl in Hk.
      * apply IH in Hrun. destruct Hrun as [H1 H2]. rewrite Hk in H1.
        split; [lia |].
        intros res Hr. specialize (H2 res Hr).
        rewrite length_app in H2. simpl in H2. lia.
      * injection Hrun as <- <-. rewrite Hk. split; [lia | discriminate].
    + destruct (handle_parsing_errors ex).
      * apply IH in Hrun. destruct Hrun as [H1 H2].
        split; [lia |].
        intros res Hr. specialize (H2 res Hr).
        rewrite length_app in H2. simpl in H2. lia.
      * injection Hrun as <- <-. split; [lia | discriminate].
    + injection Hrun as <- <-. split; [lia | discriminate].
Qed.

Hypothesis tools_return :
  Forall (fun t => forall a, returns (tool_func t (Some a))) (tools ex).

Lemma execute_tool_returns (name a : string) :
  returns (execute_tool ex name (Some a)).
Proof.
  intros w. unfold execute_tool.
  destruct (find_tool name (tools ex)) as [t |] eqn:E.
  - rewrite Forall_forall in tools_return.
    apply tools_return. exact (find_tool_In _ _ E).
  - eexists. eexists. reflexivity.
Qed.

Hypothesis never_final : always_calls_tool llm.

(** With a model that never answers, the loop makes exactly [n] iterations
    and then returns the stopped response. *)
Lemma dispatch_loop_never_final (n : nat) :
  forall (steps : list step) (w : world),
    exists steps' w',
      dispatch_loop llm ex input n steps w
      = (Ok (finish input stopped_response steps'), w') /\
      length (model_calls w') = (length (model_calls w) + n)%nat /\
      length steps' = (length steps + n)%nat.
Proof.
  induction n as [| n IH]; intros steps w.
  - exists steps, w. simpl. repeat split; lia.
  - simpl. unfold bind at 1. unfold ask_model at 1. simpl.
    set (w1 := mk_world _ _ _ _ _ _ _).
    assert (Hw1 : length (model_calls w1) = S (length (model_calls w)))
      by (unfold w1; simpl; rewrite length_app; simpl; lia).
    destruct (never_final (model_calls w) (render_prompt ex input steps))
      as (name & a & ->).
    unfold bind at 1.
    pose proof (execute_tool_keeps name (Some a) w1) as Hk.
    unfold world_after in Hk.
    destruct (execute_tool_returns name a w1) as (obs & w2 & Hrun).
    rewrite Hrun in *. simpl in Hk.
    destruct (IH (steps ++ [mk_step name (Some a) obs])%list w2)
      as (steps' & w' & Hloop & Hcalls & Hsteps).
    exists steps', w'. split; [exact Hloop |].
    rewrite Hk, length_app in Hcalls. simpl in Hcalls.
    rewrite length_app in Hsteps. simpl in Hsteps. split; lia.
Qed.

End DispatchLoop.

Lemma chat_agent_tools_keep (cfg : settings) (service : http_service) :
  Forall (fun t => forall arg, keeps_model_calls (tool_func t arg))
         (tools (create_chat_agent cfg service)).
Proof. exact (get_bot_tools_keep_model_calls cfg service). Qed.

Lemma event_agent_tools_keep (cfg : settings) (service : http_service) :
  Forall (fun t => forall arg, keeps_model_calls (tool_func t arg))
         (tools (create_event_agent cfg service)).
Proof.
  pose proof (get_bot_tools_keep_model_calls cfg service) as H.
  unfold get_bot_tools in H. do 3 apply Forall_inv_tail in H. exact H.
Qed.

Lemma chat_agent_tools_return (cfg : settings) (service : http_service) :
  Forall (fun t => forall a, returns (tool_func t (Some a)))
         (tools (create_chat_agent cfg service)).
Proof. exact (get_bot_tools_return cfg service). Qed.

Lemma event_agent_tools_return (cfg : settings) (service : http_service) :
  Forall (fun t => forall a, returns (tool_func t (Some a)))
         (tools (create_event_agent cfg service)).
Proof.
  unfold create_event_agent. simpl. repeat constructor. simpl.
  intros a w. destruct (get_stream_info_returns cfg (Some a) w) as (v & H & _).
  unfold outcome_of in H.
  destruct (get_stream_info cfg (Some a) w) as [r w']. simpl in H. subst r.
  eauto.
Qed.

(** C5: with the modelled executor, whatever the model and the services do,
    one invocation of the chat dispatcher consults the model at most 3 times
    (and runs at most 3 tool calls), one invocation of the event dispatcher
    at most 2 times, and both return a text.  With a model that requests a
    tool call at every step and never answers, the chat dispatcher stops
    after exactly 3 iterations and the event dispatcher after exactly 2,
    each returning the stopped response. *)
Theorem C5_dispatch_loops_terminate
    (cfg : settings) (service : http_service) (llm : language_model)
    (username message event_type event_user : string)
    (details : option details_t) (w : world) :
  let ainvoke := AgentExecutor_ainvoke llm in
  let chat_input := username ++ ": " ++ message in
  let event_input :=
    event_prompt event_type event_user (details_or_empty details) in
  max_iterations (create_chat_agent cfg service) = 3%nat /\
  max_iterations (create_event_agent cfg service) = 2%nat /\
  (exists reply w',
      process_chat_message cfg service ainvoke username message w
      = (Ok reply, w') /\
      (length (model_calls w') <= length (model_calls w) + 3)%nat) /\
  (exists reply w',
      process_event cfg service ainvoke event_type event_user details w
      = (Ok reply, w') /\
      (length (model_calls w') <= length (model_calls w) + 2)%nat) /\
  (forall r w',
      ainvoke (create_chat_agent cfg service) chat_input w = (Ok r, w') ->
      (length (intermediate_steps r) <= 3)%nat) /\
  (forall r w',
      ainvoke (create_event_agent cfg service) event_input w = (Ok r, w') ->
      (length (intermediate_steps r) <= 2)%nat) /\
  (always_calls_tool llm ->
   (exists w',
       process_chat_message cfg service ainvoke username message w
       = (Ok stopped_response, w') /\
       length (model_calls w') = (length (model_calls w) + 3)%nat) /\
   (exists w',
       process_event cfg service ainvoke event_type event_user details w
       = (Ok stopped_response, w') /\
       length (model_calls w') = (length (model_calls w) + 2)%nat)).
Proof.
  intros ainvoke chat_input event_input.
  pose proof (process_chat_message_cases cfg service ainvoke username message w)
    as Hchat.
  pose proof (process_event_cases cfg service ainvoke event_type event_user
                details w) as Hevent.
  cbv zeta in Hchat, Hevent. fold chat_input in Hchat. fold event_input in Hevent.
  pose proof (@dispatch_loop_bounded llm (create_chat_agent cfg service)
                chat_input (chat_agent_tools_keep cfg service) 3 [] w)
    as Bchat.
  pose proof (@dispatch_loop_bounded llm (create_event_agent cfg service)
                event_input (event_agent_tools_keep cfg service) 2 [] w)
    as Bevent.
  split; [reflexivity |]. split; [reflexivity |].
  split; [| split; [| split; [| split]]].
  - change (ainvoke (create_chat_agent cfg service) chat_input w)
      with (dispatch_loop llm (create_chat_agent cfg service) chat_input 3 [] w)
      in Hchat.
    destruct (dispatch_loop llm (create_chat_agent cfg service) chat_input 3 [] w)
      as [r w1].
    destruct (Bchat w1 r eq_refl) as [Hb _].
    destruct r as [r | e]; [destruct (result_output r) |];
      eexists; eexists; (split; [exact Hchat |]); exact Hb.
  - change (ainvoke (create_event_agent cfg service) event_input w)
      with (dispatch_loop llm (create_event_agent cfg service) event_input 2 [] w)
      in Hevent.
    destruct (dispatch_loop llm (create_event_agent cfg service) event_input 2 [] w)
      as [r w1].
    destruct (Bevent w1 r eq_refl) as [Hb _].
    destruct r as [r | e]; [destruct (result_output r) |];
      eexists; eexists; (split; [exact Hevent |]); exact Hb.
  - intros r w' Hrun. destruct (Bchat w' (Ok r) Hrun) as [_ Hs].
    exact (Hs r eq_refl).
  - intros r w' Hrun. destruct (Bevent w' (Ok r) Hrun) as [_ Hs].
    exact (Hs r eq_refl).
  - intros Hnever. split.
    + destruct (@dispatch_loop_never_final llm (create_chat_agent cfg service)
                  chat_input (chat_agent_tools_keep cfg service)
                  (chat_agent_tools_return cfg service) Hnever 3 [] w)
        as (steps' & w' & Hloop & Hcalls & _).
      change (ainvoke (create_chat_agent cfg service) chat_input w)
        with (dispatch_loop llm (create_chat_agent cfg service) chat_input 3 [] w)
        in Hchat.
      rewrite Hloop in Hchat. exists w'. split; [exact Hchat | exact Hcalls].
    + destruct (@dispatch_loop_never_final llm (create_event_agent cfg service)
                  event_input (event_agent_tools_keep cfg service)
                  (event_agent_tools_return cfg service) Hnever 2 [] w)
        as (steps' & w' & Hloop & Hcalls & _).
      change (ainvoke (create_event_agent cfg service) event_input w)
        with (dispatch_loop llm (create_event_agent cfg service) event_input 2 [] w)
        in Hevent.
      rewrite Hloop in Hevent. exists w'. split; [exact Hevent | exact Hcalls].
Qed.

(** A model that asks for the schedule at every step: three iterations, then
    the stopped response. *)
Lemma C5_dispatch_loops_terminate_witness :
  always_calls_tool insistent_model /\
  exists w',
    process_chat_message example_settings unreachable_service
      (AgentExecutor_ainvoke insistent_model) "alice"
      "BrickNPlateBot, when do you stream?" initial_world
    = (Ok stopped_response, w') /\
    length (model_calls w') = 3%nat.
Proof.
  assert (Hnever : always_calls_tool insistent_model)
    by (intros history context; eexists; eexists; reflexivity).
  split; [exact Hnever |].
  destruct (@C5_dispatch_loops_terminate example_settings unreachable_service
              insistent_model "alice" "BrickNPlateBot, when do you stream?"
              "raid" "bob" None initial_world)
    as (_ & _ & _ & _ & _ & _ & H).
  destruct (H Hnever) as [(w' & Hrun & Hcalls) _].
  exists w'. split; [exact Hrun | exact Hcalls].
Defined.

(* ----------------------------------------------------------------- *)
(** ** The model at work on concrete inputs *)

Example lower_bot_name :
  lower "BrickNPlateBot, what is set 75192?"
  = "bricknplatebot, what is set 75192?".
Proof. reflexivity. Qed.

Example channel_name_example :
  channel_name_of (TWITCH_CHANNEL example_settings) = Ok "bricknplate".
Proof. reflexivity. Qed.

(** The capitals of Latin-1 are lowered like [A] to [Z]: U+00C9 (E with
    acute accent) becomes U+00E9; the multiplication sign U+00D7 and the
    sharp s U+00DF stay. *)
Example lower_latin1 :
  lower (String "201"%char (String "215"%char (String "223"%char "COLE")))
  = String "233"%char (String "215"%char (String "223"%char "cole")).
Proof. reflexivity. Qed.

(** The first call in a directory that cannot be written returns the error
    mapping and creates no file. *)
Example write_fails :
  get_stream_info example_settings None read_only_world
  = (Ok (error_dict
           "Could not retrieve stream information: [Errno 13] Permission denied: 'stream_info.yaml'"),
     world_after
       (print "Error getting stream info for category 'None': [Errno 13] Permission denied: 'stream_info.yaml'")
       read_only_world).
Proof. reflexivity. Qed.

Example truncate_long_reply :
  String.length (truncate (text_of_length 600)) = 500%nat /\
  truncate (text_of_length 600) = text_of_length 497 ++ "..." /\
  truncate (text_of_length 500) = text_of_length 500.
Proof. vm_compute. repeat split. Qed.

Example unreachable_set_lookup :
  outcome_of (get_lego_set_info example_settings unreachable_service "75192")
             initial_world
  = Ok (error_dict "Could not find information for set 75192").
Proof. reflexivity. Qed.

Example known_set_lookup :
  outcome_of (get_lego_set_info example_settings
                (example_service (JList []) (JList [])) "75192") initial_world
  = Ok (JDict [("set_num", JStr "75192-1"); ("name", JStr "Millennium Falcon")]).
Proof. reflexivity. Qed.

Example follower_lookup :
  outcome_of
    (get_twitch_user_info example_settings
       (example_service (JList [JDict [("id", JStr "2002")]])
                        (JList [JDict [("followed_at",
                                        JStr "2024-05-01T18:00:00Z")]]))
       "Alice") initial_world
  = Ok (JDict [
      ("username", JStr "Alice");
      ("id", JStr "1001");
      ("profile_image", JStr "https://example.org/alice.png");
      ("account_created", JStr "2020-01-01T00:00:00Z");
      ("description", JStr "");
      ("broadcaster_type", JStr "");
      ("channel", JDict []);
      ("following_since", JStr "2024-05-01T18:00:00Z");
      ("is_following", JBool true)]).
Proof. vm_compute. reflexivity. Qed.

Example non_follower_lookup :
  outcome_of
    (get_twitch_user_info example_settings
       (example_service (JList [JDict [("id", JStr "2002")]]) (JList []))
       "alice") initial_world
  = Ok (JDict [
      ("username", JStr "Alice");
      ("id", JStr "1001");
      ("profile_image", JStr "https://example.org/alice.png");
      ("account_created", JStr "2020-01-01T00:00:00Z");
      ("description", JStr "");
      ("broadcaster_type", JStr "");
      ("channel", JDict []);
      ("following_since", JNull);
      ("is_following", JBool false)]).
Proof. vm_compute. reflexivity. Qed.

Example unreachable_user_lookup :
  outcome_of (get_twitch_user_info example_settings unreachable_service "alice")
             initial_world
  = Ok (error_dict
          "Could not fetch information for user alice: connection refused").
Proof. reflexivity. Qed.

Example resub_fallback :
  outcome_of (process_event example_settings unreachable_service
                failing_ainvoke "resub" "dave"
                (Some [("months", SInt 12); ("tier", SStr "1000")]))
             initial_world
  = Ok "Thanks for the 12-month sub, dave! You're an essential piece in our community!".
Proof. reflexivity. Qed.

Example long_reply_is_cut :
  chat (world_after
          (event_message example_settings unreachable_service
             (answering_ainvoke (text_of_length 600))
             (mk_chat_message false "Hey BrickNPlateBot, tell me everything"
                "alice"))
          initial_world)
  = [text_of_length 497 ++ "..."].
Proof. vm_compute. reflexivity. Qed.

Example echo_is_ignored :
  event_message example_settings unreachable_service
    (answering_ainvoke "hello")
    (mk_chat_message true "BrickNPlateBot says hi" "bricknplatebot")
    initial_world
  = (Ok tt, initial_world).
Proof. reflexivity. Qed.

Example eleven_raids :
  map raid_username
      (raiders (run_calls
                  (map (fun n => AddRaider (str_int n) 5 n)
                       [1; 2; 3; 4; 5; 6; 7; 8; 9; 10; 11])
                  recent_events))
  = ["2"; "3"; "4"; "5"; "6"; "7"; "8"; "9"; "10"; "11"].
Proof. vm_compute. reflexivity. Qed.

(* ================================================================= *)
(** * Further properties of the code *)

(* ----------------------------------------------------------------- *)
(** ** What a computation leaves alone *)

Section Preserves.

Context {X : Type}.
Variable component : world -> X.

Lemma preserves_ret {A : Type} (a : A) : preserves component (ret a).
Proof. intros w. reflexivity. Qed.

Lemma preserves_raise {A : Type} (e : exn) : preserves component (@raise A e).
Proof. intros w. reflexivity. Qed.

Lemma preserves_lift {A : Type} (r : result A) : preserves component (lift r).
Proof. intros w. reflexivity. Qed.

Lemma preserves_raise_for_status (r : response) :
  preserves component (raise_for_status r).
Proof.
  intros w. unfold raise_for_status.
  destruct ((400 <=? status_code r) && (status_code r <? 600)); reflexivity.
Qed.

Lemma preserves_path_exists : preserves component path_exists.
Proof. intros w. reflexivity. Qed.

Lemma preserves_load_yaml : preserves component load_yaml.
Proof. intros w. reflexivity. Qed.

Lemma preserves_bind {A B : Type} (m : M A) (k : A -> M B) :
  preserves component m -> (forall a, preserves component (k a)) ->
  preserves component (bind m k).
Proof.
  intros Hm Hk w. specialize (Hm w). unfold world_after, bind in *.
  destruct (m w) as [[a | e] w1]; simpl in *.
  - rewrite <- Hm. apply Hk.
  - exact Hm.
Qed.

Lemma preserves_try_except {A : Type} (body : M A) (handler : exn -> M A) :
  preserves component body -> (forall e, preserves component (handler e)) ->
  preserves component (try_except body handler).
Proof.
  intros Hb Hh w. specialize (Hb w). unfold world_after, try_except in *.
  destruct (body w) as [[a | e] w1]; simpl in *.
  - exact Hb.
  - rewrite <- Hb. apply Hh.
Qed.

End Preserves.

(** Splits a goal about a composed computation into goals about the
    statements it runs; the statements that write to the world are left to
    [reflexivity]. *)
Ltac frame :=
  repeat first
    [ apply preserves_bind; [| intros ?]
    | apply preserves_try_except; [| intros ?]
    | apply preserves_ret | apply preserves_raise | apply preserves_lift
    | apply preserves_raise_for_status | apply preserves_path_exists
    | apply preserves_load_yaml
    | match goal with
      | |- preserves _ (print _) => intros ?; reflexivity
      | |- preserves _ (send_request _ _) => intros ?; reflexivity
      | |- preserves _ (dump_yaml _) =>
          let w := fresh "w" in
          intros w; unfold world_after, dump_yaml;
          destruct (stream_info_file w); reflexivity
      | |- preserves _ (if ?c then _ else _) => destruct c
      | |- preserves _ (match ?x with _ => _ end) => destruct x
      end ].

Ltac unfold_tools :=
  unfold get_lego_set_info, search_lego_sets, get_twitch_user_info,
    twitch_user_info_body, check_follow, compile_user_information,
    get_stream_info, response_json;
  cbv zeta.

(** X7: no lookup tool sends a text to the channel, touches the
    recent-event logs or the clock, or consults the language model; the
    three HTTP tools leave the stream-info file alone and [get_stream_info]
    sends no HTTP request. *)
Theorem X7_tools_leave_the_rest_alone
    (cfg : settings) (service : http_service) (arg : string)
    (category : option string) :
  let http_tools := [ get_lego_set_info cfg service arg;
                      search_lego_sets cfg service arg;
                      get_twitch_user_info cfg service arg ] in
  Forall (fun tool =>
            preserves chat tool /\ preserves events tool /\
            preserves clock tool /\ preserves model_calls tool /\
            preserves stream_info_file tool)
         http_tools /\
  preserves chat (get_stream_info cfg category) /\
  preserves events (get_stream_info cfg category) /\
  preserves clock (get_stream_info cfg category) /\
  preserves model_calls (get_stream_info cfg category) /\
  preserves exchanges (get_stream_info cfg category).
Proof.
  intros http_tools. unfold http_tools.
  split; [repeat constructor |]; repeat split; unfold_tools; frame.
Qed.

(* ----------------------------------------------------------------- *)
(** ** The requests a tool sends *)

Lemma all_but_last_ok_nil : all_but_last_ok [].
Proof. constructor. Qed.

Lemma all_but_last_ok_one (x : exchange) : all_but_last_ok [x].
Proof. constructor. Qed.

Lemma all_ok_all_but_last (xs : list exchange) :
  Forall (fun x => exchange_ok x = true) xs -> all_but_last_ok xs.
Proof.
  unfold all_but_last_ok. induction 1 as [| x xs Hx Hxs IH]; simpl.
  - constructor.
  - destruct xs; [constructor | constructor; assumption].
Qed.

Lemma all_but_last_ok_app (xs ys : list exchange) :
  Forall (fun x => exchange_ok x = true) xs -> all_but_last_ok ys ->
  all_but_last_ok (xs ++ ys).
Proof.
  intros Hxs Hys. destruct ys as [| y ys].
  - rewrite app_nil_r. apply all_ok_all_but_last. exact Hxs.
  - unfold all_but_last_ok in *. rewrite removelast_app by discriminate.
    apply Forall_app. split; assumption.
Qed.

Section RequestDiscipline.

Variable service : http_service.

Lemma discipline_ret {A : Type} (n : nat) (a : A) : request_discipline n (ret a).
Proof.
  intros w. exists []. simpl. rewrite app_nil_r.
  repeat split; [lia | constructor].
Qed.

Lemma discipline_raise {A : Type} (n : nat) (e : exn) :
  request_discipline n (@raise A e).
Proof.
  intros w. exists []. simpl. rewrite app_nil_r.
  repeat split; [lia | constructor].
Qed.

Lemma discipline_lift {A : Type} (n : nat) (r : result A) :
  request_discipline n (lift r).
Proof.
  intros w. exists []. unfold world_after, outcome_of, lift. simpl.
  rewrite app_nil_r. repeat split; [lia |].
  destruct r; constructor.
Qed.

Lemma discipline_print (n : nat) (line : string) :
  request_discipline n (print line).
Proof.
  intros w. exists []. simpl. rewrite app_nil_r.
  repeat split; [lia | constructor].
Qed.

Lemma discipline_bind {A B : Type} (n1 n2 : nat) (m : M A) (k : A -> M B) :
  request_discipline n1 m -> (forall a, request_discipline n2 (k a)) ->
  request_discipline (n1 + n2) (bind m k).
Proof.
  intros Hm Hk w. destruct (Hm w) as (xs & Hx & Hn & Hok).
  unfold world_after, outcome_of, bind in *.
  destruct (m w) as [[a | e] w1]; simpl in *.
  - destruct (Hk a w1) as (ys & Hy & Hn2 & Hok2).
    unfold world_after, outcome_of in *.
    exists (xs ++ ys)%list. rewrite Hy, Hx, app_assoc, length_app.
    repeat split; [lia |].
    destruct (k a w1) as [[b | e] w2]; simpl in *.
    + apply Forall_app. split; assumption.
    + apply all_but_last_ok_app; assumption.
  - exists xs. repeat split; [exact Hx | lia | exact Hok].
Qed.

(** A statement that sends nothing, followed by the rest. *)
Lemma discipline_then {A B : Type} (n : nat) (m : M A) (k : A -> M B) :
  request_discipline 0 m -> (forall a, request_discipline n (k a)) ->
  request_discipline n (bind m k).
Proof. intros Hm Hk. exact (@discipline_bind A B 0 n m k Hm Hk). Qed.

(** [response = requests.get(...); response.raise_for_status()] and what
    follows: the exchange comes first, and the rest runs only when it
    succeeded. *)
Lemma discipline_fetch_first {B : Type} (n : nat) (req : request)
    (k : response -> M B) :
  (forall r, status_ok r = true -> request_discipline n (k r)) ->
  forall w,
    let m := bind (send_request service req)
               (fun r => bind (raise_for_status r) (fun _ => k r)) in
    exists rest,
      exchanges (world_after m w)
      = (exchanges w ++ (req, service (exchanges w) req) :: rest)%list /\
      (length rest <= n)%nat /\
      match outcome_of m w with
      | Ok _ => Forall (fun x => exchange_ok x = true)
                       ((req, service (exchanges w) req) :: rest)
      | Raise _ => all_but_last_ok ((req, service (exchanges w) req) :: rest)
      end.
Proof.
  intros Hk w m. unfold m, world_after, outcome_of, bind, send_request.
  destruct (service (exchanges w) req) as [r | e] eqn:Hout; cbv beta iota.
  - unfold raise_for_status.
    destruct ((400 <=? status_code r) && (status_code r <? 600)) eqn:Hs.
    + exists []. unfold raise. simpl.
      repeat split; [lia | apply all_but_last_ok_one].
    + assert (Hstatus : status_ok r = true)
        by (unfold status_ok; rewrite Hs; reflexivity).
      unfold ret. cbv beta iota.
      set (w1 := mk_world _ _ _ _ _ _ _).
      destruct (Hk r Hstatus w1) as (rest & Hx & Hn & Hok).
      unfold world_after, outcome_of in Hx, Hok.
      exists rest. rewrite Hx. unfold w1 at 1. simpl.
      rewrite <- app_assoc. simpl.
      repeat split; [exact Hn |].
      assert (Hfirst : exchange_ok (req, Ok r) = true)
        by (unfold exchange_ok; cbn [snd]; rewrite Hs; reflexivity).
      destruct (fst (k r w1)).
      * constructor; assumption.
      * apply (@all_but_last_ok_app [(req, Ok r)] rest); [| exact Hok].
        constructor; [exact Hfirst | constructor].
  - exists []. simpl. repeat split; [lia | apply all_but_last_ok_one].
Qed.

Lemma discipline_fetch {B : Type} (n : nat) (req : request)
    (k : response -> M B) :
  (forall r, status_ok r = true -> request_discipline n (k r)) ->
  request_discipline (S n)
    (bind (send_request service req)
       (fun r => bind (raise_for_status r) (fun _ => k r))).
Proof.
  intros Hk w. destruct (discipline_fetch_first req k Hk w)
    as (rest & Hx & Hn & Hok).
  eexists. split; [exact Hx |]. split; [apply le_n_S; exact Hn | exact Hok].
Qed.

End RequestDiscipline.

Ltac discipline_pure :=
  repeat first
    [ apply discipline_ret | apply discipline_raise | apply discipline_lift
    | apply discipline_print
    | apply discipline_then; [| intros ?]
    | match goal with
      | |- request_discipline _ (if ?c then _ else _) => destruct c
      | |- request_discipline _ (match ?x with _ => _ end) => destruct x
      end ].

Ltac discipline :=
  repeat first
    [ apply discipline_ret | apply discipline_raise | apply discipline_lift
    | apply discipline_print
    | apply discipline_fetch; intros ? ?
    | apply discipline_then; [solve [discipline_pure] | intros ?]
    | match goal with
      | |- request_discipline _ (if ?c then _ else _) => destruct c
      end ].

Section ToolRequests.

Variable cfg : settings.
Variable service : http_service.

(** The handler of a tool sends nothing. *)
Lemma tool_exchanges {A : Type} (body : M A) (line : exn -> string)
    (value : exn -> A) (w : world) :
  exchanges (world_after
               (try_except body
                  (fun e => bind (print (line e)) (fun _ => ret (value e)))) w)
  = exchanges (world_after body w).
Proof.
  unfold world_after. rewrite try_print_ret.
  destruct (body w) as [[a | e] w']; reflexivity.
Qed.

Lemma check_follow_discipline (access_token user_id : json) :
  request_discipline 2 (check_follow cfg service access_token user_id).
Proof. unfold check_follow, response_json. discipline. Qed.

Lemma compile_user_information_discipline
    (user_info user_id channel_data : json) (following_since : option json) :
  request_discipline 0
    (compile_user_information user_info user_id channel_data following_since).
Proof. unfold compile_user_information. discipline_pure. Qed.

(** X1: whatever the catalogue answers, [get_lego_set_info] and
    [search_lego_sets] each send exactly one request: the one for the set
    number, or for the query, as it was given, with the configured key. *)
Theorem X1_catalogue_tools_send_one_request (arg : string) (w : world) :
  let get_set := GET_lego_set (REBRICKABLE_API_KEY cfg) arg in
  let search := GET_lego_sets (REBRICKABLE_API_KEY cfg) arg in
  exchanges (world_after (get_lego_set_info cfg service arg) w)
  = (exchanges w ++ [(get_set, service (exchanges w) get_set)])%list /\
  exchanges (world_after (search_lego_sets cfg service arg) w)
  = (exchanges w ++ [(search, service (exchanges w) search)])%list.
Proof.
  intros get_set search. split.
  - unfold get_lego_set_info. rewrite tool_exchanges.
    destruct (@discipline_fetch_first service json 0 get_set
                (fun response => response_json response)
                ltac:(intros; unfold response_json; discipline_pure) w)
      as (rest & Hx & Hn & _).
    destruct rest; [exact Hx | simpl in Hn; lia].
  - unfold search_lego_sets. rewrite tool_exchanges.
    destruct (@discipline_fetch_first service json 0 search
                (fun response =>
                   bind (response_json response)
                     (fun j =>
                        bind (lift (dict_get j "results" (JList [])))
                          (fun results => lift (slice_to 5 results))))
                ltac:(intros; unfold response_json; discipline_pure) w)
      as (rest & Hx & Hn & _).
    destruct rest; [exact Hx | simpl in Hn; lia].
Qed.

(** X3: [get_twitch_user_info] sends between one and five requests; the
    first asks for the app access token with the configured client id and
    secret; and once an exchange has failed (no response or an error
    status) no further request is sent. *)
Theorem X3_twitch_lookup_requests (username : string) (w : world) :
  let token_request :=
    POST_oauth2_token (TWITCH_CLIENT_ID cfg) (TWITCH_CLIENT_SECRET cfg) in
  exists rest,
    exchanges (world_after (get_twitch_user_info cfg service username) w)
    = (exchanges w
         ++ (token_request, service (exchanges w) token_request) :: rest)%list /\
    (length rest <= 4)%nat /\
    all_but_last_ok ((token_request, service (exchanges w) token_request)
                       :: rest).
Proof.
  intros token_request.
  unfold get_twitch_user_info. rewrite tool_exchanges.
  unfold twitch_user_info_body.
  match goal with
  | |- context [bind (send_request service _) ?k] =>
      match k with
      | (fun r => bind (raise_for_status r) (fun _ => @?k' r)) =>
          destruct (@discipline_fetch_first service json 4 token_request k')
            with (w := w) as (rest & Hx & Hn & Hok)
      end
  end.
  - intros r Hr. unfold response_json. cbv beta.
    repeat first
      [ apply discipline_ret | apply discipline_lift
      | apply discipline_fetch; intros ? ?
      | eapply (@discipline_bind _ _ 2 0);
          [apply check_follow_discipline | intros ?]
      | apply compile_user_information_discipline
      | apply discipline_then; [solve [discipline_pure] | intros ?]
      | match goal with
        | |- request_discipline _ (if ?c then _ else _) => destruct c
        end ].
  - exists rest. split; [exact Hx |]. split; [exact Hn |].
    cbv zeta in Hok.
    destruct (outcome_of _ w); [apply all_ok_all_but_last |]; exact Hok.
Qed.

End ToolRequests.

(* ----------------------------------------------------------------- *)
(** ** Edge cases of the catalogue search and of the user lookup *)

(** X2: for a delivered JSON object, [search_lego_sets] returns the first
    five entries of the list under ['results'], in the order of the
    response, the whole list when it has fewer, and the empty list (not an
    error) when the object has no ['results'] key; for a delivered answer
    that is not an object (a list, a string, a number, [null]) it returns
    the error mapping. *)
Theorem X2_search_results_prefix
    (cfg : settings) (service : http_service) (query : string) (w : world)
    (answer : json)
    (Hdelivered : delivered (service (exchanges w)
                               (GET_lego_sets (REBRICKABLE_API_KEY cfg) query))
                  = Some answer) :
  (forall m l,
      answer = JDict m -> lookup "results" m = Some (JList l) ->
      outcome_of (search_lego_sets cfg service query) w = Ok (JList (firstn 5 l))
      /\ ((length l <= 5)%nat ->
          outcome_of (search_lego_sets cfg service query) w = Ok (JList l))) /\
  (forall m,
      answer = JDict m -> lookup "results" m = None ->
      outcome_of (search_lego_sets cfg service query) w = Ok (JList [])) /\
  (is_dict answer = false ->
   outcome_of (search_lego_sets cfg service query) w
   = Ok (error_dict ("Could not find any sets matching '" ++ query ++ "'"))).
Proof.
  pose proof (search_lego_sets_spec cfg service query w) as H.
  rewrite Hdelivered in H.
  split; [| split].
  - intros m l -> Hl. unfold dict_get in H. rewrite Hl in H.
    unfold slice_to in H. split; [exact H |].
    intros Hlen. rewrite firstn_all2 in H by exact Hlen. exact H.
  - intros m -> Hnone. unfold dict_get in H. rewrite Hnone in H. exact H.
  - intros Hnot. destruct answer; try discriminate; exact H.
Qed.

Lemma X2_search_results_prefix_witness :
  outcome_of (search_lego_sets example_settings
                (example_service (JList []) (JList [])) "falcon") initial_world
  = Ok (JList [JDict [("set_num", JStr "75192-1");
                      ("name", JStr "Millennium Falcon")]]).
Proof.
  refine (proj2 (proj1 (@X2_search_results_prefix example_settings
                          (example_service (JList []) (JList [])) "falcon"
                          initial_world _ eq_refl) _ _ eq_refl eq_refl) _).
  simpl. lia.
Defined.

(** X4: when the token request and the user request are answered and the
    user request's ['data'] is empty, [get_twitch_user_info] stops after
    these two exchanges and returns the mapping
    [{'error': "User '<username>' not found on Twitch"}], with the username
    as it was given. *)
Theorem X4_twitch_user_not_found
    (cfg : settings) (service : http_service) (username : string) (w : world)
    (r1 r2 : response) (auth user_data access_token ud : json) :
  let x1 := (POST_oauth2_token (TWITCH_CLIENT_ID cfg) (TWITCH_CLIENT_SECRET cfg),
             Ok r1) in
  let users_request :=
    GET_helix_users (TWITCH_CLIENT_ID cfg) access_token (lower username) in
  service (exchanges w) (fst x1) = Ok r1 ->
  delivered (Ok r1) = Some auth ->
  getitem auth "access_token" = Ok access_token ->
  service (exchanges w ++ [x1])%list users_request = Ok r2 ->
  delivered (Ok r2) = Some user_data ->
  getitem user_data "data" = Ok ud ->
  truthy ud = false ->
  get_twitch_user_info cfg service username w
  = (Ok (error_dict ("User '" ++ username ++ "' not found on Twitch")),
     record_exchange (record_exchange w x1) (users_request, Ok r2)).
Proof.
  intros x1 users_request H1 D1 Htoken H2 D2 Hdata Hfalsy.
  assert (Hdel : forall r j, delivered (Ok r) = Some j ->
                             (400 <=? status_code r) && (status_code r <? 600)
                             = false /\ body r = Ok j).
  { intros r j. unfold delivered, status_ok.
    destruct ((400 <=? status_code r) && (status_code r <? 600));
      [discriminate |]. simpl.
    destruct (body r); [| discriminate]. intros H. injection H as ->. auto. }
  destruct (Hdel r1 auth D1) as [S1 B1].
  destruct (Hdel r2 user_data D2) as [S2 B2].
  unfold get_twitch_user_info. rewrite try_print_ret.
  unfold twitch_user_info_body.
  unfold bind at 1. unfold send_request at 1. simpl in H1. rewrite H1.
  unfold bind at 1. unfold raise_for_status at 1. rewrite S1.
  unfold ret at 1. cbv beta iota.
  unfold bind at 1. unfold response_json at 1. unfold lift at 1. rewrite B1.
  unfold bind at 1. unfold lift at 1. rewrite Htoken.
  unfold bind at 1. unfold send_request at 1. cbn [exchanges].
  fold x1. fold users_request. rewrite H2.
  unfold bind at 1. unfold raise_for_status at 1. rewrite S2.
  unfold ret at 1. cbv beta iota.
  unfold bind at 1. unfold response_json at 1. unfold lift at 1. rewrite B2.
  unfold bind at 1. unfold lift at 1. rewrite Hdata.
  rewrite Hfalsy. reflexivity.
Qed.

Lemma X4_twitch_user_not_found_witness :
  outcome_of (get_twitch_user_info example_settings
                (example_service (JList []) (JList [])) "Bob") initial_world
  = Ok (error_dict "User 'Bob' not found on Twitch").
Proof.
  unfold outcome_of.
  rewrite (@X4_twitch_user_not_found example_settings
             (example_service (JList []) (JList [])) "Bob" initial_world
             (mk_response 200 (Ok (JDict [("access_token", JStr "token")])))
             (mk_response 200 (Ok (JDict [("data", JList [])])))
             (JDict [("access_token", JStr "token")])
             (JDict [("data", JList [])]) (JStr "token") (JList [])
             eq_refl eq_refl eq_refl eq_refl eq_refl eq_refl eq_refl).
  reflexivity.
Defined.

(** X6: when [TWITCH_CHANNEL] is not set, [get_twitch_user_info] returns an
    error mapping for every username and every answer of the service: the
    lookup cannot get past the normalisation of the channel name. *)
Theorem X6_twitch_lookup_needs_channel
    (cfg : settings) (service : http_service) (username : string) (w : world)
    (Hunset : TWITCH_CHANNEL cfg = None) :
  exists msg, outcome_of (get_twitch_user_info cfg service username) w
              = Ok (error_dict msg).
Proof.
  destruct (get_twitch_user_info_returns cfg service username w)
    as (v & w' & Hrun & Hv & _).
  unfold outcome_of. rewrite Hrun. simpl.
  destruct Hv as [(msg & ->) | Hu]; [exists msg; reflexivity |].
  exfalso.
  destruct Hu as (r1 & aj & token & r2 & uj & ud & ui & uid & r3 & cj & cd
                  & cdata & xs4 & fs & _ & _ & _ & _ & _ & _ & _ & _ & _ & _
                  & _ & _ & _ & _ & Hf & _).
  destruct Hf as (chan & r4 & bj & bd & rest & _ & Hchan & _).
  rewrite Hunset in Hchan. discriminate.
Qed.

Lemma X6_twitch_lookup_needs_channel_witness :
  let cfg := mk_settings None None None None None (Some "client-id")
               (Some "client-secret") "stream_info.yaml" in
  exists msg,
    outcome_of (get_twitch_user_info cfg
                  (example_service (JList []) (JList [])) "alice")
               initial_world
    = Ok (error_dict msg).
Proof.
  intros cfg.
  exact (@X6_twitch_lookup_needs_channel cfg
           (example_service (JList []) (JList [])) "alice" initial_world
           eq_refl).
Defined.

Section TwitchUsernameCase.

Variable cfg : settings.
Variable service : http_service.

Lemma same_but_error_text_bind {A : Type} (m : M A) (k1 k2 : A -> M json)
    (w : world) :
  (forall a w1, same_but_error_text (k1 a w1) (k2 a w1)) ->
  same_but_error_text (bind m k1 w) (bind m k2 w).
Proof.
  intros H. unfold bind. destruct (m w) as [[a | e] w1].
  - apply H.
  - split; [reflexivity | left; reflexivity].
Qed.

Lemma twitch_user_info_body_case (u u' : string) (w : world) :
  lower u = lower u' ->
  same_but_error_text (twitch_user_info_body cfg service u w)
                      (twitch_user_info_body cfg service u' w).
Proof.
  intros Hl. unfold twitch_user_info_body. rewrite Hl.
  repeat (apply same_but_error_text_bind; intros ? ?).
  match goal with
  | |- context [negb (truthy ?ud)] => destruct (negb (truthy ud))
  end.
  - split; [reflexivity |]. right. eexists. eexists. split; reflexivity.
  - split; [reflexivity | left; reflexivity].
Qed.

(** X5: the username is matched without regard to the case of its
    letters: for two usernames with the same lower-case form
    [get_twitch_user_info] sends the same requests, and a successful result
    for one is the result for the other. *)
Theorem X5_twitch_username_case (u u' : string) (w : world)
    (Hcase : lower u = lower u') :
  exchanges (world_after (get_twitch_user_info cfg service u) w)
  = exchanges (world_after (get_twitch_user_info cfg service u') w) /\
  (forall m,
      outcome_of (get_twitch_user_info cfg service u) w = Ok (JDict m) ->
      lookup "error" m = None ->
      outcome_of (get_twitch_user_info cfg service u') w = Ok (JDict m)).
Proof.
  pose proof (twitch_user_info_body_case u u' w Hcase) as [Hw Hr].
  pose proof (get_twitch_user_info_cases cfg service u w) as H1.
  pose proof (get_twitch_user_info_cases cfg service u' w) as H2.
  unfold world_after, outcome_of.
  destruct (twitch_user_info_body cfg service u w) as [r1 w1].
  destruct (twitch_user_info_body cfg service u' w) as [r2 w2].
  simpl in Hw, Hr. subst w2.
  destruct Hr as [<- | (a & b & -> & ->)].
  - destruct r1 as [v | e]; rewrite H1, H2; simpl.
    + split; [reflexivity | auto].
    + split; [reflexivity |]. intros m Hm. injection Hm as <-. discriminate.
  - rewrite H1, H2. simpl. split; [reflexivity |].
    intros m Hm. injection Hm as <-. discriminate.
Qed.

End TwitchUsernameCase.

Lemma X5_twitch_username_case_witness :
  outcome_of (get_twitch_user_info example_settings
                (example_service (JList []) (JList [])) "alice") initial_world
  = outcome_of (get_twitch_user_info example_settings
                  (example_service (JList []) (JList [])) "ALICE")
               initial_world.
Proof.
  destruct (@X5_twitch_username_case example_settings
              (example_service (JList []) (JList [])) "ALICE" "alice"
              initial_world eq_refl) as [_ H].
  symmetry. erewrite H; [| vm_compute; reflexivity | reflexivity].
  vm_compute. reflexivity.
Defined.

(* ----------------------------------------------------------------- *)
(** ** More on [get_stream_info] *)

Section StreamInfoMore.

Variable cfg : settings.

(** X9: the answer of [get_stream_info] depends on the file and the
    category only, a missing file that can be created counting as a file
    with the defaults; so no call changes the answer of a later call,
    whatever categories the two ask for. *)
Theorem X9_stream_info_calls_do_not_interfere
    (earlier later : option string) (w : world) :
  outcome_of (get_stream_info cfg later)
             (world_after (get_stream_info cfg earlier) w)
  = outcome_of (get_stream_info cfg later) w /\
  (forall w', stream_info_file w' = stream_info_file w ->
              outcome_of (get_stream_info cfg later) w'
              = outcome_of (get_stream_info cfg later) w).
Proof.
  split.
  - destruct (stream_info_file w) as [| e | doc | e] eqn:Hfile.
    + destruct (get_stream_info_creates cfg earlier w Hfile) as [H1 _].
      destruct (get_stream_info_creates cfg later w Hfile) as [_ H2].
      rewrite H2. apply get_stream_info_same_file.
      * rewrite H1. reflexivity.
      * rewrite H1. discriminate.
    + apply get_stream_info_same_file.
      * apply get_stream_info_keeps_file. rewrite Hfile. discriminate.
      * rewrite get_stream_info_keeps_file; rewrite Hfile; discriminate.
    + apply get_stream_info_same_file.
      * apply get_stream_info_keeps_file. rewrite Hfile. discriminate.
      * rewrite get_stream_info_keeps_file; rewrite Hfile; discriminate.
    + apply get_stream_info_same_file.
      * apply get_stream_info_keeps_file. rewrite Hfile. discriminate.
      * rewrite get_stream_info_keeps_file; rewrite Hfile; discriminate.
  - intros w' Hsame.
    destruct (stream_info_file w) as [| e | doc | e] eqn:Hfile.
    + destruct (get_stream_info_creates cfg later w Hfile) as [_ H2].
      destruct (get_stream_info_creates cfg later w' Hsame) as [_ H3].
      rewrite H2, H3. reflexivity.
    + apply get_stream_info_same_file; rewrite Hsame; [auto | discriminate].
    + apply get_stream_info_same_file; rewrite Hsame; [auto | discriminate].
    + apply get_stream_info_same_file; rewrite Hsame; [auto | discriminate].
Qed.

(** X8: when the file holds a document that is not a mapping (an empty
    file loads as [None], a YAML sequence as a list), a call without
    category returns that document as it is, and a call with a non-empty
    category returns an error mapping whatever the category. *)
Theorem X8_stream_info_document_not_a_mapping
    (doc : json) (c : string) (w : world)
    (Hfile : stream_info_file w = FileHolds doc)
    (Hdoc : is_dict doc = false)
    (Hc : c <> "") :
  get_stream_info cfg None w = (Ok doc, w) /\
  exists msg,
    outcome_of (get_stream_info cfg (Some c)) w = Ok (error_dict msg).
Proof.
  split; [apply get_stream_info_whole; auto |].
  apply String.eqb_neq in Hc.
  unfold outcome_of, get_stream_info.
  rewrite try_print_ret, load_or_create, Hfile.
  unfold no_category. rewrite Hc. unfold bind, lift, ret.
  destruct doc as [| b | z | f | s | l | m]; try discriminate; simpl;
    try (eexists; reflexivity).
  - destruct (str_in c s); eexists; reflexivity.
  - destruct (existsb _ l); eexists; reflexivity.
Qed.

End StreamInfoMore.

Lemma X8_stream_info_document_not_a_mapping_witness :
  let w := mk_world [] (FileHolds JNull) [] recent_events 0 [] [] in
  get_stream_info example_settings None w = (Ok JNull, w) /\
  exists msg,
    outcome_of (get_stream_info example_settings (Some "schedule")) w
    = Ok (error_dict msg).
Proof.
  intros w.
  refine (@X8_stream_info_document_not_a_mapping example_settings JNull
            "schedule" w eq_refl eq_refl _).
  discriminate.
Defined.

(* ----------------------------------------------------------------- *)
(** ** How long an event stays in the logs (config.py) *)

Lemma subscriber_entries_app (a b : list call) :
  subscriber_entries (a ++ b)
  = (subscriber_entries a ++ subscriber_entries b)%list.
Proof.
  induction a as [| [u t m msg now | u v now] a IH]; simpl;
    [reflexivity | rewrite IH; reflexivity | exact IH].
Qed.

Lemma raider_entries_app (a b : list call) :
  raider_entries (a ++ b) = (raider_entries a ++ raider_entries b)%list.
Proof.
  induction a as [| [u t m msg now | u v now] a IH]; simpl;
    [reflexivity | exact IH | rewrite IH; reflexivity].
Qed.

Lemma lastn_keeps_recent {A : Type} (n : nat) (l1 l2 : list A) (x : A) :
  (length l2 < n)%nat -> In x (lastn n (l1 ++ x :: l2)).
Proof.
  intros Hlen. unfold lastn. rewrite length_app. simpl.
  rewrite skipn_app.
  replace (length l1 + S (length l2) - n - length l1)%nat with 0%nat by lia.
  apply in_or_app. right. left. reflexivity.
Qed.

Lemma lastn_drops_old {A : Type} (n : nat) (l1 l2 : list A) :
  (n <= length l2)%nat -> lastn n (l1 ++ l2) = lastn n l2.
Proof.
  intros Hlen. unfold lastn. rewrite length_app, skipn_app.
  rewrite skipn_all2 by lia. simpl. f_equal. lia.
Qed.

(** X10: a recorded event stays in its log as long as fewer than ten later
    events of the same kind were recorded, however many events of the other
    kind arrive in between; after ten later events of its kind the log
    consists of those later events alone. *)
Theorem X10_event_retention (before after : list call) :
  (forall u t m msg now,
      let log := subscribers (run_calls (before ++ AddSubscriber u t m msg now
                                           :: after) recent_events) in
      ((length (subscriber_entries after) < 10)%nat ->
       In (mk_subscriber u t m msg now) log) /\
      ((10 <= length (subscriber_entries after))%nat ->
       log = lastn 10 (subscriber_entries after))) /\
  (forall u v now,
      let log := raiders (run_calls (before ++ AddRaider u v now :: after)
                            recent_events) in
      ((length (raider_entries after) < 10)%nat ->
       In (mk_raider u v now) log) /\
      ((10 <= length (raider_entries after))%nat ->
       log = lastn 10 (raider_entries after))).
Proof.
  split.
  - intros u t m msg now log.
    destruct (@run_calls_lastn (before ++ AddSubscriber u t m msg now :: after)
                recent_events [] [] eq_refl eq_refl) as [Hs _].
    simpl in Hs. fold log in Hs. rewrite subscriber_entries_app in Hs.
    simpl in Hs. rewrite Hs. split; intros Hlen.
    + apply lastn_keeps_recent. exact Hlen.
    + change (mk_subscriber u t m msg now :: subscriber_entries after)
        with ([mk_subscriber u t m msg now] ++ subscriber_entries after)%list.
      rewrite app_assoc. apply lastn_drops_old. exact Hlen.
  - intros u v now log.
    destruct (@run_calls_lastn (before ++ AddRaider u v now :: after)
                recent_events [] [] eq_refl eq_refl) as [_ Hr].
    simpl in Hr. fold log in Hr. rewrite raider_entries_app in Hr.
    simpl in Hr. rewrite Hr. split; intros Hlen.
    + apply lastn_keeps_recent. exact Hlen.
    + change (mk_raider u v now :: raider_entries after)
        with ([mk_raider u v now] ++ raider_entries after)%list.
      rewrite app_assoc. apply lastn_drops_old. exact Hlen.
Qed.

(** A subscription is still in the log after nine later subscriptions and
    three raids. *)
Lemma X10_event_retention_witness :
  let later := (map (fun n => AddSubscriber "viewer" None None None n)
                    [2; 3; 4; 5; 6; 7; 8; 9; 10]
                ++ map (fun n => AddRaider "raider" 5 n) [11; 12; 13])%list in
  In (mk_subscriber "first" (Some "1000") None None 1)
     (subscribers (run_calls (AddSubscriber "first" (Some "1000") None None 1
                                :: later) recent_events)).
Proof.
  intros later.
  destruct (X10_event_retention [] later) as [H _].
  apply (H "first" (Some "1000") None None 1).
  vm_compute. lia.
Defined.

(* ----------------------------------------------------------------- *)
(** ** The handlers of the bot (bot.py) *)

Lemma lower_app (a b : string) : lower (a ++ b) = lower a ++ lower b.
Proof. induction a as [| c a IH]; simpl; [reflexivity | now rewrite IH]. Qed.

Lemma prefix_app (n b : string) : String.prefix n (n ++ b) = true.
Proof.
  induction n as [| c n IH]; simpl; [destruct b; reflexivity |].
  destruct (ascii_dec c c) as [_ | Hneq]; [exact IH | congruence].
Qed.

Lemma str_in_prefix (n hay : string) :
  String.prefix n hay = true -> str_in n hay = true.
Proof. destruct hay; simpl; intros ->; reflexivity. Qed.

Lemma str_in_app (n a b : string) : str_in n (a ++ n ++ b) = true.
Proof.
  induction a as [| c a IH].
  - apply str_in_prefix. exact (prefix_app n b).
  - change ((String c a) ++ n ++ b) with (String c (a ++ n ++ b)).
    simpl. rewrite IH. apply orb_true_r.
Qed.

Section Handlers.

Variable cfg : settings.
Variable service : http_service.
Variable ainvoke : AgentExecutor -> string -> M run_result.

(** X11: [event_message] answers a message that is not the bot's own echo
    whenever the bot's name occurs anywhere in it, in any mix of upper and
    lower case: it dispatches the author and the unchanged content and
    sends the truncated reply.  It does nothing at all for an echo, and
    nothing for a message whose lower-case form does not contain the name.
    The messages are those of characters up to U+00FF, on which [lower] is
    [str.lower()]; a message with a character beyond them (the Kelvin sign
    U+212A, whose lower-case form is [k]) is not among them. *)
Theorem X11_bot_answers_when_named
    (before name after author : string) (w : world)
    (Hname : lower name = "bricknplatebot") :
  let content := before ++ name ++ after in
  (exists reply w1,
      process_chat_message cfg service ainvoke author content w
      = (Ok reply, w1) /\
      event_message cfg service ainvoke (mk_chat_message false content author) w
      = channel_send (truncate reply) w1) /\
  event_message cfg service ainvoke (mk_chat_message true content author) w
  = (Ok tt, w) /\
  (forall other,
      str_in "bricknplatebot" (lower other) = false ->
      event_message cfg service ainvoke (mk_chat_message false other author) w
      = (Ok tt, w)).
Proof.
  intros content. split; [| split].
  - destruct (process_chat_message_returns cfg service ainvoke author content w)
      as (reply & w1 & Hrun).
    exists reply, w1. split; [exact Hrun |].
    unfold event_message. cbn [echo Bot.content author_name].
    unfold content at 1. rewrite !lower_app, Hname, str_in_app.
    fold content. unfold bind. rewrite Hrun. reflexivity.
  - reflexivity.
  - intros other Hother. unfold event_message.
    cbn [echo Bot.content author_name]. rewrite Hother. reflexivity.
Qed.

Hypothesis ainvoke_quiet : quiet ainvoke.

Lemma process_event_quiet (event_type username : string)
    (details : option details_t) :
  preserves chat (process_event cfg service ainvoke event_type username details)
  /\ preserves events
       (process_event cfg service ainvoke event_type username details).
Proof.
  unfold process_event. cbv zeta.
  split; frame; apply ainvoke_quiet.
Qed.

Lemma process_chat_message_quiet (username message : string) :
  preserves chat (process_chat_message cfg service ainvoke username message)
  /\ preserves events
       (process_chat_message cfg service ainvoke username message).
Proof.
  unfold process_chat_message. cbv zeta.
  split; frame; apply ainvoke_quiet.
Qed.

(** What a handler that records, dispatches and sends leaves behind. *)
Lemma record_dispatch_send (record : M unit) (dispatch : M string)
    (w : world) (logs : recent_events_t) :
  (forall w0, record w0 = (Ok tt, world_after record w0)) ->
  events (world_after record w) = logs ->
  chat (world_after record w) = chat w ->
  preserves chat dispatch -> preserves events dispatch ->
  (forall w0, exists reply w1, dispatch w0 = (Ok reply, w1)) ->
  let handler :=
    bind record (fun _ => bind dispatch
                            (fun message => channel_send (truncate message))) in
  outcome_of handler w = Ok tt /\
  events (world_after handler w) = logs /\
  exists text,
    chat (world_after handler w) = (chat w ++ [text])%list /\
    (String.length text <= 500)%nat.
Proof.
  intros Hrec Hlogs Hchat Hpc Hpe Hret handler.
  unfold handler, world_after, outcome_of, bind in *.
  rewrite Hrec. simpl.
  specialize (Hpc (snd (record w))). specialize (Hpe (snd (record w))).
  destruct (Hret (snd (record w))) as (reply & w1 & Hrun).
  unfold world_after in Hpc, Hpe. rewrite Hrun in *. simpl in *.
  split; [reflexivity |]. split; [congruence |].
  exists (truncate reply). split; [congruence |].
  apply truncate_fits.
Qed.

(** X12: with an executor call that itself neither sends nor records, each
    event handler returns without raising, records the event in the
    recent-event log with the clock's reading (the plan as tier; for a
    resubscription also the months and the message text, the empty string
    when there is no message), and sends exactly one text of at most 500
    characters. *)
Theorem X12_handlers_record_and_send (w : world) :
  (forall event,
      let h := event_subscribe cfg service ainvoke event in
      outcome_of h w = Ok tt /\
      events (world_after h w)
      = Config.add_subscriber (subscribe_user_name event)
          (Some (subscribe_sub_plan event)) None None (clock w) (events w) /\
      exists text, chat (world_after h w) = (chat w ++ [text])%list /\
                   (String.length text <= 500)%nat) /\
  (forall event,
      let h := event_resub cfg service ainvoke event in
      outcome_of h w = Ok tt /\
      events (world_after h w)
      = Config.add_subscriber (resub_user_name event)
          (Some (resub_sub_plan event)) (Some (cumulative_months event))
          (Some match resub_message event with Some c => c | None => "" end)
          (clock w) (events w) /\
      exists text, chat (world_after h w) = (chat w ++ [text])%list /\
                   (String.length text <= 500)%nat) /\
  (forall event,
      let h := event_raid cfg service ainvoke event in
      outcome_of h w = Ok tt /\
      events (world_after h w)
      = Config.add_raider (raider_name event) (viewers event) (clock w)
          (events w) /\
      exists text, chat (world_after h w) = (chat w ++ [text])%list /\
                   (String.length text <= 500)%nat).
Proof.
  split; [| split]; intros event h; unfold h;
    [unfold event_subscribe | unfold event_resub; cbv zeta | unfold event_raid];
    apply record_dispatch_send;
    try reflexivity;
    try apply process_event_quiet;
    intros w0; apply process_event_returns.
Qed.

End Handlers.

Lemma X11_bot_answers_when_named_witness :
  chat (world_after
          (event_message example_settings unreachable_service
             (answering_ainvoke "Friday at 8pm!")
             (mk_chat_message false "hey BRICKnPLATEbot, when do you stream?"
                "alice"))
          initial_world)
  = ["Friday at 8pm!"].
Proof.
  destruct (@X11_bot_answers_when_named example_settings unreachable_service
              (answering_ainvoke "Friday at 8pm!") "hey " "BRICKnPLATEbot"
              ", when do you stream?" "alice" initial_world eq_refl)
    as ((reply & w1 & Hrun & Hsend) & _).
  unfold world_after.
  change ("hey BRICKnPLATEbot, when do you stream?")
    with ("hey " ++ "BRICKnPLATEbot" ++ ", when do you stream?").
  rewrite Hsend.
  assert (Hc : process_chat_message example_settings unreachable_service
                 (answering_ainvoke "Friday at 8pm!") "alice"
                 ("hey " ++ "BRICKnPLATEbot" ++ ", when do you stream?")
                 initial_world = (Ok "Friday at 8pm!", initial_world))
    by reflexivity.
  rewrite Hc in Hrun. injection Hrun as <- <-. reflexivity.
Defined.

Lemma X12_handlers_record_and_send_witness :
  let h := event_raid example_settings unreachable_service
             (answering_ainvoke "Welcome raiders!")
             (mk_raid_event "bob" 42) in
  events (world_after h initial_world)
  = mk_recent [] [mk_raider "bob" 42 0].
Proof.
  intros h.
  assert (Hq : quiet (answering_ainvoke "Welcome raiders!"))
    by (intros ex input; split; intros w; reflexivity).
  destruct (@X12_handlers_record_and_send example_settings unreachable_service
              (answering_ainvoke "Welcome raiders!") Hq initial_world)
    as (_ & _ & Hraid).
  destruct (Hraid (mk_raid_event "bob" 42)) as (_ & Hev & _).
  exact Hev.
Defined.

Section HandlersFallBack.

Variable cfg : settings.
Variable service : http_service.
Variable ainvoke : AgentExecutor -> string -> M run_result.

Lemma process_event_raises (event_type username : string)
    (details : option details_t) (w w1 : world) (e : exn) :
  dispatch_raises ainvoke (create_event_agent cfg service)
    (event_prompt event_type username (details_or_empty details)) w e w1 ->
  process_event cfg service ainvoke event_type username details w
  = (Ok (event_fallback event_type username (details_or_empty details)),
     world_after (print ("Error processing event: " ++ str_exn e)) w1).
Proof.
  intros Hraise.
  pose proof (process_event_cases cfg service ainvoke event_type username
                details w) as H.
  cbv zeta in H.
  destruct Hraise as [Hr | (r & Hr & Hout)]; rewrite Hr in H.
  - exact H.
  - rewrite Hout in H. exact H.
Qed.

Lemma process_chat_message_raises (username message : string)
    (w w1 : world) (e : exn) :
  dispatch_raises ainvoke (create_chat_agent cfg service)
    (username ++ ": " ++ message) w e w1 ->
  process_chat_message cfg service ainvoke username message w
  = (Ok ("Sorry, I encountered an error while processing your message! Error: "
         ++ str_exn e),
     world_after (print ("Error processing message: " ++ str_exn e)) w1).
Proof.
  intros Hraise.
  pose proof (process_chat_message_cases cfg service ainvoke username message w)
    as H.
  cbv zeta in H.
  destruct Hraise as [Hr | (r & Hr & Hout)]; rewrite Hr in H.
  - exact H.
  - rewrite Hout in H. exact H.
Qed.

(** X13: when the dispatch of an event raises, the handler still sends one
    text, made from the event alone: a raid is thanked with its viewer
    count, a subscription with the plain sub text, a resubscription with
    its number of months unless that number is 0, and a chat message gets
    the apology with the error text; each is truncated like any reply. *)
Theorem X13_handlers_fall_back (w w1 : world) (e : exn) :
  (forall event,
      dispatch_raises ainvoke (create_event_agent cfg service)
        (event_prompt "raid" (raider_name event)
           [("viewers", SInt (viewers event))])
        (world_after (Bot.add_raider (raider_name event) (viewers event)) w)
        e w1 ->
      chat (world_after (event_raid cfg service ainvoke event) w)
      = (chat w1
           ++ [truncate ("Thanks for the amazing raid, " ++ raider_name event
                         ++ ", with " ++ str_int (viewers event)
                         ++ " viewers! Welcome to our brick-building adventure!")])%list) /\
  (forall event,
      dispatch_raises ainvoke (create_event_agent cfg service)
        (event_prompt "subscription" (subscribe_user_name event)
           [("tier", SStr (subscribe_sub_plan event))])
        (world_after (Bot.add_subscriber (subscribe_user_name event)
                        (Some (subscribe_sub_plan event)) None None) w)
        e w1 ->
      chat (world_after (event_subscribe cfg service ainvoke event) w)
      = (chat w1
           ++ [truncate ("Thanks for the sub, " ++ subscribe_user_name event
                         ++ "! You're an essential piece in our community!")])%list) /\
  (forall event,
      let text := match resub_message event with Some c => c | None => "" end in
      dispatch_raises ainvoke (create_event_agent cfg service)
        (event_prompt "resub" (resub_user_name event)
           [("months", SInt (cumulative_months event));
            ("tier", SStr (resub_sub_plan event));
            ("message", SStr text)])
        (world_after (Bot.add_subscriber (resub_user_name event)
                        (Some (resub_sub_plan event))
                        (Some (cumulative_months event)) (Some text)) w)
        e w1 ->
      chat (world_after (event_resub cfg service ainvoke event) w)
      = (chat w1
           ++ [truncate
                 (if cumulative_months event =? 0
                  then "Thanks for the sub, " ++ resub_user_name event
                       ++ "! You're an essential piece in our community!"
                  else "Thanks for the " ++ str_int (cumulative_months event)
                       ++ "-month sub, " ++ resub_user_name event
                       ++ "! You're an essential piece in our community!")])%list) /\
  (forall message,
      echo message = false ->
      str_in "bricknplatebot" (lower (content message)) = true ->
      dispatch_raises ainvoke (create_chat_agent cfg service)
        (author_name message ++ ": " ++ content message) w e w1 ->
      chat (world_after (event_message cfg service ainvoke message) w)
      = (chat w1
           ++ [truncate ("Sorry, I encountered an error while processing your message! Error: "
                         ++ str_exn e)])%list).
Proof.
  split; [| split; [| split]].
  - intros event Hraise.
    apply (process_event_raises "raid" (raider_name event)
             (Some [("viewers", SInt (viewers event))])) in Hraise.
    unfold event_raid, world_after, bind in *. simpl in *.
    rewrite Hraise. reflexivity.
  - intros event Hraise.
    apply (process_event_raises "subscription" (subscribe_user_name event)
             (Some [("tier", SStr (subscribe_sub_plan event))])) in Hraise.
    unfold event_subscribe, world_after, bind in *. simpl in *.
    rewrite Hraise. reflexivity.
  - intros event text Hraise.
    apply (process_event_raises "resub" (resub_user_name event)
             (Some [("months", SInt (cumulative_months event));
                    ("tier", SStr (resub_sub_plan event));
                    ("message", SStr text)])) in Hraise.
    unfold event_resub, world_after, bind in *. fold text.
    cbn [Bot.add_subscriber snd fst] in *.
    rewrite Hraise. cbn [snd fst channel_send chat print].
    f_equal. f_equal. f_equal.
    unfold event_fallback, details_or_empty. simpl.
    destruct (cumulative_months event =? 0); simpl; [reflexivity |].
    do 15 f_equal. apply string_app_assoc.
  - intros message Hecho Hnamed Hraise.
    apply process_chat_message_raises in Hraise.
    unfold event_message, world_after, bind. rewrite Hecho, Hnamed, Hraise.
    reflexivity.
Qed.

End HandlersFallBack.

Lemma X13_handlers_fall_back_witness :
  chat (world_after
          (event_resub example_settings unreachable_service failing_ainvoke
             (mk_resub_event "dave" "1000" 12 None)) initial_world)
  = ["Thanks for the 12-month sub, dave! You're an essential piece in our community!"].
Proof.
  destruct (@X13_handlers_fall_back example_settings unreachable_service
              failing_ainvoke initial_world
              (world_after
                 (Bot.add_subscriber "dave" (Some "1000") (Some 12) (Some ""))
                 initial_world)
              (mk_exn "APIError" "model unavailable"))
    as (_ & _ & Hresub & _).
  rewrite (Hresub (mk_resub_event "dave" "1000" 12 None)).
  - reflexivity.
  - left. reflexivity.
Defined.

(* ----------------------------------------------------------------- *)
(** ** Start-up of the bot (bot.py) *)

Lemma str_join_from_set (sep : string) (channels : list string) (index : nat) :
  BotStartup.str_join_from sep index (map Some channels)
  = Ok (String.concat sep channels).
Proof.
  revert index. induction channels as [| c cs IH]; intros index; simpl.
  - reflexivity.
  - destruct cs as [| c' cs]; [reflexivity |].
    change (map Some (c' :: cs)) with (Some c' :: map Some cs) in *.
    cbv iota. rewrite (IH (S index)). reflexivity.
Qed.

Lemma str_join_from_unset (sep : string) (items : list (option string)) :
  In None items ->
  forall index,
    exists e, BotStartup.str_join_from sep index items = Raise e
              /\ exn_type e = "TypeError".
Proof.
  induction items as [| [s |] rest IH]; intros Hin index.
  - destruct Hin.
  - destruct Hin as [Hin | Hin]; [discriminate |].
    destruct (IH Hin (S index)) as (e & He & Ht).
    simpl. destruct rest as [| x rest']; [destruct Hin |].
    rewrite He. eauto.
  - simpl. eexists. split; reflexivity.
Qed.

(** X14: [event_ready] prints the line ["<bot name> is online!"] (with
    ["None"] for a bot name that is not set) and then the joined channels;
    when a channel is not set, as with [TWITCH_CHANNEL] missing from the
    environment, joining the channel names raises a [TypeError] after the
    first line is printed, and the handler does not catch it. *)
Theorem X14_event_ready (cfg : settings) (self : BotStartup.bot_state)
    (w : world) :
  let online := BotStartup.str_setting (TWITCH_BOT_USERNAME cfg)
                ++ " is online!" in
  (forall channels,
      BotStartup.connected_channels self = map Some channels ->
      outcome_of (BotStartup.event_ready cfg self) w = Ok tt /\
      stdout (world_after (BotStartup.event_ready cfg self) w)
      = (stdout w
           ++ [online;
               ("Joined channels: " ++ String.concat ", " channels)%string])%list) /\
  (In None (BotStartup.connected_channels self) ->
   (exists e, outcome_of (BotStartup.event_ready cfg self) w = Raise e
              /\ exn_type e = "TypeError") /\
   stdout (world_after (BotStartup.event_ready cfg self) w)
   = (stdout w ++ [online])%list) /\
  BotStartup.connected_channels (BotStartup.init_bot cfg)
  = [TWITCH_CHANNEL cfg].
Proof.
  intros online. split; [| split; [| reflexivity]].
  - intros channels Hset.
    unfold outcome_of, world_after, BotStartup.event_ready, bind, lift,
      BotStartup.str_join.
    rewrite Hset, str_join_from_set. simpl.
    rewrite <- app_assoc. split; reflexivity.
  - intros Hunset.
    destruct (str_join_from_unset ", " _ Hunset 0) as (e & He & Ht).
    unfold outcome_of, world_after, BotStartup.event_ready, bind, lift,
      BotStartup.str_join.
    rewrite He. simpl. split; [eauto | reflexivity].
Qed.

Lemma X14_event_ready_witness :
  stdout (world_after
            (BotStartup.event_ready example_settings
               (BotStartup.init_bot example_settings)) initial_world)
  = ["BrickNPlateBot is online!"; "Joined channels: #BrickNPlate"].
Proof.
  destruct (X14_event_ready example_settings
              (BotStartup.init_bot example_settings) initial_world)
    as (Hset & _).
  destruct (Hset ["#BrickNPlate"] eq_refl) as [_ H].
  exact H.
Defined.

(* ----------------------------------------------------------------- *)
(** ** No history is carried from one message to the next (agents.py) *)

(** X15: both dispatchers build their executor anew at every call, the chat
    dispatcher with an empty [ConversationBufferMemory] and the event
    dispatcher with none; so two library behaviours that agree on executors
    without history give the same replies: earlier messages cannot
    influence the answer to a later one through the memory. *)
Theorem X15_dispatchers_start_without_history
    (cfg : settings) (service : http_service)
    (ainvoke1 ainvoke2 : AgentExecutor -> string -> M run_result)
    (Hagree : forall ex input w,
        history_of ex = [] -> ainvoke1 ex input w = ainvoke2 ex input w) :
  (forall username message w,
      process_chat_message cfg service ainvoke1 username message w
      = process_chat_message cfg service ainvoke2 username message w) /\
  (forall event_type username details w,
      process_event cfg service ainvoke1 event_type username details w
      = process_event cfg service ainvoke2 event_type username details w) /\
  history_of (create_chat_agent cfg service) = [] /\
  history_of (create_event_agent cfg service) = [].
Proof.
  split; [| split; [| split; reflexivity]].
  - intros username message w.
    unfold process_chat_message, try_except, bind. cbv zeta.
    rewrite Hagree by reflexivity. reflexivity.
  - intros event_type username details w.
    unfold process_event, try_except, bind. cbv zeta.
    rewrite Hagree by reflexivity. reflexivity.
Qed.

Lemma X15_dispatchers_start_without_history_witness :
  process_chat_message example_settings unreachable_service
    history_sensitive_ainvoke "alice" "BrickNPlateBot, remember me?"
    initial_world
  = process_chat_message example_settings unreachable_service
      failing_ainvoke "alice" "BrickNPlateBot, remember me?" initial_world.
Proof.
  refine (proj1 (@X15_dispatchers_start_without_history example_settings
                   unreachable_service history_sensitive_ainvoke
                   failing_ainvoke _) _ _ _).
  intros ex input w Hhist. unfold history_sensitive_ainvoke.
  rewrite Hhist. reflexivity.
Defined.

(* ----------------------------------------------------------------- *)
(** ** The name of the bot's own channel (tools.py) *)

Lemma lstrip_not_leading (c : ascii) (s : string) :
  forall rest, lstrip c s <> String c rest.
Proof.
  induction s as [| d s IH]; intros rest; simpl.
  - discriminate.
  - destruct (Ascii.eqb c d) eqn:E; [apply IH |].
    intros H. injection H as <- _. rewrite Ascii.eqb_refl in E. discriminate.
Qed.

Lemma lower_idempotent (s : string) : lower (lower s) = lower s.
Proof.
  induction s as [| c s IH]; simpl; [reflexivity |]. rewrite IH. f_equal.
  destruct c as [[] [] [] [] [] [] [] []]; reflexivity.
Qed.

(** X16: the bot's own channel is looked up by the lower-case form of
    [TWITCH_CHANNEL] without its leading ['#'] characters, so the login
    never starts with ['#'], and two settings of the channel with the same
    normalised name (["#BrickNPlate"] and ["bricknplate"], say) make
    [get_twitch_user_info] behave in the same way. *)
Theorem X16_channel_name_normalised
    (cfg : settings) (service : http_service) (c1 c2 : string)
    (Hsame : channel_name_of (Some c1) = channel_name_of (Some c2)) :
  (forall username w,
      get_twitch_user_info (with_channel cfg c1) service username w
      = get_twitch_user_info (with_channel cfg c2) service username w) /\
  channel_name_of (Some ("#" ++ c1)) = channel_name_of (Some c1) /\
  channel_name_of (Some (lower c1)) = channel_name_of (Some c1) /\
  (forall name rest, channel_name_of (Some c1) = Ok name ->
                     name <> String "#" rest).
Proof.
  split; [| split; [| split]].
  - intros username w.
    unfold get_twitch_user_info, twitch_user_info_body, check_follow.
    cbn [TWITCH_CHANNEL TWITCH_CLIENT_ID TWITCH_CLIENT_SECRET with_channel].
    rewrite Hsame. reflexivity.
  - reflexivity.
  - unfold channel_name_of. rewrite lower_idempotent. reflexivity.
  - intros name rest Hname. unfold channel_name_of in Hname.
    injection Hname as <-. apply lstrip_not_leading.
Qed.

Lemma X16_channel_name_normalised_witness :
  get_twitch_user_info (with_channel example_settings "#BrickNPlate")
    (example_service (JList []) (JList [])) "alice" initial_world
  = get_twitch_user_info (with_channel example_settings "bricknplate")
      (example_service (JList []) (JList [])) "alice" initial_world.
Proof.
  exact (proj1 (@X16_channel_name_normalised example_settings
                  (example_service (JList []) (JList [])) "#BrickNPlate"
                  "bricknplate" eq_refl) "alice" initial_world).
Defined.
